(** * convert_to_csv_exports.py: worksheet extraction and CSV encoding

    A shallow embedding of [convert_to_csv_exports.py] and the properties its
    specification states about it.

    Conventions of the model.
    - A Python [str] is a [string]; a character stands for the Unicode code
      point of the same number, so the model covers text whose code points
      are below 256.
    - Python exceptions are the constructors of [exn]; code that can raise
      returns a [result].
    - An archive maps part names to what [ET.fromstring] makes of the part's
      bytes: a root element, or a parse error.
    - The output directory is a finite map from path strings to file
      contents. *)

From Stdlib Require Import ZArith Ascii String DecimalString Lia Bool.
From stdpp Require Import base gmap strings list.

Local Open Scope Z_scope.

(** ** Python built-ins used by the script *)

Module Py.

Definition CR : ascii := "013"%char.
Definition LF : ascii := "010"%char.
Definition SPACE : ascii := " "%char.
Definition DQUOTE : ascii := "034"%char.
Definition COMMA : ascii := ","%char.
Definition UNDERSCORE : ascii := "_"%char.

Definition ord (c : ascii) : Z := Z.of_N (N_of_ascii c).

Definition in_range (lo hi : Z) (c : ascii) : bool :=
  (lo <=? ord c) && (ord c <=? hi).

(** [str.isspace] on one character (code points below 256). *)
Definition is_space (c : ascii) : bool :=
  in_range 9 13 c || in_range 28 32 c || (ord c =? 133) || (ord c =? 160).

Definition is_digit (c : ascii) : bool := in_range 48 57 c.
Definition is_upper_AZ (c : ascii) : bool := in_range 65 90 c.
Definition is_lower_az (c : ascii) : bool := in_range 97 122 c.

Definition str (c : ascii) : string := String c EmptyString.

Fixpoint mem (c : ascii) (chars : string) : bool :=
  match chars with
  | EmptyString => false
  | String d rest => if decide (c = d) then true else mem c rest
  end.

(** [s.lstrip], [s.rstrip] and [s.strip], over the set of characters [p]. *)
Fixpoint lstrip_with (p : ascii → bool) (s : string) : string :=
  match s with
  | EmptyString => EmptyString
  | String c rest => if p c then lstrip_with p rest else s
  end.

Fixpoint rstrip_with (p : ascii → bool) (s : string) : string :=
  match s with
  | EmptyString => EmptyString
  | String c rest =>
      match rstrip_with p rest with
      | EmptyString => if p c then EmptyString else str c
      | r => String c r
      end
  end.

Definition strip_with (p : ascii → bool) (s : string) : string :=
  rstrip_with p (lstrip_with p s).

(** [s.strip()] *)
Definition strip (s : string) : string := strip_with is_space s.
(** [s.strip(chars)] and [s.lstrip(chars)] *)
Definition strip_chars (chars s : string) : string := strip_with (λ c, mem c chars) s.
Definition lstrip_chars (chars s : string) : string := lstrip_with (λ c, mem c chars) s.

(** [s.startswith(p)] *)
Fixpoint startswith (s p : string) : bool :=
  match p, s with
  | EmptyString, _ => true
  | String a p', String b s' => if decide (a = b) then startswith s' p' else false
  | String _ _, EmptyString => false
  end.

(** [s.replace(old, new)]: occurrences of [old] are found left to right and
    do not overlap; [skip] counts the characters of an occurrence still to
    be passed over. *)
Fixpoint replace_go (old new : string) (skip : nat) (s : string) : string :=
  match s with
  | EmptyString => EmptyString
  | String c rest =>
      match skip with
      | S k => replace_go old new k rest
      | O =>
          if startswith s old
          then new +:+ replace_go old new (Nat.pred (String.length old)) rest
          else String c (replace_go old new O rest)
      end
  end.

Fixpoint intersperse_str (new s : string) : string :=
  match s with
  | EmptyString => new
  | String c rest => new +:+ String c (intersperse_str new rest)
  end.

Definition replace (old new s : string) : string :=
  match old with
  | EmptyString => intersperse_str new s
  | _ => replace_go old new O s
  end.

(** [sep.join(parts)] *)
Fixpoint join (sep : string) (parts : list string) : string :=
  match parts with
  | [] => EmptyString
  | [p] => p
  | p :: rest => p +:+ sep +:+ join sep rest
  end.

(** [str.upper] on one character. The capital forms of the code points 181
    and 255 lie above 255 and are no ASCII letters; they are left as they
    are, which no caller can tell apart: the only use reads the leading
    run of [A-Z]. The sharp s (223) becomes two letters. *)
Definition upper_char (c : ascii) : string :=
  if is_lower_az c then str (ascii_of_N (Z.to_N (ord c - 32)))
  else if ord c =? 223 then "SS"
  else if in_range 224 254 c && negb (ord c =? 247)
       then str (ascii_of_N (Z.to_N (ord c - 32)))
  else str c.

Fixpoint upper (s : string) : string :=
  match s with
  | EmptyString => EmptyString
  | String c rest => upper_char c +:+ upper rest
  end.

(** Exceptions the script can meet. *)
Inductive exn :=
| KeyError (key : string)
| ParseError
| ValueError (msg : string)
| IndexError.

Inductive result (A : Type) :=
| Ok (a : A)
| Raise (e : exn).
Arguments Ok {A} a.
Arguments Raise {A} e.

Definition bind {A B} (c : result A) (k : A → result B) : result B :=
  match c with
  | Ok a => k a
  | Raise e => Raise e
  end.

(** [try: c  except <handled>: h] *)
Definition try_except {A} (c : result A) (handled : exn → bool) (h : result A)
  : result A :=
  match c with
  | Ok a => Ok a
  | Raise e => if handled e then h else Raise e
  end.

Definition is_KeyError (e : exn) : bool :=
  match e with KeyError _ => true | _ => false end.
Definition is_ValueError (e : exn) : bool :=
  match e with ValueError _ => true | _ => false end.
Definition is_IndexError (e : exn) : bool :=
  match e with IndexError => true | _ => false end.

(** *** [repr(s)] for a [str]

    The text is put between single quotes, or between double quotes when
    it holds a single quote and no double quote; the quote in use and the
    backslash are escaped, tab, line feed and carriage return are written
    with their letters, and the other characters that are not printable
    by their number in two hexadecimal digits. *)
Definition SQUOTE : ascii := "039"%char.
Definition BACKSLASH : ascii := "092"%char.

(** [str.isprintable] on one character (code points below 256). *)
Definition is_printable (c : ascii) : bool :=
  negb (in_range 0 31 c || in_range 127 160 c || (ord c =? 173)).

Definition hex_digit (n : Z) : ascii :=
  ascii_of_N (Z.to_N (if n <? 10 then 48 + n else 87 + n)).

Definition repr_char (quote c : ascii) : string :=
  if bool_decide (c = quote) || bool_decide (c = BACKSLASH) then String BACKSLASH (str c)
  else if ord c =? 9 then String BACKSLASH "t"
  else if ord c =? 10 then String BACKSLASH "n"
  else if ord c =? 13 then String BACKSLASH "r"
  else if is_printable c then str c
  else String BACKSLASH (String "x" (String (hex_digit (ord c / 16)) (str (hex_digit (ord c mod 16))))).

Fixpoint repr_chars (quote : ascii) (s : string) : string :=
  match s with
  | EmptyString => EmptyString
  | String c rest => repr_char quote c +:+ repr_chars quote rest
  end.

Definition repr (s : string) : string :=
  let quote := if mem SQUOTE s && negb (mem DQUOTE s) then DQUOTE else SQUOTE in
  String quote (repr_chars quote s +:+ str quote).

(** The first [n] characters of [s]: the precision of a format. *)
Fixpoint truncate (n : nat) (s : string) : string :=
  match n, s with
  | S k, String c rest => String c (truncate k rest)
  | _, _ => EmptyString
  end.

(** *** [int(s)] for a [str] in base 10

    Surrounding white space is dropped, then comes an optional sign, then
    digits, with single underscores allowed between digits. The white
    space of [int] is narrower than that of [str.strip]: the separators
    28 to 31 are not part of it. *)
Definition int_space (c : ascii) : bool :=
  in_range 9 13 c || (ord c =? 32) || (ord c =? 133) || (ord c =? 160).

Definition digit_value (c : ascii) : Z := ord c - 48.

(** Digits after the first one; [after_digit] tells whether the character
    just read was a digit (an underscore must stand between two digits). *)
Fixpoint int_digits (acc : Z) (after_digit : bool) (s : string) : option Z :=
  match s with
  | EmptyString => if after_digit then Some acc else None
  | String c rest =>
      if is_digit c then int_digits (acc * 10 + digit_value c) true rest
      else if decide (c = UNDERSCORE)
           then (if after_digit then int_digits acc false rest else None)
      else None
  end.

Definition int_unsigned (s : string) : option Z :=
  match s with
  | String c _ => if is_digit c then int_digits 0 false s else None
  | EmptyString => None
  end.

(** The digits and underscores a text starts with, and what follows them. *)
Fixpoint int_scan (s : string) : string * string :=
  match s with
  | EmptyString => (EmptyString, EmptyString)
  | String c rest =>
      if is_digit c || bool_decide (c = UNDERSCORE)
      then let '(run, tail) := int_scan rest in (String c run, tail)
      else (EmptyString, s)
  end.

Fixpoint count_digits (s : string) : Z :=
  match s with
  | EmptyString => 0
  | String c rest => (if is_digit c then 1 else 0) + count_digits rest
  end.

(** The decimal digits of a number that is not negative. *)
Definition decimal (n : Z) : string :=
  DecimalString.NilZero.string_of_uint (N.to_uint (Z.to_N n)).

(** The limit on the digits of a literal, as the interpreter starts with. *)
Definition MAX_STR_DIGITS : Z := 4300.

Definition invalid_literal (s : string) : exn :=
  ValueError ("invalid literal for int() with base 10: " +:+ truncate 200 (repr s)).

Definition exceeds_limit (digits : Z) : exn :=
  ValueError ("Exceeds the limit (" +:+ decimal MAX_STR_DIGITS
              +:+ " digits) for integer string conversion: value has "
              +:+ decimal digits
              +:+ " digits; use sys.set_int_max_str_digits() to increase the limit").

(** A literal whose digits are well placed is refused for their number
    before what follows the digits is looked at. *)
Definition int (s : string) : result Z :=
  let t := strip_with int_space s in
  let '(sign, body) :=
    match t with
    | String "+" rest => (1, rest)
    | String "-" rest => (-1, rest)
    | _ => (1, t)
    end in
  let '(run, tail) := int_scan body in
  match int_unsigned run with
  | None => Raise (invalid_literal s)
  | Some n =>
      if MAX_STR_DIGITS <? count_digits run then Raise (exceeds_limit (count_digits run))
      else match tail with
           | EmptyString => Ok (sign * n)
           | _ => Raise (invalid_literal s)
           end
  end.

(** [l[i]] for a list: a negative index counts from the end. *)
Definition getitem {A} (l : list A) (i : Z) : result A :=
  let n := Z.of_nat (length l) in
  let j := if i <? 0 then i + n else i in
  if (0 <=? j) && (j <? n)
  then match l !! Z.to_nat j with Some x => Ok x | None => Raise IndexError end
  else Raise IndexError.

End Py.

Import Py.

#[global] Instance result_ret : MRet result := @Ok.
#[global] Instance result_bind : MBind result := λ A B k c, Py.bind c k.

(** ** The script's helpers *)

(** [normalize]: line 27. *)
Definition normalize (value : option string) : string :=
  match value with
  | None => EmptyString
  | Some v => strip (replace (str LF) (str SPACE) (replace (str CR) (str SPACE) v))
  end.

(** The match of [re.match(r"([A-Z]+)", s)]: the longest leading run of
    capital ASCII letters, if there is one. *)
Fixpoint leading_AZ (s : string) : string :=
  match s with
  | EmptyString => EmptyString
  | String c rest => if is_upper_AZ c then String c (leading_AZ rest) else EmptyString
  end.

Definition re_match_AZ (s : string) : option string :=
  match leading_AZ s with
  | EmptyString => None
  | g => Some g
  end.

Fixpoint column_loop (index : Z) (letters : string) : Z :=
  match letters with
  | EmptyString => index
  | String char rest => column_loop (index * 26 + (ord char - ord "A"%char + 1)) rest
  end.

(** [excel_column_index]: line 33. *)
Definition excel_column_index (reference : string) : Z :=
  match re_match_AZ (upper reference) with
  | None => 0
  | Some g => column_loop 0 g - 1
  end.

(** ** ElementTree *)

Module ET.

(** An element as [xml.etree.ElementTree] holds it: the tag in
    [{namespace}local] form, the attributes, the text before the first
    child ([None] when there is none) and the children in document order. *)
#[warnings="-register-all"]
Inductive Element :=
| Elem (tag : string) (attrib : gmap string string) (text : option string)
       (children : list Element).

Definition tag (e : Element) : string := let 'Elem t _ _ _ := e in t.
Definition attrib (e : Element) : gmap string string := let 'Elem _ a _ _ := e in a.
Definition text (e : Element) : option string := let 'Elem _ _ t _ := e in t.
Definition children (e : Element) : list Element := let 'Elem _ _ _ c := e in c.

(** What the parser makes of the bytes of a part. *)
Inductive document :=
| WellFormed (root : Element)
| NotWellFormed.

Definition fromstring (raw : document) : result Element :=
  match raw with
  | WellFormed root => Ok root
  | NotWellFormed => Raise ParseError
  end.

(** A prefixed name resolved against the namespace it stands for. *)
Definition qname (namespace local : string) : string :=
  "{" +:+ namespace +:+ "}" +:+ local.

(** One step [tag] of a path: the children with that tag. *)
Definition child_step (t : string) (e : Element) : list Element :=
  filter (λ c, tag c = t) (children e).

(** [e.findall("a")] and [e.findall("a/b")] *)
Definition findall1 (a : string) (e : Element) : list Element := child_step a e.
Definition findall2 (a b : string) (e : Element) : list Element :=
  child_step a e ≫= child_step b.

(** [e.iter()]: the element and all below it, in document order. *)
Fixpoint iter (e : Element) : list Element :=
  match e with
  | Elem _ _ _ cs =>
      e :: (fix go (l : list Element) : list Element :=
              match l with
              | [] => []
              | c :: l' => iter c ++ go l'
              end) cs
  end.

(** [e.findall(".//t")]: the elements below [e] with tag [t]. *)
Definition findall_descendants (t : string) (e : Element) : list Element :=
  filter (λ c, tag c = t) (children e ≫= iter).

(** [e.find("a")] *)
Definition find (a : string) (e : Element) : option Element :=
  head (child_step a e).

End ET.

Import ET.

(** ** The archive *)

Abbreviation archive := (gmap string document).

(** [archive.read(name)]; the [KeyError] of a name that is not in the
    archive carries the sentence [zipfile] makes of it. *)
Definition no_item (name : string) : exn :=
  KeyError ("There is no item named " +:+ repr name +:+ " in the archive").

Definition archive_read (a : archive) (name : string) : result document :=
  match a !! name with
  | Some raw => Ok raw
  | None => Raise (no_item name)
  end.

Definition NS_MAIN : string := "http://schemas.openxmlformats.org/spreadsheetml/2006/main".
Definition NS_REL : string :=
  "http://schemas.openxmlformats.org/officeDocument/2006/relationships".
Definition NS_PKG_REL : string := "http://schemas.openxmlformats.org/package/2006/relationships".
Definition XML_SPACE : string := "{http://www.w3.org/XML/1998/namespace}space".

Definition m (local : string) : string := qname NS_MAIN local.

(** [x or ""] for an optional string *)
Definition or_empty (x : option string) : string := default EmptyString x.

(** Truth of an optional string: present and not empty. *)
Definition truthy (x : option string) : bool :=
  match x with
  | Some (String _ _) => true
  | _ => false
  end.

(** The body of the inner loop of [load_shared_strings]: what one run adds
    to [fragments]. *)
Definition fragment (node : Element) : string :=
  let text := or_empty (text node) in
  if decide (attrib node !! XML_SPACE = Some "preserve") then text else strip text.

Definition shared_entry (entry : Element) : string :=
  normalize (Some (join EmptyString (fragment <$> findall_descendants (m "t") entry))).

(** [load_shared_strings]: line 43. *)
Definition load_shared_strings (a : archive) : result (list string) :=
  match archive_read a "xl/sharedStrings.xml" with
  | Raise e => if is_KeyError e then Ok [] else Raise e
  | Ok raw =>
      root ← fromstring raw;
      Ok (shared_entry <$> findall1 (m "si") root)
  end.

Definition add_relationship (mapping : gmap string string) (rel : Element)
  : gmap string string :=
  let rel_id := attrib rel !! "Id" in
  let target := attrib rel !! "Target" in
  if truthy rel_id && truthy target
  then <[or_empty rel_id := or_empty target]> mapping
  else mapping.

(** [workbook_relationships]: line 63. *)
Definition workbook_relationships (a : archive) : result (gmap string string) :=
  match archive_read a "xl/_rels/workbook.xml.rels" with
  | Raise e => if is_KeyError e then Ok ∅ else Raise e
  | Ok raw =>
      root ← fromstring raw;
      Ok (foldl add_relationship ∅ (findall1 (qname NS_PKG_REL "Relationship") root))
  end.

(** The three forms of a target, lines 93 to 98. *)
Definition sheet_path_of_target (target : string) : string :=
  if startswith target "/" then lstrip_chars "/" target
  else if startswith target "xl/" then target
  else "xl/" +:+ target.

Definition add_sheet (relations sheets : gmap string string) (sheet : Element)
  : gmap string string :=
  let name := attrib sheet !! "name" in
  let rel_id := attrib sheet !! qname NS_REL "id" in
  if negb (truthy name) || negb (truthy rel_id) then sheets
  else
    let target := relations !! or_empty rel_id in
    if negb (truthy target) then sheets
    else <[or_empty name := sheet_path_of_target (or_empty target)]> sheets.

(** [workbook_sheets]: line 79. *)
Definition workbook_sheets (a : archive) : result (gmap string string) :=
  raw ← archive_read a "xl/workbook.xml";
  root ← fromstring raw;
  relations ← workbook_relationships a;
  Ok (foldl (add_sheet relations) ∅ (findall2 (m "sheets") (m "sheet") root)).

(** ** The sheet table extractor *)

(** [for x in xs: s = body(s, x)], where the body can raise. *)
Fixpoint for_each {S A} (body : S → A → result S) (xs : list A) (s : S) : result S :=
  match xs with
  | [] => Ok s
  | x :: rest => s' ← body s x; for_each body rest s'
  end.

(** Line 112: the column a cell goes to. *)
Definition cell_index (cells : list string) (cell : Element) : Z :=
  let ref := default EmptyString (attrib cell !! "r") in
  if decide (ref = EmptyString) then Z.of_nat (length cells) else excel_column_index ref.

(** Lines 113 and 114: [while len(cells) < index: cells.append("")]. The
    loop runs at most [index] times. *)
Fixpoint pad_loop (fuel : nat) (cells : list string) (index : Z) : list string :=
  match fuel with
  | O => cells
  | S fuel' =>
      if Z.of_nat (length cells) <? index
      then pad_loop fuel' (cells ++ [EmptyString]) index
      else cells
  end.

Definition pad_to (cells : list string) (index : Z) : list string :=
  pad_loop (Z.to_nat index) cells index.

(** The text of the value node, when both are there:
    [value is not None and value.text is not None]. *)
Definition value_text (cell : Element) : option string :=
  find (m "v") cell ≫= text.

Definition inline_runs (cell : Element) : list Element :=
  findall2 (m "is") (m "t") cell.

(** ["".join((node.text or "").strip() for node in inline)] *)
Definition inline_text (inline : list Element) : string :=
  join EmptyString ((λ node, strip (or_empty (text node))) <$> inline).

(** Lines 120 to 123. *)
Definition shared_text (shared : list string) (vt : string) : result string :=
  try_except (i ← int vt; getitem shared i)
             (λ e, is_ValueError e || is_IndexError e)
             (Ok vt).

(** Lines 115 to 137: the text of a cell before it is normalized. *)
Definition cell_text (shared : list string) (cell : Element) : result string :=
  let cell_type := attrib cell !! "t" in
  if decide (cell_type = Some "s") then
    match value_text cell with
    | Some vt => shared_text shared vt
    | None => Ok EmptyString
    end
  else if decide (cell_type = Some "b") then
    Ok (if decide (value_text cell = Some "1") then "TRUE" else "FALSE")
  else if decide (cell_type = Some "inlineStr") then
    Ok (inline_text (inline_runs cell))
  else
    match value_text cell with
    | Some vt => Ok vt
    | None =>
        match inline_runs cell with
        | [] => Ok EmptyString
        | inline => Ok (inline_text inline)
        end
    end.

(** The body of the loop over the cells of a row, lines 111 to 138. *)
Definition process_cell (shared : list string) (cells : list string) (cell : Element)
  : result (list string) :=
  let index := cell_index cells cell in
  let cells := pad_to cells index in
  text ← cell_text shared cell;
  Ok (cells ++ [normalize (Some text)]).

Definition row_cells (shared : list string) (row : Element) : result (list string) :=
  for_each (process_cell shared) (findall1 (m "c") row) [].

Definition sheet_rows (shared : list string) (root : Element) : result (list (list string)) :=
  for_each (λ rows row, cells ← row_cells shared row; Ok (rows ++ [cells]))
           (findall2 (m "sheetData") (m "row") root) [].

(** [load_sheet_rows]: line 103. *)
Definition load_sheet_rows (a : archive) (sheet_path : string) (shared : list string)
  : result (list (list string)) :=
  raw ← archive_read a sheet_path;
  root ← fromstring raw;
  sheet_rows shared root.

(** ** The CSV writer

    [csv.writer(handle, lineterminator=CR LF)]: the excel dialect (comma,
    double quote, doubled quotes, minimal quoting), as the writer of the
    [csv] module builds a record. *)

Module Csv.

Definition delimiter : ascii := COMMA.
Definition quotechar : ascii := DQUOTE.
Definition lineterminator : string := String CR (String LF EmptyString).

(** The characters that make the writer quote a field. *)
Definition special (c : ascii) : bool :=
  bool_decide (c = delimiter) || bool_decide (c = quotechar) || mem c lineterminator.

(** One pass over the data of a field: the characters copied to the
    record, with the quote character doubled, and the [quoted] flag, set
    once a special character has been met. *)
Fixpoint join_append_data (field : string) (quoted : bool) : string * bool :=
  match field with
  | EmptyString => (EmptyString, quoted)
  | String c rest =>
      let '(out, q) := join_append_data rest (quoted || special c) in
      (if decide (c = quotechar) then String quotechar (String c out) else String c out, q)
  end.

(** The writer's state while it builds a record. *)
Record writer := Writer { rec : string; num_fields : nat }.

Definition join_append (w : writer) (field : string) (quoted : bool) : writer :=
  let '(data, q) := join_append_data field quoted in
  let sep := if (0 <? num_fields w)%nat then str delimiter else EmptyString in
  let body := if q then String quotechar (data +:+ str quotechar) else data in
  Writer (rec w +:+ sep +:+ body) (S (num_fields w)).

(** [writer.writerow(row)]: the text handed to [handle.write]. A record
    of one empty field is written as a quoted empty field. *)
Definition writerow (row : list string) : string :=
  let w := foldl (λ w field, join_append w field false) (Writer EmptyString O) row in
  let w :=
    if (0 <? num_fields w)%nat && (String.length (rec w) =? 0)%nat
    then join_append (Writer (rec w) (Nat.pred (num_fields w))) EmptyString true
    else w in
  rec w +:+ lineterminator.

End Csv.

(** ** Paths and files *)

(** A [pathlib.Path]: the anchor (the empty string or a slash) and the
    components after it. *)
Record Path := mkPath { anchor : string; parts : list string }.

(** [str(path)] *)
Definition path_str (p : Path) : string :=
  match anchor p, parts p with
  | EmptyString, [] => "."
  | a, ps => a +:+ join "/" ps
  end.

(** [path.name] *)
Definition path_name (p : Path) : string := default EmptyString (last (parts p)).

(** [name.rfind(c)] *)
Fixpoint rfind (c : ascii) (s : string) : option nat :=
  match s with
  | EmptyString => None
  | String d rest =>
      match rfind c rest with
      | Some i => Some (S i)
      | None => if decide (c = d) then Some O else None
      end
  end.

(** [path.stem] *)
Definition path_stem (p : Path) : string :=
  let name := path_name p in
  match rfind "."%char name with
  | Some i =>
      if (0 <? i)%nat && (i <? String.length name - 1)%nat
      then String.substring 0 i name
      else name
  | None => name
  end.

(** [path / name], for a [name] of one component. *)
Definition path_join (p : Path) (name : string) : Path :=
  mkPath (anchor p) (parts p ++ [name]).

(** The files written so far: contents by path. *)
Abbreviation files := (gmap string string).

(** [write_csv]: line 143. The file is opened for writing, which replaces
    what the path held, and receives one record for each row. *)
Definition write_csv (rows : list (list string)) (output_path : Path) (fs : files) : files :=
  <[path_str output_path := foldl (λ written row, written +:+ Csv.writerow row) EmptyString rows]> fs.

(** ** The name of the output file *)

(** The characters [A-Za-z0-9_.-]. *)
Definition is_safe (c : ascii) : bool :=
  is_upper_AZ c || is_lower_az c || is_digit c || mem c "_.-".

(** The length of the match of [[^A-Za-z0-9_.-]+] at the start of [s]
    (0: no match). *)
Fixpoint unsafe_run (s : string) : nat :=
  match s with
  | EmptyString => O
  | String c rest => if is_safe c then O else S (unsafe_run rest)
  end.

(** [re.sub(r"[^A-Za-z0-9_.-]+", repl, s)]: at each position the longest
    match is replaced and the scan resumes after it; [skip] counts the
    characters of the match still to be passed over. *)
Fixpoint re_sub_unsafe (repl : string) (skip : nat) (s : string) : string :=
  match s with
  | EmptyString => EmptyString
  | String c rest =>
      match skip with
      | S k => re_sub_unsafe repl k rest
      | O =>
          match unsafe_run s with
          | O => String c (re_sub_unsafe repl O rest)
          | S k => repl +:+ re_sub_unsafe repl k rest
          end
      end
  end.

(** Line 159. *)
Definition safe_name (sheet_name : string) : string :=
  match strip_chars "_" (re_sub_unsafe "_" O sheet_name) with
  | EmptyString => "Sheet"
  | name => name
  end.

(** ** The conversion *)

(** The body of the loop of [convert_xlsx_to_csv], lines 155 to 161. *)
Definition convert_sheet (a : archive) (shared : list string)
    (sheet_map : gmap string string) (input_path output_dir : Path)
    (fs : files) (sheet_name : string) : result files :=
  let sheet_path := sheet_map !! sheet_name in
  if negb (truthy sheet_path)
  then Raise (ValueError ("Sheet '" +:+ sheet_name +:+ "' not found in " +:+ path_str input_path))
  else
    rows ← load_sheet_rows a (or_empty sheet_path) shared;
    let output_path :=
      path_join output_dir (path_stem input_path +:+ "_" +:+ safe_name sheet_name +:+ ".csv") in
    Ok (write_csv rows output_path fs).

(** The loop over the requested sheets: an exception leaves the files as
    they were when it was raised. *)
Fixpoint convert_loop (body : files → string → result files) (sheets : list string)
    (fs : files) : files * result unit :=
  match sheets with
  | [] => (fs, Ok ())
  | sheet_name :: rest =>
      match body fs sheet_name with
      | Ok fs' => convert_loop body rest fs'
      | Raise e => (fs, Raise e)
      end
  end.

(** [convert_xlsx_to_csv]: line 150, on the opened archive. *)
Definition convert_xlsx_to_csv (a : archive) (input_path : Path) (sheets : list string)
    (output_dir : Path) (fs : files) : files * result unit :=
  match load_shared_strings a with
  | Raise e => (fs, Raise e)
  | Ok shared =>
      match workbook_sheets a with
      | Raise e => (fs, Raise e)
      | Ok sheet_map =>
          convert_loop (convert_sheet a shared sheet_map input_path output_dir) sheets fs
      end
  end.

(** ** The script's entry point

    [main] works on the files under the directory of the script. The files
    are those of the conversion: contents by path, the workbook among them
    as the bytes of its file. Directories are not part of the model, so
    [ensure_dir] changes nothing in it. *)

(** What [main] can raise besides what the conversion raises. *)
Inductive main_exn :=
| FileNotFoundError (path : string)
| BadZipFile
| Propagated (e : exn).

Inductive outcome :=
| Done
| Failed (e : main_exn).

Definition EPHEMERIS_CSV : string :=
  "ephemeris_2025-10-01T00-00_to_2025-12-01T00-00_UTC_60min.csv".
Definition BIRTHDAY_CSV : string := "bdayephemeris.csv".
Definition WORKBOOK : string := "Cavin_Ephemeris_Events_2025_10-11.xlsx".

(** Lines 169 to 172. *)
Definition csv_sources (project_root : Path) : list Path :=
  [path_join (path_join project_root "build") EPHEMERIS_CSV;
   path_join project_root BIRTHDAY_CSV].

(** Lines 173 to 177: each source is checked and copied before the next
    one is looked at. [shutil.copy2] gives the destination the contents
    of the source. *)
Fixpoint copy_sources (output_dir : Path) (sources : list Path) (fs : files)
  : files * outcome :=
  match sources with
  | [] => (fs, Done)
  | source :: rest =>
      match fs !! path_str source with
      | None => (fs, Failed (FileNotFoundError (path_str source)))
      | Some content =>
          let destination := path_join output_dir (path_name source) in
          copy_sources output_dir rest (<[path_str destination := content]> fs)
      end
  end.

Section Main.
(** What [zipfile.ZipFile] makes of the bytes of a file: an archive, or
    nothing when they are no archive. *)
Variable unzip : string → option archive.

(** [main]: line 164, with the directory of the script as [project_root]. *)
Definition main (project_root : Path) (fs : files) : files * outcome :=
  let output_dir := path_join project_root "csv" in
  match copy_sources output_dir (csv_sources project_root) fs with
  | (fs, Failed e) => (fs, Failed e)
  | (fs, Done) =>
      let workbook := path_join (path_join project_root "build") WORKBOOK in
      match fs !! path_str workbook with
      | None => (fs, Failed (FileNotFoundError (path_str workbook)))
      | Some bytes =>
          match unzip bytes with
          | None => (fs, Failed BadZipFile)
          | Some a =>
              match convert_xlsx_to_csv a workbook ["Events"; "Day_Metrics"; "Settings"]
                      output_dir fs with
              | (fs, Ok _) => (fs, Done)
              | (fs, Raise e) => (fs, Failed (Propagated e))
              end
          end
      end
  end.
End Main.

(** * Notions used in the statements *)

(** ** Strings *)

(** [s] between two quote characters. *)
Definition quoted (s : string) : string := String DQUOTE (s +:+ str DQUOTE).

(** [f] applied to every character. *)
Fixpoint map_chars (f : ascii → ascii) (s : string) : string :=
  match s with
  | EmptyString => EmptyString
  | String c rest => String (f c) (map_chars f rest)
  end.

(** Every character of [s] satisfies [p]. *)
Fixpoint all_chars (p : ascii → bool) (s : string) : bool :=
  match s with
  | EmptyString => true
  | String c rest => p c && all_chars p rest
  end.

(** [s] does not start with a character of [p]. *)
Definition starts_clean (p : ascii → bool) (s : string) : Prop :=
  match s with
  | EmptyString => True
  | String c _ => p c = false
  end.

(** [s] does not end with a character of [p]. *)
Fixpoint ends_clean (p : ascii → bool) (s : string) : Prop :=
  match s with
  | EmptyString => True
  | String c EmptyString => p c = false
  | String _ rest => ends_clean p rest
  end.

(** A carriage return or a line feed becomes a space; other characters stay. *)
Definition space_for_line_break (c : ascii) : ascii :=
  if decide (c = CR ∨ c = LF) then SPACE else c.

Definition is_line_break (c : ascii) : bool := bool_decide (c = CR ∨ c = LF).

(** A string that [normalize] returns for some text. *)
Definition normalized (s : string) : Prop := ∃ t, s = normalize (Some t).

(** ** Rows

    The extractor without its exception plumbing: no cell raises, so a row
    is a fold of [place_cell] over the cell elements. *)

(** The normalized text a cell element yields. *)
Definition cell_value (shared : list string) (cell : Element) : string :=
  match cell_text shared cell with
  | Ok text => normalize (Some text)
  | Raise _ => EmptyString
  end.

(** What one cell element does to the row under construction. *)
Definition place_cell (shared cells : list string) (cell : Element) : list string :=
  pad_to cells (cell_index cells cell) ++ [cell_value shared cell].

(** The row of a row element. *)
Definition row_values (shared : list string) (row : Element) : list string :=
  foldl (place_cell shared) [] (findall1 (m "c") row).

(** The column a cell element names when [next] is the first free column:
    its explicit reference, or else [next]. *)
Definition column_of (next : Z) (cell : Element) : Z :=
  let ref := default EmptyString (attrib cell !! "r") in
  if decide (ref = EmptyString) then next else excel_column_index ref.

(** The columns the cell elements of a row name, from the free column
    [next] on. *)
Fixpoint columns (next : Z) (cs : list Element) : list Z :=
  match cs with
  | [] => []
  | c :: rest => column_of next c :: columns (column_of next c + 1) rest
  end.

(** No cell element names a column at or before that of an earlier one. *)
Fixpoint ascending (next : Z) (cs : list Element) : Prop :=
  match cs with
  | [] => True
  | c :: rest => next ≤ column_of next c ∧ ascending (column_of next c + 1) rest
  end.

(** The values of a row in order, each behind a run of empty strings. *)
Fixpoint spread (pads : list nat) (values : list string) : list string :=
  match pads, values with
  | n :: pads', v :: values' => replicate n EmptyString ++ v :: spread pads' values'
  | _, _ => []
  end.

(** The layout of the row of one row element whose cells name ascending
    columns. *)
Definition row_layout (shared : list string) (row : Element) (cells : list string) : Prop :=
  let cs := findall1 (m "c") row in
  (∀ j c k, cs !! j = Some c → columns 0 cs !! j = Some k →
      ∃ text, cell_text shared c = Ok text
              ∧ cells !! Z.to_nat k = Some (normalize (Some text)))
  ∧ (∀ pos, (pos < length cells)%nat → Z.of_nat pos ∉ columns 0 cs →
      cells !! pos = Some EmptyString)
  ∧ (∀ k, last (columns 0 cs) = Some k → Z.of_nat (length cells) = k + 1).

(** ** The safe form of a sheet name

    Two readings. In the first, the runs of characters outside the safe
    set are what is collapsed: each run gives one underscore, and an
    underscore of the name itself stays. In the second, every character
    outside the safe set gives an underscore, and then underscores that
    repeat are collapsed, those of the name itself among them. *)

(** A character of the sheet name after the replacement: kept, or replaced
    by an underscore. *)
Inductive piece :=
| Kept (c : ascii)
| Replaced.

(** Every character outside the safe set is replaced. *)
Fixpoint classify (s : string) : list piece :=
  match s with
  | EmptyString => []
  | String c rest => (if is_safe c then Kept c else Replaced) :: classify rest
  end.

(** Replaced characters that follow one another count once. *)
Fixpoint collapse (l : list piece) : list piece :=
  match l with
  | [] => []
  | Kept c :: rest => Kept c :: collapse rest
  | Replaced :: rest =>
      match rest with
      | Replaced :: _ => collapse rest
      | _ => Replaced :: collapse rest
      end
  end.

(** A replaced character is written as an underscore. *)
Fixpoint render (l : list piece) : string :=
  match l with
  | [] => EmptyString
  | Kept c :: rest => String c (render rest)
  | Replaced :: rest => String UNDERSCORE (render rest)
  end.

(** The first reading. *)
Definition safe_name_by_runs (sheet_name : string) : string :=
  let name := strip_chars "_" (render (collapse (classify sheet_name))) in
  if decide (name = EmptyString) then "Sheet" else name.

(** The pieces after the replaced ones at the front. *)
Fixpoint drop_replaced (l : list piece) : list piece :=
  match l with
  | Replaced :: rest => drop_replaced rest
  | _ => l
  end.

Definition is_underscore (c : ascii) : bool := mem c "_".

(** The second reading: every character outside the safe set replaced by an
    underscore, *)
Definition underscore_unsafe (s : string) : string :=
  map_chars (λ c, if is_safe c then c else UNDERSCORE) s.

(** underscores that follow one another collapsed into one, *)
Fixpoint collapse_underscores (s : string) : string :=
  match s with
  | EmptyString => EmptyString
  | String c rest =>
      if decide (c = UNDERSCORE)
      then match rest with
           | String "_" _ => collapse_underscores rest
           | _ => String c (collapse_underscores rest)
           end
      else String c (collapse_underscores rest)
  end.

(** and the underscores at both ends trimmed, with the label for what is
    empty then. *)
Definition safe_name_by_underscores (sheet_name : string) : string :=
  let name := strip_chars "_" (collapse_underscores (underscore_unsafe sheet_name)) in
  if decide (name = EmptyString) then "Sheet" else name.

(** ** The conversion *)

(** The path a sheet is written to, line 160. *)
Definition output_path (input_path output_dir : Path) (sheet_name : string) : Path :=
  path_join output_dir (path_stem input_path +:+ "_" +:+ safe_name sheet_name +:+ ".csv").

(** The message of the error for a sheet that is not in the index. *)
Definition sheet_not_found (sheet_name : string) (input_path : Path) : exn :=
  ValueError ("Sheet '" +:+ sheet_name +:+ "' not found in " +:+ path_str input_path).

(** ** CSV records, as the specification words them *)

(** The field holds the delimiter, a quote character or a character of the
    line terminator. *)
Fixpoint needs_quoting (field : string) : bool :=
  match field with
  | EmptyString => false
  | String c rest => Csv.special c || needs_quoting rest
  end.

(** Every quote character written twice. *)
Fixpoint double_quotes (field : string) : string :=
  match field with
  | EmptyString => EmptyString
  | String c rest =>
      if decide (c = DQUOTE) then String DQUOTE (String DQUOTE (double_quotes rest))
      else String c (double_quotes rest)
  end.

(** A field as it stands in a record. *)
Definition encode_field (field : string) : string :=
  if needs_quoting field then quoted (double_quotes field) else field.

(** A record as the specification describes it, with the one case it
    leaves out: a row of one empty field is written as a quoted empty
    field. *)
Definition encode_record (row : list string) : string :=
  (if decide (row = [EmptyString]) then quoted EmptyString
   else join (str COMMA) (encode_field <$> row))
  +:+ str CR +:+ str LF.

(** The strings of a list one after the other. *)
Fixpoint concat_str (l : list string) : string :=
  match l with
  | [] => EmptyString
  | s :: rest => s +:+ concat_str rest
  end.

(** The fields after the first, each behind a delimiter. *)
Fixpoint more_fields (row : list string) : string :=
  match row with
  | [] => EmptyString
  | field :: rest => str COMMA +:+ encode_field field +:+ more_fields rest
  end.

(** ** Column references *)

(** A letter of the ASCII alphabet, of either case. *)
Definition is_ascii_letter (c : ascii) : bool := is_upper_AZ c || is_lower_az c.

(** The string does not begin with a letter that [upper] turns into a
    capital ASCII letter: it is empty or begins with a digit. *)
Definition starts_with_digit_or_empty (s : string) : Prop :=
  match s with
  | EmptyString => True
  | String c _ => is_digit c = true
  end.

(** ** The workbook index *)

(** The value the last pair with the key [k] gives it. *)
Fixpoint last_binding (k : string) (l : list (string * string)) : option string :=
  match l with
  | [] => None
  | (k', v) :: rest =>
      match last_binding k rest with
      | Some w => Some w
      | None => if decide (k = k') then Some v else None
      end
  end.

(** What a Relationship element adds to the mapping: its Id and Target,
    when it has both and neither is empty. *)
Definition relationship_entry (rel : Element) : option (string * string) :=
  match attrib rel !! "Id", attrib rel !! "Target" with
  | Some (String a rel_id), Some (String b target) =>
      Some (String a rel_id, String b target)
  | _, _ => None
  end.

(** What a sheet element adds to the index: its name and the path of its
    target, when it has a name and a relationship id, neither empty, and
    the relationships give the id a target that is not empty. *)
Definition sheet_entry (relations : gmap string string) (sheet : Element)
  : option (string * string) :=
  match attrib sheet !! "name", attrib sheet !! qname NS_REL "id" with
  | Some (String a name), Some (String b rel_id) =>
      match relations !! String b rel_id with
      | Some (String c target) => Some (String a name, sheet_path_of_target (String c target))
      | _ => None
      end
  | _, _ => None
  end.

(** ** The width of a row *)

(** The length of the row after one more cell element, from its length
    before: the cell goes to the column it names or, when that column is
    taken, to the end. *)
Definition width_after (width : Z) (cell : Element) : Z :=
  Z.max width (column_of width cell) + 1.

(** The cell element carries no column reference. *)
Definition no_reference (cell : Element) : Prop :=
  default EmptyString (attrib cell !! "r") = EmptyString.

(** ** Reading CSV back

    A strict reader of what the writer produces: comma-separated fields,
    a field between quotes when it starts with one, a doubled quote inside
    quotes for one quote character, CR LF after every record. *)

Inductive reader_state :=
| RecordStart
| FieldStart
| InPlain (field : string)
| InQuoted (field : string)
| QuoteSeen (field : string)
| AfterCR.

(** The rows of the text [s], read from the state [st] with the fields
    [fields] of the current record already read; [None] for a text the
    writer cannot have produced. *)
Fixpoint read_csv (st : reader_state) (fields : list string) (s : string)
  : option (list (list string)) :=
  match s with
  | EmptyString =>
      match st with
      | RecordStart => Some []
      | _ => None
      end
  | String c rest =>
      match st with
      | RecordStart =>
          if decide (c = DQUOTE) then read_csv (InQuoted EmptyString) fields rest
          else if decide (c = COMMA) then read_csv FieldStart (fields ++ [EmptyString]) rest
          else if decide (c = CR) then read_csv AfterCR fields rest
          else if decide (c = LF) then None
          else read_csv (InPlain (str c)) fields rest
      | FieldStart =>
          if decide (c = DQUOTE) then read_csv (InQuoted EmptyString) fields rest
          else if decide (c = COMMA) then read_csv FieldStart (fields ++ [EmptyString]) rest
          else if decide (c = CR) then read_csv AfterCR (fields ++ [EmptyString]) rest
          else if decide (c = LF) then None
          else read_csv (InPlain (str c)) fields rest
      | InPlain field =>
          if decide (c = DQUOTE) then None
          else if decide (c = COMMA) then read_csv FieldStart (fields ++ [field]) rest
          else if decide (c = CR) then read_csv AfterCR (fields ++ [field]) rest
          else if decide (c = LF) then None
          else read_csv (InPlain (field +:+ str c)) fields rest
      | InQuoted field =>
          if decide (c = DQUOTE) then read_csv (QuoteSeen field) fields rest
          else read_csv (InQuoted (field +:+ str c)) fields rest
      | QuoteSeen field =>
          if decide (c = DQUOTE) then read_csv (InQuoted (field +:+ str c)) fields rest
          else if decide (c = COMMA) then read_csv FieldStart (fields ++ [field]) rest
          else if decide (c = CR) then read_csv AfterCR (fields ++ [field]) rest
          else None
      | AfterCR =>
          if decide (c = LF) then (fields ::.) <$> read_csv RecordStart [] rest
          else None
      end
  end.

(** The state after a field that ends with the character [d]. *)
Definition after_field (d : ascii) : reader_state :=
  if decide (d = COMMA) then FieldStart else AfterCR.

(** How often the character [c] occurs in [s]. *)
Fixpoint count_char (c : ascii) (s : string) : nat :=
  match s with
  | EmptyString => O
  | String d rest => (if decide (c = d) then 1 else 0) + count_char c rest
  end.

(** ** The files of a conversion *)

(** The requested sheets that are written to the path [p]. *)
Definition sheets_at (input_path output_dir : Path) (p : string) (sheets : list string)
  : list string :=
  filter (λ s, path_str (output_path input_path output_dir s) = p) sheets.

(** ** Paths under a directory *)

(** What the path of every file under the directory [d] starts with. *)
Definition dir_prefix (d : Path) : string :=
  anchor d +:+ concat_str ((λ part, part +:+ "/") <$> parts d).

(** ** The files of [main] *)

Definition main_output_dir (project_root : Path) : Path := path_join project_root "csv".
Definition main_sheets : list string := ["Events"; "Day_Metrics"; "Settings"].
Definition ephemeris_source (project_root : Path) : string :=
  path_str (path_join (path_join project_root "build") EPHEMERIS_CSV).
Definition birthday_source (project_root : Path) : string :=
  path_str (path_join project_root BIRTHDAY_CSV).
Definition workbook_path (project_root : Path) : Path :=
  path_join (path_join project_root "build") WORKBOOK.
Definition ephemeris_copy (project_root : Path) : string :=
  path_str (path_join (main_output_dir project_root) EPHEMERIS_CSV).
Definition birthday_copy (project_root : Path) : string :=
  path_str (path_join (main_output_dir project_root) BIRTHDAY_CSV).

(** The path [main] writes a sheet to. *)
Definition main_sheet_file (project_root : Path) (sheet_name : string) : string :=
  path_str (path_join (main_output_dir project_root)
              ("Cavin_Ephemeris_Events_2025_10-11_" +:+ safe_name sheet_name +:+ ".csv")).

(** The slash. *)
Definition is_slash (c : ascii) : bool := mem c "/".

(** ** Inline strings *)

(** The text runs of a cell's inline string: the [t] elements anywhere
    below its [is] elements, in document order. *)
Definition inline_text_runs (cell : Element) : list Element :=
  child_step (m "is") cell ≫= findall_descendants (m "t").

(** Every text run of the cell's inline string is a child of the [is]
    element: none stands inside a run of rich text. *)
Definition runs_are_children (cell : Element) : Prop :=
  Forall (λ inline, findall_descendants (m "t") inline = child_step (m "t") inline)
         (child_step (m "is") cell).

(** * Small documents *)

(** A shared-string cell with the value text [vt]. *)
Definition shared_cell (vt : string) : Element :=
  Elem (m "c") {[ "t" := "s" ]} None [Elem (m "v") ∅ (Some vt) []].



(** A cell of no declared type at the reference [ref], with the value
    text [vt]. *)
Definition value_cell (ref vt : string) : Element :=
  Elem (m "c") {[ "r" := ref ]} None [Elem (m "v") ∅ (Some vt) []].

(** A row element of the cells [cs], and a worksheet of the rows [rows]. *)
Definition row_of (cs : list Element) : Element := Elem (m "row") ∅ None cs.

Definition sheet_of (rows : list Element) : Element :=
  Elem (m "worksheet") ∅ None [Elem (m "sheetData") ∅ None rows].

(** An inline-string cell with the text runs [runs]. *)
Definition inline_cell (runs : list string) : Element :=
  Elem (m "c") {[ "t" := "inlineStr" ]} None
       [Elem (m "is") ∅ None ((λ t, Elem (m "t") ∅ (Some t) []) <$> runs)].

(** A workbook of one sheet, named with a space, of one row. *)
Definition demo_workbook : Element :=
  Elem (m "workbook") ∅ None
    [Elem (m "sheets") ∅ None
       [Elem (m "sheet") {[ "name" := "Day Metrics"; qname NS_REL "id" := "rId1" ]} None []]].

Definition demo_relationships : Element :=
  Elem (qname NS_PKG_REL "Relationships") ∅ None
    [Elem (qname NS_PKG_REL "Relationship")
       {[ "Id" := "rId1"; "Target" := "worksheets/sheet1.xml" ]} None []].

Definition demo_sheet : Element :=
  sheet_of [row_of [value_cell "A1" "x"; value_cell "B1" "y,z"]].

Definition demo_archive : archive :=
  {[ "xl/workbook.xml" := WellFormed demo_workbook;
     "xl/_rels/workbook.xml.rels" := WellFormed demo_relationships;
     "xl/worksheets/sheet1.xml" := WellFormed demo_sheet ]}.

Definition demo_input : Path := mkPath "/" ["build"; "Book.xlsx"].
Definition demo_output_dir : Path := mkPath "/" ["csv"].

(** A shared-string part of two items, the second of two runs, and a
    worksheet of three rows with a cell of each type. *)
Definition mixed_shared_strings : Element :=
  Elem (m "sst") ∅ None
    [Elem (m "si") ∅ None [Elem (m "t") ∅ (Some "Name") []];
     Elem (m "si") ∅ None
       [Elem (m "r") ∅ None [Elem (m "t") {[ XML_SPACE := "preserve" ]} (Some "Hello ") []];
        Elem (m "r") ∅ None [Elem (m "t") ∅ (Some " World ") []]]].

Definition typed_cell (ref type vt : string) : Element :=
  Elem (m "c") {[ "r" := ref; "t" := type ]} None [Elem (m "v") ∅ (Some vt) []].

Definition mixed_sheet : Element :=
  sheet_of
    [row_of [typed_cell "A1" "s" "1"; typed_cell "B1" "b" "1";
             Elem (m "c") {[ "r" := "D1"; "t" := "inlineStr" ]} None
               [Elem (m "is") ∅ None [Elem (m "t") ∅ (Some " hi ") []]];
             value_cell "E1" "3.5"];
     row_of [];
     row_of [Elem (m "c") ∅ None [Elem (m "v") ∅ (Some "x") []];
             typed_cell "C3" "s" "9"; typed_cell "D3" "b" "true"]].

Definition mixed_archive : archive :=
  {[ "xl/sharedStrings.xml" := WellFormed mixed_shared_strings;
     "xl/worksheets/sheet1.xml" := WellFormed mixed_sheet ]}.

(** The same archive without its relationship manifest. *)
Definition archive_without_manifest : archive :=
  {[ "xl/workbook.xml" := WellFormed demo_workbook;
     "xl/worksheets/sheet1.xml" := WellFormed demo_sheet ]}.

(** A string item of one run that asks for its white space to be kept. *)
Definition preserved_item : Element :=
  Elem (m "si") ∅ None [Elem (m "t") {[ XML_SPACE := "preserve" ]} (Some "  kept  ") []].

(** Relationships that give the id rId1 twice and leave one target empty,
    and a workbook that declares the sheet Data twice, the second time
    with an id that has no target. *)
Definition doubled_relationships : Element :=
  Elem (qname NS_PKG_REL "Relationships") ∅ None
    [Elem (qname NS_PKG_REL "Relationship")
       {[ "Id" := "rId1"; "Target" := "worksheets/old.xml" ]} None [];
     Elem (qname NS_PKG_REL "Relationship")
       {[ "Id" := "rId1"; "Target" := "/xl/worksheets/new.xml" ]} None [];
     Elem (qname NS_PKG_REL "Relationship")
       {[ "Id" := "rId2"; "Target" := EmptyString ]} None []].

Definition doubled_workbook : Element :=
  Elem (m "workbook") ∅ None
    [Elem (m "sheets") ∅ None
       [Elem (m "sheet") {[ "name" := "Data"; qname NS_REL "id" := "rId1" ]} None [];
        Elem (m "sheet") {[ "name" := "Data"; qname NS_REL "id" := "rId2" ]} None []]].

Definition doubled_archive : archive :=
  {[ "xl/workbook.xml" := WellFormed doubled_workbook;
     "xl/_rels/workbook.xml.rels" := WellFormed doubled_relationships ]}.

(** A cell of no declared type and no reference, with the value text [vt]. *)
Definition bare_cell (vt : string) : Element :=
  Elem (m "c") ∅ None [Elem (m "v") ∅ (Some vt) []].

(** A worksheet of one row whose one cell holds a line break. *)
Definition two_line_sheet : Element :=
  sheet_of [row_of [value_cell "A1" ("line1" +:+ str LF +:+ "line2")]].

Definition two_line_archive : archive :=
  {[ "xl/worksheets/sheet1.xml" := WellFormed two_line_sheet ]}.

(** A workbook of two sheets whose names have the same safe form. *)
Definition collision_workbook : Element :=
  Elem (m "workbook") ∅ None
    [Elem (m "sheets") ∅ None
       [Elem (m "sheet") {[ "name" := "a b"; qname NS_REL "id" := "rId1" ]} None [];
        Elem (m "sheet") {[ "name" := "a_b"; qname NS_REL "id" := "rId2" ]} None []]].

Definition collision_relationships : Element :=
  Elem (qname NS_PKG_REL "Relationships") ∅ None
    [Elem (qname NS_PKG_REL "Relationship")
       {[ "Id" := "rId1"; "Target" := "worksheets/sheet1.xml" ]} None [];
     Elem (qname NS_PKG_REL "Relationship")
       {[ "Id" := "rId2"; "Target" := "worksheets/sheet2.xml" ]} None []].

Definition collision_archive : archive :=
  {[ "xl/workbook.xml" := WellFormed collision_workbook;
     "xl/_rels/workbook.xml.rels" := WellFormed collision_relationships;
     "xl/worksheets/sheet1.xml" := WellFormed (sheet_of [row_of [bare_cell "first"]]);
     "xl/worksheets/sheet2.xml" := WellFormed (sheet_of [row_of [bare_cell "second"]]) ]}.

(** A workbook whose one sheet has a target of a single slash. *)
Definition slash_archive : archive :=
  {[ "xl/workbook.xml" := WellFormed demo_workbook;
     "xl/_rels/workbook.xml.rels" :=
       WellFormed (Elem (qname NS_PKG_REL "Relationships") ∅ None
                     [Elem (qname NS_PKG_REL "Relationship")
                        {[ "Id" := "rId1"; "Target" := "/" ]} None []]) ]}.

(** An archive whose shared-string part is not well formed, and one with
    that part alone. *)
Definition broken_strings_archive : archive :=
  <[ "xl/sharedStrings.xml" := NotWellFormed ]> demo_archive.

Definition strings_only_archive : archive :=
  {[ "xl/sharedStrings.xml" := WellFormed mixed_shared_strings ]}.

(** A project directory with the three inputs of [main]: the two CSV
    sources and a workbook whose three sheets share one worksheet part. *)
Definition main_workbook : Element :=
  Elem (m "workbook") ∅ None
    [Elem (m "sheets") ∅ None
       [Elem (m "sheet") {[ "name" := "Events"; qname NS_REL "id" := "rId1" ]} None [];
        Elem (m "sheet") {[ "name" := "Day_Metrics"; qname NS_REL "id" := "rId1" ]} None [];
        Elem (m "sheet") {[ "name" := "Settings"; qname NS_REL "id" := "rId1" ]} None []]].

Definition main_archive : archive :=
  {[ "xl/workbook.xml" := WellFormed main_workbook;
     "xl/_rels/workbook.xml.rels" := WellFormed demo_relationships;
     "xl/worksheets/sheet1.xml" := WellFormed (sheet_of [row_of [bare_cell "v"]]) ]}.

Definition main_unzip (bytes : string) : option archive :=
  if decide (bytes = "PK") then Some main_archive else None.

Definition main_root : Path := mkPath "/" ["proj"].

Definition main_inputs : files :=
  {[ "/proj/build/ephemeris_2025-10-01T00-00_to_2025-12-01T00-00_UTC_60min.csv" := "e";
     "/proj/bdayephemeris.csv" := "b";
     "/proj/build/Cavin_Ephemeris_Events_2025_10-11.xlsx" := "PK" ]}.

(** An untyped cell with both a value node and an inline run. *)
Definition value_and_inline_cell : Element :=
  Elem (m "c") ∅ None
    [Elem (m "v") ∅ (Some "3.50") [];
     Elem (m "is") ∅ None [Elem (m "t") ∅ (Some "ignored") []]].

(** A literal of [n] digits. *)
Fixpoint ones (n : nat) : string :=
  match n with
  | O => EmptyString
  | S k => String "1" (ones k)
  end.

(** An inline-string cell of rich text: each text run inside a run
    element. *)
Definition rich_inline_cell (runs : list string) : Element :=
  Elem (m "c") {[ "t" := "inlineStr" ]} None
       [Elem (m "is") ∅ None
          ((λ t, Elem (m "r") ∅ None [Elem (m "t") ∅ (Some t) []]) <$> runs)].

(** A string item of rich text with the same runs. *)
Definition rich_item (runs : list string) : Element :=
  Elem (m "si") ∅ None
       ((λ t, Elem (m "r") ∅ None [Elem (m "t") ∅ (Some t) []]) <$> runs).

(** * Checks of the model on small inputs *)

Example excel_column_index_A1 : excel_column_index "A1" = 0.
Proof. reflexivity. Qed.
Example excel_column_index_d7 : excel_column_index "d7" = 3.
Proof. reflexivity. Qed.
Example excel_column_index_AA : excel_column_index "AA10" = 26.
Proof. reflexivity. Qed.
Example excel_column_index_digits : excel_column_index "12" = 0.
Proof. reflexivity. Qed.
Example normalize_lines :
  normalize (Some (" line1" +:+ str LF +:+ "line2" +:+ str CR +:+ str LF)) = "line1 line2".
Proof. reflexivity. Qed.
Example int_examples :
  int " 7 " = Ok 7 ∧ int "-1" = Ok (-1) ∧ int "1_0" = Ok 10 ∧ int "+7" = Ok 7
  ∧ int "007" = Ok 7 ∧ int "0_7" = Ok 7 ∧ int "-0" = Ok 0.
Proof. repeat split. Qed.
Example int_rejects :
  Forall (λ s, int s = Raise (invalid_literal s))
    ["1__0"; "_1"; "1_"; "- 1"; EmptyString; "+"; "1.0"; "0x10"; "+-1"; "7 7"]
  ∧ int "1.0" = Raise (ValueError "invalid literal for int() with base 10: '1.0'").
Proof. split; [repeat constructor | reflexivity]. Qed.
Example int_limit :
  (∃ n, int (ones 4300) = Ok n)
  ∧ int (ones 4301 +:+ "x")
    = Raise (ValueError ("Exceeds the limit (4300 digits) for integer string conversion: "
                         +:+ "value has 4301 digits; "
                         +:+ "use sys.set_int_max_str_digits() to increase the limit"))
  ∧ int (ones 4301 +:+ "_") = Raise (invalid_literal (ones 4301 +:+ "_")).
Proof. split; [eexists; vm_compute; reflexivity | split; vm_compute; reflexivity]. Qed.
Example repr_examples :
  repr "xl/workbook.xml" = "'xl/workbook.xml'"
  ∧ repr "it's" = String DQUOTE ("it's" +:+ str DQUOTE)
  ∧ repr ("a" +:+ str DQUOTE +:+ "b'c") = "'a" +:+ str DQUOTE +:+ "b" +:+ str BACKSLASH +:+ "'c'"
  ∧ repr (str LF +:+ str "000" +:+ str "233") = "'" +:+ str BACKSLASH +:+ "n"
                                                 +:+ str BACKSLASH +:+ "x00" +:+ str "233" +:+ "'".
Proof. repeat split. Qed.
Example getitem_examples :
  getitem ["a"; "b"; "c"] 7 = Raise IndexError ∧ getitem ["a"; "b"; "c"] (-1) = Ok "c"
  ∧ getitem ["a"; "b"; "c"] (-4) = Raise IndexError ∧ getitem ["a"; "b"; "c"] 0 = Ok "a".
Proof. repeat split. Qed.

Example writerow_examples :
  Csv.writerow ["x"; "y,z"] = "x," +:+ quoted "y,z" +:+ Csv.lineterminator
  ∧ Csv.writerow [EmptyString] = quoted EmptyString +:+ Csv.lineterminator
  ∧ Csv.writerow [] = Csv.lineterminator
  ∧ Csv.writerow [EmptyString; EmptyString] = "," +:+ Csv.lineterminator
  ∧ Csv.writerow ["a" +:+ str CR +:+ "b"] = quoted ("a" +:+ str CR +:+ "b") +:+ Csv.lineterminator
  ∧ Csv.writerow [str DQUOTE] = quoted (str DQUOTE +:+ str DQUOTE) +:+ Csv.lineterminator.
Proof. repeat split. Qed.

Example safe_name_examples :
  safe_name "Day Metrics" = "Day_Metrics" ∧ safe_name "a  _ b__c !" = "a___b__c"
  ∧ safe_name "  " = "Sheet" ∧ safe_name "Q1/Q2 (final)" = "Q1_Q2_final"
  ∧ safe_name EmptyString = "Sheet".
Proof. repeat split. Qed.

Example path_examples :
  path_stem (mkPath "/" ["build"; "Book.2025.xlsx"]) = "Book.2025"
  ∧ path_stem (mkPath EmptyString [".hidden"]) = ".hidden"
  ∧ path_stem (mkPath EmptyString ["name."]) = "name."
  ∧ path_str (path_join (mkPath "/" ["out"]) "a.csv") = "/out/a.csv"
  ∧ path_str (path_join (mkPath EmptyString []) "a.csv") = "a.csv".
Proof. repeat split. Qed.

Example replace_examples :
  replace EmptyString "-" "ab" = "-a-b-" ∧ replace "aa" "b" "aaa" = "ba"
  ∧ replace "ab" EmptyString "xabyab" = "xy".
Proof. repeat split. Qed.

Example demo_conversion :
  convert_xlsx_to_csv demo_archive demo_input ["Day Metrics"] demo_output_dir ∅
  = ({[ "/csv/Book_Day_Metrics.csv" := "x," +:+ quoted "y,z" +:+ Csv.lineterminator ]}, Ok ()).
Proof. vm_compute. reflexivity. Qed.

Example mixed_extraction :
  load_shared_strings mixed_archive = Ok ["Name"; "Hello World"]
  ∧ load_sheet_rows mixed_archive "xl/worksheets/sheet1.xml" ["Name"; "Hello World"]
    = Ok [["Hello World"; "TRUE"; EmptyString; "hi"; "3.5"];
          [];
          ["x"; EmptyString; "9"; "FALSE"]]
  ∧ load_sheet_rows mixed_archive "xl/worksheets/sheet2.xml" []
    = Raise (KeyError "There is no item named 'xl/worksheets/sheet2.xml' in the archive").
Proof. repeat split; vm_compute; reflexivity. Qed.

Example workbook_sheets_targets :
  sheet_path_of_target "worksheets/sheet1.xml" = "xl/worksheets/sheet1.xml"
  ∧ sheet_path_of_target "/xl/worksheets/sheet1.xml" = "xl/worksheets/sheet1.xml"
  ∧ sheet_path_of_target "xl/worksheets/sheet1.xml" = "xl/worksheets/sheet1.xml"
  ∧ workbook_sheets demo_archive = Ok {[ "Day Metrics" := "xl/worksheets/sheet1.xml" ]}.
Proof. repeat split; vm_compute; reflexivity. Qed.

(** * Properties *)

(** ** Strings *)

Section Strip.
Variable p : ascii → bool.

Lemma lstrip_starts_clean s : starts_clean p (lstrip_with p s).
Proof.
  induction s as [|c s IH]; simpl; [done|].
  destruct (p c) eqn:E; [done|]. simpl. done.
Qed.

Lemma lstrip_clean_id s : starts_clean p s → lstrip_with p s = s.
Proof. destruct s as [|c s]; simpl; [done|]. by intros ->. Qed.

Lemma rstrip_cons c s :
  rstrip_with p (String c s) =
    match rstrip_with p s with
    | EmptyString => if p c then EmptyString else str c
    | r => String c r
    end.
Proof. done. Qed.

Lemma rstrip_starts_clean s : starts_clean p s → starts_clean p (rstrip_with p s).
Proof.
  destruct s as [|c s]; [done|]. intros Hc. rewrite rstrip_cons.
  destruct (rstrip_with p s); simpl in *; [by rewrite Hc|done].
Qed.

Lemma rstrip_ends_clean s : ends_clean p (rstrip_with p s).
Proof.
  induction s as [|c s IH]; [done|]. rewrite rstrip_cons.
  destruct (rstrip_with p s) as [|d r] eqn:E.
  - destruct (p c) eqn:Ec; simpl; done.
  - done.
Qed.

Lemma rstrip_idemp s : rstrip_with p (rstrip_with p s) = rstrip_with p s.
Proof.
  induction s as [|c s IH]; [done|]. rewrite rstrip_cons.
  destruct (rstrip_with p s) as [|d r] eqn:E.
  - destruct (p c) eqn:Ec; [done|]. simpl. by rewrite Ec.
  - rewrite rstrip_cons, IH. done.
Qed.

Lemma strip_starts_clean s : starts_clean p (strip_with p s).
Proof. apply rstrip_starts_clean, lstrip_starts_clean. Qed.

Lemma strip_ends_clean s : ends_clean p (strip_with p s).
Proof. apply rstrip_ends_clean. Qed.

Lemma strip_idemp s : strip_with p (strip_with p s) = strip_with p s.
Proof.
  unfold strip_with at 1. rewrite lstrip_clean_id by apply strip_starts_clean.
  apply rstrip_idemp.
Qed.

Lemma lstrip_all_chars q s : all_chars q s = true → all_chars q (lstrip_with p s) = true.
Proof.
  induction s as [|c s IH]; simpl; [done|].
  intros [? ?]%andb_true_iff. destruct (p c); [auto|]. simpl. by apply andb_true_iff.
Qed.

Lemma rstrip_all_chars q s : all_chars q s = true → all_chars q (rstrip_with p s) = true.
Proof.
  induction s as [|c s IH]; [done|]. intros H. simpl in H.
  apply andb_true_iff in H as [Hc Hs]. rewrite rstrip_cons.
  specialize (IH Hs). destruct (rstrip_with p s).
  - destruct (p c); simpl; [done|]. by rewrite Hc.
  - simpl in *. by rewrite Hc.
Qed.

Lemma strip_all_chars q s : all_chars q s = true → all_chars q (strip_with p s) = true.
Proof. intros. by apply rstrip_all_chars, lstrip_all_chars. Qed.
End Strip.

(** ** Text normalization *)

(** Replacing one character by another is a map over the characters. *)
Lemma replace_char_map (a b : ascii) (s : string) :
  replace (str a) (str b) s = map_chars (λ c, if decide (c = a) then b else c) s.
Proof.
  unfold replace, str. induction s as [|c s IH]; [done|].
  cbn [replace_go startswith map_chars String.length Nat.pred].
  destruct (decide (a = c)) as [->|Hne].
  - rewrite decide_True by done.
    replace (startswith s EmptyString) with true by (by destruct s).
    cbn. by rewrite IH.
  - rewrite decide_False by congruence. by rewrite IH.
Qed.

Lemma map_chars_compose (f g : ascii → ascii) (s : string) :
  map_chars g (map_chars f s) = map_chars (λ c, g (f c)) s.
Proof. induction s as [|c s IH]; simpl; [done|]. by rewrite IH. Qed.

Lemma map_chars_ext (f g : ascii → ascii) (s : string) :
  (∀ c, f c = g c) → map_chars f s = map_chars g s.
Proof. intros H. induction s as [|c s IH]; simpl; [done|]. by rewrite H, IH. Qed.

Lemma map_chars_id_on (f : ascii → ascii) (q : ascii → bool) (s : string) :
  (∀ c, q c = true → f c = c) → all_chars q s = true → map_chars f s = s.
Proof.
  intros H. induction s as [|c s IH]; simpl; [done|].
  intros [? ?]%andb_true_iff. rewrite H, IH; done.
Qed.

Lemma map_chars_all (f : ascii → ascii) (q : ascii → bool) (s : string) :
  (∀ c, q (f c) = true) → all_chars q (map_chars f s) = true.
Proof. intros H. induction s as [|c s IH]; simpl; [done|]. by rewrite H, IH. Qed.

Lemma normalize_Some (v : string) :
  normalize (Some v) = strip (map_chars space_for_line_break v).
Proof.
  unfold normalize. rewrite !replace_char_map, map_chars_compose. f_equal.
  apply map_chars_ext. intros c. unfold space_for_line_break.
  destruct (decide (c = CR)) as [->|H1]; [by destruct (decide (SPACE = LF))|].
  destruct (decide (c = LF)) as [->|H2]; [done|].
  destruct (decide (c = CR ∨ c = LF)) as [[?|?]|?]; done.
Qed.

Lemma space_for_line_break_clean (c : ascii) :
  negb (is_line_break (space_for_line_break c)) = true.
Proof.
  unfold space_for_line_break, is_line_break.
  destruct (decide (c = CR ∨ c = LF)) as [H|H].
  - done.
  - by rewrite bool_decide_eq_false_2.
Qed.

(** A normalized string holds no line break. *)
Lemma normalize_no_line_break (value : option string) :
  all_chars (λ c, negb (is_line_break c)) (normalize value) = true.
Proof.
  destruct value as [v|]; [|done]. rewrite normalize_Some.
  apply strip_all_chars, map_chars_all, space_for_line_break_clean.
Qed.

(** Normalizing twice is normalizing once. *)
Lemma normalize_idemp (value : option string) :
  normalize (Some (normalize value)) = normalize value.
Proof.
  destruct value as [v|]; [|done]. rewrite !normalize_Some.
  rewrite (map_chars_id_on _ (λ c, negb (is_line_break c))).
  - apply strip_idemp.
  - intros c Hc. unfold space_for_line_break, is_line_break in *.
    destruct (decide (c = CR ∨ c = LF)); [|done].
    by rewrite bool_decide_eq_true_2 in Hc.
  - apply strip_all_chars, map_chars_all, space_for_line_break_clean.
Qed.

(** ** Cells never raise *)

(** What [int] raises is a [ValueError]. *)
Lemma int_raises_ValueError (s : string) (e : exn) :
  int s = Raise e → is_ValueError e = true.
Proof.
  unfold int, invalid_literal, exceeds_limit. intros H.
  repeat case_match; simplify_eq; reflexivity.
Qed.

Lemma shared_text_total (shared : list string) (vt : string) :
  ∃ text, shared_text shared vt = Ok text.
Proof.
  unfold shared_text. destruct (int vt) as [i|e] eqn:Hint; simpl.
  - unfold mbind, result_bind. simpl.
    destruct (getitem shared i) as [x|e] eqn:Hget; simpl; [by eexists|].
    unfold getitem in Hget. repeat case_match; simplify_eq; simpl; by eexists.
  - rewrite (int_raises_ValueError _ _ Hint). by eexists.
Qed.

Lemma cell_text_total (shared : list string) (cell : Element) :
  ∃ text, cell_text shared cell = Ok text.
Proof.
  unfold cell_text. repeat case_match; try by eexists.
  apply shared_text_total.
Qed.

Lemma cell_text_value (shared : list string) (cell : Element) (text : string) :
  cell_text shared cell = Ok text → cell_value shared cell = normalize (Some text).
Proof. unfold cell_value. by intros ->. Qed.

Lemma process_cell_value (shared cells : list string) (cell : Element) :
  process_cell shared cells cell
  = Ok (pad_to cells (cell_index cells cell) ++ [cell_value shared cell]).
Proof.
  unfold process_cell, cell_value.
  destruct (cell_text_total shared cell) as [text ->]. done.
Qed.

(** The padding loop in closed form. *)
Lemma pad_loop_replicate (fuel : nat) (cells : list string) (index : Z) :
  (Z.to_nat (index - Z.of_nat (length cells)) ≤ fuel)%nat →
  pad_loop fuel cells index
  = cells ++ replicate (Z.to_nat (index - Z.of_nat (length cells))) EmptyString.
Proof.
  revert cells. induction fuel as [|fuel IH]; intros cells Hfuel; simpl.
  - replace (Z.to_nat _) with O by lia. by rewrite app_nil_r.
  - destruct (Z.ltb_spec (Z.of_nat (length cells)) index) as [Hlt|Hge].
    + rewrite IH by (rewrite length_app; simpl; lia).
      rewrite length_app. simpl.
      replace (Z.to_nat (index - Z.of_nat (length cells)))
        with (S (Z.to_nat (index - Z.of_nat (length cells + 1)))) by lia.
      simpl. by rewrite <- app_assoc.
    + replace (Z.to_nat _) with O by lia. by rewrite app_nil_r.
Qed.

Lemma pad_to_replicate (cells : list string) (index : Z) :
  pad_to cells index
  = cells ++ replicate (Z.to_nat (index - Z.of_nat (length cells))) EmptyString.
Proof. apply pad_loop_replicate. lia. Qed.

Lemma pad_to_length (cells : list string) (index : Z) :
  Z.of_nat (length (pad_to cells index)) = Z.max (Z.of_nat (length cells)) index.
Proof. rewrite pad_to_replicate, length_app, length_replicate. lia. Qed.

(** ** Rows and tables without the exception plumbing *)

Lemma for_each_process_cell (shared : list string) (cs : list Element) (cells : list string) :
  for_each (process_cell shared) cs cells = Ok (foldl (place_cell shared) cells cs).
Proof.
  revert cells. induction cs as [|c cs IH]; intros cells; simpl; [done|].
  rewrite process_cell_value. simpl. apply IH.
Qed.

Lemma row_cells_values (shared : list string) (row : Element) :
  row_cells shared row = Ok (row_values shared row).
Proof. apply for_each_process_cell. Qed.

Lemma for_each_rows (shared : list string) (rs : list Element) (rows : list (list string)) :
  for_each (λ rows row, cells ← row_cells shared row; Ok (rows ++ [cells])) rs rows
  = Ok (rows ++ (row_values shared <$> rs)).
Proof.
  revert rows. induction rs as [|r rs IH]; intros rows; simpl.
  - by rewrite app_nil_r.
  - rewrite row_cells_values. simpl. rewrite IH, <- app_assoc. done.
Qed.

Lemma sheet_rows_values (shared : list string) (root : Element) :
  sheet_rows shared root
  = Ok (row_values shared <$> findall2 (m "sheetData") (m "row") root).
Proof. unfold sheet_rows. by rewrite for_each_rows. Qed.

Lemma normalized_fixpoint (s : string) : normalized s ↔ normalize (Some s) = s.
Proof.
  split.
  - intros [t ->]. apply normalize_idemp.
  - intros H. by exists s.
Qed.

Lemma place_cell_normalized (shared cells : list string) (cell : Element) :
  Forall normalized cells → Forall normalized (place_cell shared cells cell).
Proof.
  intros H. unfold place_cell. rewrite pad_to_replicate.
  repeat apply Forall_app_2; [done| |].
  - apply Forall_replicate. by exists EmptyString.
  - constructor; [|constructor]. unfold cell_value.
    destruct (cell_text shared cell); [by eexists|by exists EmptyString].
Qed.

Lemma row_values_normalized (shared : list string) (row : Element) :
  Forall normalized (row_values shared row).
Proof.
  unfold row_values.
  assert (∀ cs cells, Forall normalized cells →
            Forall normalized (foldl (place_cell shared) cells cs)) as H.
  { induction cs as [|c cs IH]; intros cells Hc; simpl; [done|].
    by apply IH, place_cell_normalized. }
  apply H. constructor.
Qed.

(** C7. Text normalization: an absent value gives the empty string; a value
    has every carriage return and every line feed replaced by one space and
    is then stripped of white space at both ends, so that the result holds
    no line break and neither starts nor ends with white space. It is
    applied to every cell: a table is made of the rows of its row elements,
    and each cell element puts, behind the padding, the normalization of
    the text the cell yields. It is applied to every shared string: the
    table of a well-formed part holds, for each string item in order, the
    normalization of the joined text of the item's text runs, a run
    marked to preserve its white space as it is and any other stripped. *)
Theorem C7_normalize :
  normalize None = EmptyString
  ∧ (∀ v, normalize (Some v) = strip (map_chars space_for_line_break v))
  ∧ (∀ value, all_chars (λ c, negb (is_line_break c)) (normalize value) = true
              ∧ starts_clean is_space (normalize value)
              ∧ ends_clean is_space (normalize value))
  ∧ (∀ shared root, ∃ rows,
        sheet_rows shared root = Ok rows
        ∧ Forall (Forall normalized) rows
        ∧ rows = (λ row, foldl (place_cell shared) [] (findall1 (m "c") row))
                 <$> findall2 (m "sheetData") (m "row") root)
  ∧ (∀ shared cells cell, ∃ text,
        cell_text shared cell = Ok text
        ∧ process_cell shared cells cell
          = Ok (pad_to cells (cell_index cells cell) ++ [normalize (Some text)])
        ∧ place_cell shared cells cell
          = pad_to cells (cell_index cells cell) ++ [normalize (Some text)])
  ∧ (∀ a, match load_shared_strings a with
          | Ok shared => Forall normalized shared
          | Raise _ => True
          end)
  ∧ (∀ a, load_shared_strings a
          = match a !! "xl/sharedStrings.xml" with
            | None => Ok []
            | Some NotWellFormed => Raise ParseError
            | Some (WellFormed root) =>
                Ok ((λ entry,
                       normalize
                         (Some (join EmptyString
                                  ((λ node,
                                      if decide (attrib node !! XML_SPACE = Some "preserve")
                                      then or_empty (text node)
                                      else strip (or_empty (text node)))
                                   <$> findall_descendants (m "t") entry))))
                    <$> findall1 (m "si") root)
            end).
Proof.
  split; [done|]. split; [apply normalize_Some|]. split; [|split; [|split; [|split]]].
  - intros value. split; [apply normalize_no_line_break|].
    destruct value as [v|]; [|done].
    split; [apply strip_starts_clean|apply strip_ends_clean].
  - intros shared root. eexists. split; [apply sheet_rows_values|].
    split; [|reflexivity].
    apply Forall_fmap, Forall_forall. intros row _. apply row_values_normalized.
  - intros shared cells cell. destruct (cell_text_total shared cell) as [text Ht].
    exists text. split; [done|]. unfold process_cell, place_cell, cell_value.
    by rewrite Ht.
  - intros a. unfold load_shared_strings.
    destruct (archive_read a _) as [raw|e]; [|by destruct (is_KeyError e)].
    destruct raw as [root|]; simpl; [|done].
    apply Forall_fmap, Forall_forall. intros entry _. by eexists.
  - intros a. unfold load_shared_strings, archive_read.
    by destruct (a !! "xl/sharedStrings.xml") as [[root|]|].
Qed.

(** ** Shared-string cells *)

Lemma getitem_lookup {A} (l : list A) (i : Z) (x : A) :
  0 ≤ i → l !! Z.to_nat i = Some x → getitem l i = Ok x.
Proof.
  intros Hi Hl. unfold getitem. pose proof (lookup_lt_Some _ _ _ Hl).
  destruct (Z.ltb_spec i 0); [lia|].
  destruct (Z.leb_spec 0 i); [|lia].
  destruct (Z.ltb_spec i (Z.of_nat (length l))); [|lia].
  simpl. by rewrite Hl.
Qed.

Lemma getitem_beyond {A} (l : list A) (i : Z) :
  Z.of_nat (length l) ≤ i → getitem l i = Raise IndexError.
Proof.
  intros Hi. unfold getitem.
  destruct (Z.ltb_spec i 0); [lia|].
  destruct (Z.ltb_spec i (Z.of_nat (length l))); [lia|].
  by rewrite andb_false_r.
Qed.

Lemma shared_text_entry (shared : list string) (vt : string) (i : Z) (entry : string) :
  int vt = Ok i → 0 ≤ i → shared !! Z.to_nat i = Some entry →
  shared_text shared vt = Ok entry.
Proof.
  intros Hint Hi Hl. unfold shared_text. rewrite Hint. simpl.
  unfold mbind, result_bind. simpl. by rewrite (getitem_lookup _ _ entry).
Qed.

Lemma shared_text_beyond (shared : list string) (vt : string) (i : Z) :
  int vt = Ok i → Z.of_nat (length shared) ≤ i → shared_text shared vt = Ok vt.
Proof.
  intros Hint Hi. unfold shared_text. rewrite Hint.
  unfold mbind, result_bind. simpl. by rewrite getitem_beyond.
Qed.

Lemma shared_text_not_numeric (shared : list string) (vt : string) (e : exn) :
  int vt = Raise e → shared_text shared vt = Ok vt.
Proof.
  intros Hint. unfold shared_text. rewrite Hint. simpl.
  by rewrite (int_raises_ValueError _ _ Hint).
Qed.

(** An index below zero counts from the end of the table, as far as the
    table reaches; further below, the text is the value text. *)
Lemma getitem_from_end {A} (l : list A) (i : Z) (x : A) :
  i < 0 → 0 ≤ i + Z.of_nat (length l) →
  l !! Z.to_nat (i + Z.of_nat (length l)) = Some x → getitem l i = Ok x.
Proof.
  intros Hi Hj Hl. unfold getitem. cbv zeta.
  destruct (Z.ltb_spec i 0); [|lia].
  destruct (Z.leb_spec 0 (i + Z.of_nat (length l))); [|lia].
  destruct (Z.ltb_spec (i + Z.of_nat (length l)) (Z.of_nat (length l))); [|lia].
  simpl. by rewrite Hl.
Qed.

Lemma getitem_before {A} (l : list A) (i : Z) :
  i + Z.of_nat (length l) < 0 → getitem l i = Raise IndexError.
Proof.
  intros Hi. unfold getitem. cbv zeta.
  destruct (Z.ltb_spec i 0); [|lia].
  by destruct (Z.leb_spec 0 (i + Z.of_nat (length l))); [lia|].
Qed.

Lemma shared_text_from_end (shared : list string) (vt : string) (i : Z) (entry : string) :
  int vt = Ok i → i < 0 → 0 ≤ i + Z.of_nat (length shared) →
  shared !! Z.to_nat (i + Z.of_nat (length shared)) = Some entry →
  shared_text shared vt = Ok entry.
Proof.
  intros Hint Hi Hj Hl. unfold shared_text. rewrite Hint. simpl.
  unfold mbind, result_bind. simpl. by rewrite (getitem_from_end _ _ entry).
Qed.

Lemma shared_text_before (shared : list string) (vt : string) (i : Z) :
  int vt = Ok i → i + Z.of_nat (length shared) < 0 → shared_text shared vt = Ok vt.
Proof.
  intros Hint Hi. unfold shared_text. rewrite Hint.
  unfold mbind, result_bind. simpl. by rewrite getitem_before.
Qed.

(** The text of a shared-string cell whose value node has text, by what the
    value text reads as: the entry at an index from 0 up to the last entry
    of the table; the value text for an index past the end of the table
    and for a text that is no number; the entry counted from the end for
    an index below zero that the table reaches, and the value text below
    that. The cell holds the normalized text, and the extraction never
    fails. *)
Lemma shared_string_cell_text (shared cells : list string) (cell : Element) (vt : string) :
  attrib cell !! "t" = Some "s" →
  value_text cell = Some vt →
  ∃ text,
    cell_text shared cell = Ok text
    ∧ process_cell shared cells cell
      = Ok (pad_to cells (cell_index cells cell) ++ [normalize (Some text)])
    ∧ (∀ i entry, int vt = Ok i → 0 ≤ i → shared !! Z.to_nat i = Some entry →
         text = entry ∧ (Forall normalized shared → normalize (Some text) = entry))
    ∧ (∀ i, int vt = Ok i → Z.of_nat (length shared) ≤ i → text = vt)
    ∧ (∀ e, int vt = Raise e → text = vt)
    ∧ (∀ i entry, int vt = Ok i → i < 0 →
         shared !! Z.to_nat (i + Z.of_nat (length shared)) = Some entry →
         0 ≤ i + Z.of_nat (length shared) → text = entry)
    ∧ (∀ i, int vt = Ok i → i + Z.of_nat (length shared) < 0 → text = vt).
Proof.
  intros Ht Hv.
  assert (cell_text shared cell = shared_text shared vt) as Hcell.
  { unfold cell_text. rewrite Ht, Hv. by rewrite decide_True. }
  destruct (shared_text_total shared vt) as [text Htext].
  exists text. rewrite Hcell, Htext. split; [done|]. split.
  { unfold process_cell. by rewrite Hcell, Htext. }
  split; [|split; [|split; [|split]]].
  - intros i entry Hint Hi Hl.
    rewrite (shared_text_entry _ _ _ _ Hint Hi Hl) in Htext. simplify_eq.
    split; [done|]. intros Hn. apply normalized_fixpoint.
    eapply Forall_forall; [exact Hn|]. by eapply list_elem_of_lookup_2.
  - intros i Hint Hi. rewrite (shared_text_beyond _ _ _ Hint Hi) in Htext. by simplify_eq.
  - intros e Hint. rewrite (shared_text_not_numeric _ _ _ Hint) in Htext. by simplify_eq.
  - intros i entry Hint Hi Hl Hj.
    rewrite (shared_text_from_end _ _ _ _ Hint Hi Hj Hl) in Htext. by simplify_eq.
  - intros i Hint Hi. rewrite (shared_text_before _ _ _ Hint Hi) in Htext. by simplify_eq.
Qed.

(** The index 7 in a table of three entries: the text of the cell is the
    value text as it is written, and the cell holds it normalized. *)
Example shared_cell_index_past_the_end :
  int "7" = Ok 7
  ∧ cell_text ["a"; "b"; "c"] (shared_cell "7") = Ok "7"
  ∧ process_cell ["a"; "b"; "c"] [] (shared_cell "7") = Ok ["7"]
  ∧ int " 7 " = Ok 7
  ∧ cell_text ["a"; "b"; "c"] (shared_cell " 7 ") = Ok " 7 "
  ∧ process_cell ["a"; "b"; "c"] [] (shared_cell " 7 ") = Ok ["7"]
  ∧ cell_text ["a"; "b"; "c"] (shared_cell "x") = Ok "x".
Proof. repeat split. Qed.

(** C1. The value text -1 reads as the index -1, which is no position of a
    table of three entries. The lookup takes it from the end of the table
    and raises nothing, so the handler that falls back to the value text
    does not run: the text of the cell is the last entry, c, and not the
    value text. The indices -2 and -3 give the entries before it; the
    index -4, which the table does not reach from its end either, gives
    the value text. *)
Theorem C1_negative_index :
  attrib (shared_cell "-1") !! "t" = Some "s"
  ∧ value_text (shared_cell "-1") = Some "-1"
  ∧ int "-1" = Ok (-1)
  ∧ getitem ["a"; "b"; "c"] (-1) = Ok "c"
  ∧ cell_text ["a"; "b"; "c"] (shared_cell "-1") = Ok "c"
  ∧ process_cell ["a"; "b"; "c"] [] (shared_cell "-1") = Ok ["c"]
  ∧ "c" ≠ "-1"
  ∧ process_cell ["a"; "b"; "c"] [] (shared_cell "-3") = Ok ["a"]
  ∧ process_cell ["a"; "b"; "c"] [] (shared_cell "-4") = Ok ["-4"].
Proof. repeat split; try reflexivity. discriminate. Qed.

(** ** Cells with parts missing *)





(** ** The layout of a row *)

Lemma cell_index_column_of (cells : list string) (cell : Element) :
  cell_index cells cell = column_of (Z.of_nat (length cells)) cell.
Proof. done. Qed.

Lemma place_cell_length (shared cells : list string) (cell : Element) :
  Z.of_nat (length (place_cell shared cells cell))
  = Z.max (Z.of_nat (length cells)) (cell_index cells cell) + 1.
Proof.
  unfold place_cell. rewrite length_app. simpl.
  pose proof (pad_to_length cells (cell_index cells cell)). lia.
Qed.

Lemma place_cell_lookup_old (shared cells : list string) (cell : Element) (pos : nat) :
  (pos < length cells)%nat → place_cell shared cells cell !! pos = cells !! pos.
Proof.
  intros H. unfold place_cell. rewrite pad_to_replicate, <- app_assoc.
  by rewrite lookup_app_l.
Qed.

Lemma place_cell_lookup_pad (shared cells : list string) (cell : Element) (pos : nat) :
  (length cells ≤ pos)%nat → Z.of_nat pos < cell_index cells cell →
  place_cell shared cells cell !! pos = Some EmptyString.
Proof.
  intros H1 H2. unfold place_cell. rewrite pad_to_replicate, <- app_assoc.
  rewrite lookup_app_r by done. rewrite lookup_app_l by (rewrite length_replicate; lia).
  apply lookup_replicate_2. lia.
Qed.

Lemma place_cell_lookup_new (shared cells : list string) (cell : Element) :
  Z.of_nat (length cells) ≤ cell_index cells cell →
  place_cell shared cells cell !! Z.to_nat (cell_index cells cell)
  = Some (cell_value shared cell).
Proof.
  intros H. unfold place_cell.
  pose proof (pad_to_length cells (cell_index cells cell)) as Hl.
  rewrite lookup_app_r by lia.
  replace (Z.to_nat _ - _)%nat with O by lia. done.
Qed.

Lemma foldl_place_cell_lookup_old (shared : list string) (cs : list Element)
    (cells : list string) (pos : nat) :
  (pos < length cells)%nat →
  foldl (place_cell shared) cells cs !! pos = cells !! pos.
Proof.
  revert cells. induction cs as [|c cs IH]; intros cells Hpos; simpl; [done|].
  rewrite IH.
  - by apply place_cell_lookup_old.
  - pose proof (place_cell_length shared cells c). lia.
Qed.

(** In a row whose cell elements name ascending columns, each cell sits at
    the column it names. *)
Lemma foldl_place_cell_at_column (shared : list string) (cs : list Element)
    (cells : list string) (j : nat) (c : Element) (k : Z) :
  ascending (Z.of_nat (length cells)) cs →
  cs !! j = Some c → columns (Z.of_nat (length cells)) cs !! j = Some k →
  foldl (place_cell shared) cells cs !! Z.to_nat k = Some (cell_value shared c).
Proof.
  revert cells j. induction cs as [|c0 cs IH]; intros cells j Hasc Hc Hk; [done|].
  simpl in Hasc. destruct Hasc as [Hle Hasc].
  rewrite <- cell_index_column_of in Hle, Hasc.
  assert (Z.of_nat (length (place_cell shared cells c0)) = cell_index cells c0 + 1) as Hlen.
  { rewrite place_cell_length. lia. }
  simpl. destruct j as [|j]; simpl in Hc, Hk.
  - simplify_eq. rewrite <- cell_index_column_of.
    rewrite foldl_place_cell_lookup_old by lia.
    by apply place_cell_lookup_new.
  - rewrite <- cell_index_column_of, <- Hlen in Hk. rewrite <- Hlen in Hasc.
    by eapply IH.
Qed.

(** The columns that no cell element names hold the empty string. *)
Lemma foldl_place_cell_gap (shared : list string) (cs : list Element)
    (cells : list string) (pos : nat) :
  ascending (Z.of_nat (length cells)) cs →
  (length cells ≤ pos < length (foldl (place_cell shared) cells cs))%nat →
  Z.of_nat pos ∉ columns (Z.of_nat (length cells)) cs →
  foldl (place_cell shared) cells cs !! pos = Some EmptyString.
Proof.
  revert cells. induction cs as [|c0 cs IH]; intros cells Hasc Hpos Hnot; simpl in *; [lia|].
  destruct Hasc as [Hle Hasc]. rewrite <- cell_index_column_of in Hle, Hasc, Hnot.
  assert (Z.of_nat (length (place_cell shared cells c0)) = cell_index cells c0 + 1) as Hlen.
  { rewrite place_cell_length. lia. }
  apply not_elem_of_cons in Hnot as [Hne Hnot].
  destruct (decide (Z.of_nat pos < cell_index cells c0)) as [Hlt|Hge].
  - rewrite foldl_place_cell_lookup_old by lia.
    apply place_cell_lookup_pad; lia.
  - rewrite <- Hlen in Hasc, Hnot. apply IH; [done|lia|done].
Qed.

Lemma foldl_place_cell_width (shared : list string) (cs : list Element)
    (cells : list string) (k : Z) :
  ascending (Z.of_nat (length cells)) cs →
  last (columns (Z.of_nat (length cells)) cs) = Some k →
  Z.of_nat (length (foldl (place_cell shared) cells cs)) = k + 1.
Proof.
  revert cells. induction cs as [|c0 cs IH]; intros cells Hasc Hlast; [done|].
  simpl in Hasc. destruct Hasc as [Hle Hasc]. rewrite <- cell_index_column_of in Hle, Hasc.
  assert (Z.of_nat (length (place_cell shared cells c0)) = cell_index cells c0 + 1) as Hlen.
  { rewrite place_cell_length. lia. }
  simpl in Hlast |- *. rewrite <- cell_index_column_of in Hlast.
  destruct cs as [|c1 cs].
  - simpl in *. simplify_eq. done.
  - rewrite <- Hlen in Hasc, Hlast. apply IH; [done|]. exact Hlast.
Qed.

(** Whatever columns the cell elements name, their texts come in document
    order, none left out, with nothing but empty strings between them. *)
Lemma foldl_place_cell_spread (shared : list string) (cs : list Element)
    (cells : list string) :
  ∃ pads, length pads = length cs
          ∧ foldl (place_cell shared) cells cs
            = cells ++ spread pads (cell_value shared <$> cs).
Proof.
  revert cells. induction cs as [|c cs IH]; intros cells.
  - exists []. split; [done|]. simpl. by rewrite app_nil_r.
  - simpl. destruct (IH (place_cell shared cells c)) as (pads & Hlen & ->).
    exists (Z.to_nat (cell_index cells c - Z.of_nat (length cells)) :: pads).
    split; [simpl; by rewrite Hlen|].
    unfold place_cell. rewrite pad_to_replicate. simpl.
    by rewrite <- !app_assoc.
Qed.

Lemma row_values_layout (shared : list string) (row : Element) :
  ascending 0 (findall1 (m "c") row) → row_layout shared row (row_values shared row).
Proof.
  intros Hasc. unfold row_layout, row_values. split; [|split].
  - intros j c k Hc Hk. destruct (cell_text_total shared c) as [text Ht].
    exists text. split; [done|]. rewrite <- (cell_text_value _ _ _ Ht).
    by eapply (foldl_place_cell_at_column shared _ []).
  - intros pos Hpos Hnot. apply (foldl_place_cell_gap shared _ []); [done|simpl; lia|done].
  - intros k Hk. by apply (foldl_place_cell_width shared _ []).
Qed.

(** C4, as amended. The table has one row for each row element, in document
    order. In every row the texts of the cell elements come in document
    order, none left out, with nothing but empty strings before and between
    them. In a row whose cell elements name ascending columns (each
    explicit reference lies after the column of the cell before it), the
    text of every cell sits at the column the cell names, every column that
    no cell names holds the empty string, and the row ends with its last
    cell. *)
Theorem C4_table_layout (shared : list string) (root : Element) :
  ∃ rows,
    sheet_rows shared root = Ok rows
    ∧ Forall2 (λ row cells,
                 row_cells shared row = Ok cells
                 ∧ (∃ pads, length pads = length (findall1 (m "c") row)
                            ∧ cells = spread pads (cell_value shared <$> findall1 (m "c") row))
                 ∧ (ascending 0 (findall1 (m "c") row) → row_layout shared row cells))
              (findall2 (m "sheetData") (m "row") root) rows.
Proof.
  eexists. split; [apply sheet_rows_values|].
  apply Forall2_fmap_r, Forall_Forall2_diag, Forall_forall. intros row _.
  split; [apply row_cells_values|]. split; [|apply row_values_layout].
  apply (foldl_place_cell_spread shared _ []).
Qed.

Lemma C4_table_layout_witness :
  ascending 0 (findall1 (m "c") (row_of [value_cell "B1" "x"; value_cell "D1" "y"]))
  ∧ ∃ rows,
      sheet_rows [] (sheet_of [row_of [value_cell "B1" "x"; value_cell "D1" "y"]]) = Ok rows
      ∧ Forall2 (λ row cells,
                   row_cells [] row = Ok cells
                   ∧ (∃ pads, length pads = length (findall1 (m "c") row)
                              ∧ cells = spread pads (cell_value [] <$> findall1 (m "c") row))
                   ∧ (ascending 0 (findall1 (m "c") row) → row_layout [] row cells))
                (findall2 (m "sheetData") (m "row")
                   (sheet_of [row_of [value_cell "B1" "x"; value_cell "D1" "y"]]))
                rows.
Proof.
  split; [vm_compute; intuition discriminate|].
  apply (C4_table_layout [] (sheet_of [row_of [value_cell "B1" "x"; value_cell "D1" "y"]])).
Defined.

(** A row whose cell elements come as D1 and then A1: the text of A1 sits
    at column 4, after that of D1, and column 0 holds the empty string. *)
Lemma C4_counterexample :
  findall1 (m "c") (row_of [value_cell "D1" "x"; value_cell "A1" "y"])
    = [value_cell "D1" "x"; value_cell "A1" "y"]
  ∧ excel_column_index "A1" = 0
  ∧ row_cells [] (row_of [value_cell "D1" "x"; value_cell "A1" "y"])
    = Ok [EmptyString; EmptyString; EmptyString; "x"; "y"]
  ∧ [EmptyString; EmptyString; EmptyString; "x"; "y"] !! 0%nat ≠ Some "y".
Proof. repeat split; try reflexivity. discriminate. Qed.

(** ** A sparse row *)

Lemma cell_index_ref (cells : list string) (cell : Element) (ref : string) :
  attrib cell !! "r" = Some ref → ref ≠ EmptyString →
  cell_index cells cell = excel_column_index ref.
Proof. intros Hr Hn. unfold cell_index. rewrite Hr. simpl. by rewrite decide_False. Qed.

(** C5. A row whose cell elements are one with a reference at column A and
    then one with a reference at column D extracts to four cells: the text
    of the first, two empty strings, the text of the second. Before a cell
    is appended, empty strings are appended to the row until its length is
    the column index of the cell. *)
Theorem C5_sparse_row (shared : list string) (row cA cD : Element) (refA refD : string) :
  findall1 (m "c") row = [cA; cD] →
  attrib cA !! "r" = Some refA → re_match_AZ (upper refA) = Some "A" →
  attrib cD !! "r" = Some refD → re_match_AZ (upper refD) = Some "D" →
  (∃ tA tD,
      cell_text shared cA = Ok tA ∧ cell_text shared cD = Ok tD
      ∧ row_cells shared row
        = Ok [normalize (Some tA); EmptyString; EmptyString; normalize (Some tD)])
  ∧ (∀ cells cell, ∃ text,
        cell_text shared cell = Ok text
        ∧ process_cell shared cells cell
          = Ok (pad_to cells (cell_index cells cell) ++ [normalize (Some text)])
        ∧ pad_to cells (cell_index cells cell)
          = cells ++ replicate (Z.to_nat (cell_index cells cell - Z.of_nat (length cells)))
                               EmptyString
        ∧ (Z.of_nat (length cells) ≤ cell_index cells cell →
           Z.of_nat (length (pad_to cells (cell_index cells cell))) = cell_index cells cell)).
Proof.
  intros Hcs HrA HA HrD HD. split.
  - destruct (cell_text_total shared cA) as [tA HtA].
    destruct (cell_text_total shared cD) as [tD HtD].
    exists tA, tD. split; [done|]. split; [done|].
    rewrite row_cells_values. unfold row_values. rewrite Hcs. simpl.
    assert (refA ≠ EmptyString) as HnA by (by intros ->).
    assert (refD ≠ EmptyString) as HnD by (by intros ->).
    assert (place_cell shared [] cA = [normalize (Some tA)]) as ->.
    { unfold place_cell. rewrite (cell_index_ref _ _ _ HrA HnA).
      unfold excel_column_index. rewrite HA, (cell_text_value _ _ _ HtA).
      reflexivity. }
    unfold place_cell. rewrite (cell_index_ref _ _ _ HrD HnD).
    unfold excel_column_index. rewrite HD, (cell_text_value _ _ _ HtD).
    reflexivity.
  - intros cells cell. destruct (cell_text_total shared cell) as [text Ht].
    exists text. split; [done|]. split; [|split].
    + unfold process_cell. by rewrite Ht.
    + apply pad_to_replicate.
    + intros Hle. rewrite pad_to_length. lia.
Qed.

Lemma C5_sparse_row_witness :
  findall1 (m "c") (row_of [value_cell "A1" "x"; value_cell "D1" "y"])
    = [value_cell "A1" "x"; value_cell "D1" "y"]
  ∧ re_match_AZ (upper "A1") = Some "A"
  ∧ re_match_AZ (upper "D1") = Some "D"
  ∧ ∃ tA tD,
      cell_text [] (value_cell "A1" "x") = Ok tA
      ∧ cell_text [] (value_cell "D1" "y") = Ok tD
      ∧ row_cells [] (row_of [value_cell "A1" "x"; value_cell "D1" "y"])
        = Ok [normalize (Some tA); EmptyString; EmptyString; normalize (Some tD)].
Proof.
  split; [reflexivity|]. split; [reflexivity|]. split; [reflexivity|].
  apply (C5_sparse_row [] (row_of [value_cell "A1" "x"; value_cell "D1" "y"])
           (value_cell "A1" "x") (value_cell "D1" "y") "A1" "D1"); reflexivity.
Defined.

(** ** Inline strings *)

Lemma bind_ext_Forall {A B} (f g : A → list B) (l : list A) :
  Forall (λ x, f x = g x) l → l ≫= f = l ≫= g.
Proof.
  induction 1 as [|x l Hx _ IH]; [done|]. cbn. by rewrite Hx, IH.
Qed.

Lemma runs_are_children_runs (cell : Element) :
  runs_are_children cell → inline_text_runs cell = findall2 (m "is") (m "t") cell.
Proof. apply bind_ext_Forall. Qed.

(** C8, as amended. Of an inline-string cell whose text runs are all
    children of its inline string element, the text is the normalization of
    the concatenation, in document order, of the text runs, each run
    stripped of the white space around it first. When no run has white
    space around it, that is the normalization of the concatenation of the
    runs as they are. *)
Theorem C8_inline_string_cell (shared cells : list string) (cell : Element) :
  attrib cell !! "t" = Some "inlineStr" →
  runs_are_children cell →
  process_cell shared cells cell
  = Ok (pad_to cells (cell_index cells cell)
        ++ [normalize (Some (join EmptyString
              ((λ node, strip (or_empty (text node))) <$> inline_text_runs cell)))])
  ∧ (Forall (λ node, strip (or_empty (text node)) = or_empty (text node))
            (inline_text_runs cell) →
     process_cell shared cells cell
     = Ok (pad_to cells (cell_index cells cell)
           ++ [normalize (Some (join EmptyString
                 ((λ node, or_empty (text node)) <$> inline_text_runs cell)))])).
Proof.
  intros Ht Hruns. rewrite (runs_are_children_runs _ Hruns).
  assert (cell_text shared cell = Ok (inline_text (inline_runs cell))) as Hcell.
  { unfold cell_text. rewrite Ht. by repeat (rewrite decide_False by done). }
  assert (process_cell shared cells cell
          = Ok (pad_to cells (cell_index cells cell)
                ++ [normalize (Some (inline_text (inline_runs cell)))])) as Hp.
  { unfold process_cell. by rewrite Hcell. }
  split; [exact Hp|]. intros Hclean. rewrite Hp.
  unfold inline_text, inline_runs.
  by rewrite (Forall_fmap_ext_1 _ _ _ Hclean).
Qed.

Lemma C8_inline_string_cell_witness :
  attrib (inline_cell ["a "; "b"]) !! "t" = Some "inlineStr"
  ∧ runs_are_children (inline_cell ["a "; "b"])
  ∧ process_cell [] [] (inline_cell ["a "; "b"])
    = Ok (pad_to [] (cell_index [] (inline_cell ["a "; "b"]))
          ++ [normalize (Some (join EmptyString
                ((λ node, strip (or_empty (text node)))
                   <$> inline_text_runs (inline_cell ["a "; "b"]))))]).
Proof.
  assert (runs_are_children (inline_cell ["a "; "b"])) as Hruns
    by (repeat constructor).
  split; [reflexivity|]. split; [exact Hruns|].
  apply (C8_inline_string_cell [] [] (inline_cell ["a "; "b"])); [reflexivity|exact Hruns].
Defined.

(** Two runs, the first ending in a space: the space is stripped before the
    runs are joined, so it is not in the cell. *)
Lemma C8_counterexample :
  attrib (inline_cell ["a "; "b"]) !! "t" = Some "inlineStr"
  ∧ (or_empty ∘ text <$> findall2 (m "is") (m "t") (inline_cell ["a "; "b"])) = ["a "; "b"]
  ∧ normalize (Some (join EmptyString ["a "; "b"])) = "a b"
  ∧ process_cell [] [] (inline_cell ["a "; "b"]) = Ok ["ab"]
  ∧ "ab" ≠ "a b".
Proof. repeat split; try reflexivity. discriminate. Qed.

(** Text runs inside runs of rich text are not children of the inline
    string element, and the cell is read without them; the same runs in a
    string item of the shared strings are read. *)
Example rich_text_runs :
  (or_empty ∘ text <$> inline_text_runs (rich_inline_cell ["Hello"; "World"]))
  = ["Hello"; "World"]
  ∧ findall2 (m "is") (m "t") (rich_inline_cell ["Hello"; "World"]) = []
  ∧ process_cell [] [] (rich_inline_cell ["Hello"; "World"]) = Ok [EmptyString]
  ∧ shared_entry (rich_item ["Hello"; "World"]) = "HelloWorld".
Proof. repeat split. Qed.

(** ** The name of the output file *)

Lemma collapse_replaced (l : list piece) :
  collapse (Replaced :: l) = Replaced :: collapse (drop_replaced l).
Proof.
  induction l as [|[c|] l IH]; [done|done|].
  change (collapse (Replaced :: Replaced :: l)) with (collapse (Replaced :: l)).
  by rewrite IH.
Qed.

Lemma re_sub_unsafe_pieces (s : string) :
  re_sub_unsafe "_" O s = render (collapse (classify s))
  ∧ re_sub_unsafe "_" (unsafe_run s) s = render (collapse (drop_replaced (classify s))).
Proof.
  induction s as [|c s [IHp IHq]]; [done|].
  assert (re_sub_unsafe "_" O (String c s) = render (collapse (classify (String c s)))) as Hp.
  { cbn [re_sub_unsafe unsafe_run classify]. destruct (is_safe c).
    - cbn [collapse render]. by rewrite IHp.
    - rewrite collapse_replaced. cbn [render]. by rewrite IHq. }
  split; [exact Hp|].
  destruct (is_safe c) eqn:Hc.
  - replace (unsafe_run (String c s)) with O by (simpl; by rewrite Hc).
    rewrite Hp. simpl. by rewrite Hc.
  - replace (unsafe_run (String c s)) with (S (unsafe_run s)) by (simpl; by rewrite Hc).
    cbn [re_sub_unsafe classify]. rewrite Hc. cbn [drop_replaced]. exact IHq.
Qed.

Lemma render_all_safe (l : list piece) :
  Forall (λ p, match p with Kept c => is_safe c = true | Replaced => True end) l →
  all_chars is_safe (render l) = true.
Proof.
  induction 1 as [|[c|] l Hp Hl IH]; simpl; [done| |done].
  by rewrite Hp, IH.
Qed.

Lemma classify_kept_safe (s : string) :
  Forall (λ p, match p with Kept c => is_safe c = true | Replaced => True end) (classify s).
Proof.
  induction s as [|c s IH]; simpl; constructor; [|done].
  by destruct (is_safe c) eqn:E.
Qed.

Lemma collapse_Forall (P : piece → Prop) (l : list piece) :
  Forall P l → Forall P (collapse l).
Proof.
  induction l as [|[c|] l IH]; intros H; [done| |].
  - inversion H; subst. simpl. constructor; auto.
  - inversion H; subst. simpl. destruct l as [|[d|] l']; auto.
Qed.

Lemma safe_name_runs (sheet_name : string) : safe_name sheet_name = safe_name_by_runs sheet_name.
Proof.
  unfold safe_name, safe_name_by_runs.
  rewrite (proj1 (re_sub_unsafe_pieces sheet_name)).
  by destruct (strip_chars "_" _).
Qed.

Lemma safe_name_by_runs_shape (sheet_name : string) :
  safe_name_by_runs sheet_name ≠ EmptyString
  ∧ all_chars is_safe (safe_name_by_runs sheet_name) = true
  ∧ starts_clean is_underscore (safe_name_by_runs sheet_name)
  ∧ ends_clean is_underscore (safe_name_by_runs sheet_name).
Proof.
  unfold safe_name_by_runs. cbv zeta.
  destruct (decide (strip_chars "_" (render (collapse (classify sheet_name))) = EmptyString))
    as [He|Hne].
  - repeat split; done.
  - split; [done|]. unfold strip_chars. split; [|split].
    + apply strip_all_chars, render_all_safe, collapse_Forall, classify_kept_safe.
    + apply strip_starts_clean.
    + apply strip_ends_clean.
Qed.

(** C9, as amended. The name of the output file of a sheet is the stem of
    the source, an underscore, the safe form of the sheet name and the
    extension. The safe form is the sheet name with every run of
    characters outside the letters A to Z and a to z, the digits, the
    underscore, the dot and the hyphen replaced by one underscore, the
    underscores of the name itself kept as they are, and with the
    underscores at both ends trimmed; when nothing is left it is the label
    Sheet. It is never empty, holds safe characters only, and neither
    starts nor ends with an underscore. *)
Theorem C9_output_file_name (sheet_name : string) :
  safe_name sheet_name = safe_name_by_runs sheet_name
  ∧ (strip_chars "_" (render (collapse (classify sheet_name))) = EmptyString →
     safe_name sheet_name = "Sheet")
  ∧ safe_name sheet_name ≠ EmptyString
  ∧ all_chars is_safe (safe_name sheet_name) = true
  ∧ starts_clean is_underscore (safe_name sheet_name)
  ∧ ends_clean is_underscore (safe_name sheet_name)
  ∧ (∀ a shared sheet_map input_path output_dir fs fs',
       convert_sheet a shared sheet_map input_path output_dir fs sheet_name = Ok fs' →
       ∃ rows,
         fs' = write_csv rows
                 (path_join output_dir
                    (path_stem input_path +:+ "_" +:+ safe_name_by_runs sheet_name +:+ ".csv"))
                 fs).
Proof.
  split; [apply safe_name_runs|]. split.
  { intros H. rewrite safe_name_runs. unfold safe_name_by_runs. cbv zeta. by rewrite H. }
  rewrite safe_name_runs. destruct (safe_name_by_runs_shape sheet_name) as (?&?&?&?).
  repeat split; try done.
  intros a shared sheet_map input_path output_dir fs fs' Hc.
  unfold convert_sheet in Hc. destruct (negb (truthy _)); [done|].
  destruct (load_sheet_rows _ _ _) as [rows|e]; [|done].
  exists rows. simpl in Hc. rewrite safe_name_runs in Hc. by simplify_eq.
Qed.

Lemma C9_output_file_name_witness :
  strip_chars "_" (render (collapse (classify " / "))) = EmptyString
  ∧ safe_name " / " = "Sheet"
  ∧ convert_sheet demo_archive [] {[ "Day Metrics" := "xl/worksheets/sheet1.xml" ]}
      demo_input demo_output_dir ∅ "Day Metrics"
    = Ok {[ "/csv/Book_Day_Metrics.csv" := "x," +:+ quoted "y,z" +:+ Csv.lineterminator ]}
  ∧ ∃ rows,
      ({[ "/csv/Book_Day_Metrics.csv" := "x," +:+ quoted "y,z" +:+ Csv.lineterminator ]} : files)
      = write_csv rows
          (path_join demo_output_dir
             (path_stem demo_input +:+ "_" +:+ safe_name_by_runs "Day Metrics" +:+ ".csv"))
          ∅.
Proof.
  split; [reflexivity|].
  split; [apply (C9_output_file_name " / "); reflexivity|].
  split; [vm_compute; reflexivity|].
  destruct (C9_output_file_name "Day Metrics") as (_ & _ & _ & _ & _ & _ & H).
  apply (H demo_archive [] {[ "Day Metrics" := "xl/worksheets/sheet1.xml" ]}
           demo_input demo_output_dir ∅).
  vm_compute. reflexivity.
Defined.

(** A space before an underscore, and two underscores of the name itself:
    the script keeps both underscores, where replacing every unsafe
    character and then collapsing the underscores that repeat leaves one. *)
Lemma C9_counterexample :
  underscore_unsafe "a _b" = "a__b"
  ∧ safe_name_by_underscores "a _b" = "a_b"
  ∧ safe_name "a _b" = "a__b"
  ∧ safe_name_by_underscores "a__b" = "a_b"
  ∧ safe_name "a__b" = "a__b"
  ∧ "a__b" ≠ "a_b".
Proof. repeat split; try reflexivity. discriminate. Qed.

(** ** Unknown sheets *)

Section Conversion.
Variables (a : archive) (shared : list string) (sheet_map : gmap string string).
Variables (input_path output_dir : Path).

Let body := convert_sheet a shared sheet_map input_path output_dir.

Lemma convert_sheet_missing (fs : files) (sheet_name : string) :
  sheet_map !! sheet_name = None →
  body fs sheet_name = Raise (sheet_not_found sheet_name input_path).
Proof. intros H. unfold body, convert_sheet. by rewrite H. Qed.

Lemma convert_sheet_written (fs fs' : files) (sheet_name : string) :
  body fs sheet_name = Ok fs' →
  ∃ rows, fs' = write_csv rows (output_path input_path output_dir sheet_name) fs.
Proof.
  unfold body, convert_sheet. destruct (negb (truthy _)); [done|].
  destruct (load_sheet_rows _ _ _) as [rows|e]; [|done].
  intros H. exists rows. simpl in H. by simplify_eq.
Qed.

Lemma convert_loop_app (before after : list string) (fs fs' : files) :
  convert_loop body before fs = (fs', Ok ()) →
  convert_loop body (before ++ after) fs = convert_loop body after fs'.
Proof.
  revert fs. induction before as [|s before IH]; intros fs H; simpl in *.
  - by simplify_eq.
  - destruct (body fs s); [by apply IH|done].
Qed.

(** The files of the sheets converted are there afterwards, and so is
    every file that was there before. *)
Lemma convert_loop_files (sheets : list string) (fs fs' : files) :
  convert_loop body sheets fs = (fs', Ok ()) →
  (∀ p, is_Some (fs !! p) → is_Some (fs' !! p))
  ∧ (∀ s, s ∈ sheets →
       is_Some (fs' !! path_str (output_path input_path output_dir s))).
Proof.
  revert fs. induction sheets as [|s sheets IH]; intros fs H; simpl in *.
  - simplify_eq. split; [done|]. intros s Hs. by apply elem_of_nil in Hs.
  - destruct (body fs s) as [fs1|e] eqn:Hb; [|done].
    destruct (convert_sheet_written _ _ _ Hb) as [rows ->].
    destruct (IH _ H) as [Hkeep Hnew]. split.
    + intros p Hp. apply Hkeep. unfold write_csv.
      destruct (decide (path_str (output_path input_path output_dir s) = p)) as [<-|Hne].
      * rewrite lookup_insert_eq. by eexists.
      * by rewrite lookup_insert_ne.
    + intros s' [->|Hs']%elem_of_cons; [|by apply Hnew].
      apply Hkeep. unfold write_csv. rewrite lookup_insert_eq. by eexists.
Qed.
End Conversion.

(** C3. When a requested sheet name is not in the index, the conversion
    fails with an error whose message holds the sheet name and the path of
    the source; the files are then as the sheets requested before it left
    them: nothing is written for the failing sheet or for those after it,
    each earlier sheet has its output file, and whatever was on disk before
    is still there. *)
Theorem C3_sheet_not_found (a : archive) (input_path output_dir : Path)
    (sheet_map : gmap string string) (before after : list string) (name : string)
    (fs fs' : files) :
  workbook_sheets a = Ok sheet_map →
  sheet_map !! name = None →
  convert_xlsx_to_csv a input_path before output_dir fs = (fs', Ok ()) →
  convert_xlsx_to_csv a input_path (before ++ name :: after) output_dir fs
  = (fs', Raise (ValueError ("Sheet '" +:+ name +:+ "' not found in "
                              +:+ path_str input_path)))
  ∧ (∀ s, s ∈ before →
       is_Some (fs' !! path_str
                  (path_join output_dir
                     (path_stem input_path +:+ "_" +:+ safe_name s +:+ ".csv"))))
  ∧ (∀ p, is_Some (fs !! p) → is_Some (fs' !! p)).
Proof.
  intros Hmap Hname Hbefore. unfold convert_xlsx_to_csv in *. rewrite Hmap in *.
  destruct (load_shared_strings a) as [shared|e]; [|done].
  split; [|split].
  - rewrite (convert_loop_app _ _ _ _ _ _ _ _ _ Hbefore). simpl.
    by rewrite convert_sheet_missing.
  - intros s Hs. by eapply (convert_loop_files _ _ _ _ _ _ _ _ Hbefore).
  - by eapply convert_loop_files.
Qed.

Lemma C3_sheet_not_found_witness :
  workbook_sheets demo_archive = Ok {[ "Day Metrics" := "xl/worksheets/sheet1.xml" ]}
  ∧ ({[ "Day Metrics" := "xl/worksheets/sheet1.xml" ]} : gmap string string) !! "Events" = None
  ∧ convert_xlsx_to_csv demo_archive demo_input ["Day Metrics"] demo_output_dir ∅
    = ({[ "/csv/Book_Day_Metrics.csv" := "x," +:+ quoted "y,z" +:+ Csv.lineterminator ]}, Ok ())
  ∧ convert_xlsx_to_csv demo_archive demo_input (["Day Metrics"] ++ "Events" :: ["Settings"])
      demo_output_dir ∅
    = ({[ "/csv/Book_Day_Metrics.csv" := "x," +:+ quoted "y,z" +:+ Csv.lineterminator ]},
       Raise (ValueError "Sheet 'Events' not found in /build/Book.xlsx")).
Proof.
  split; [vm_compute; reflexivity|]. split; [reflexivity|].
  split; [vm_compute; reflexivity|].
  apply (C3_sheet_not_found demo_archive demo_input demo_output_dir
           {[ "Day Metrics" := "xl/worksheets/sheet1.xml" ]}
           ["Day Metrics"] ["Settings"] "Events" ∅
           {[ "/csv/Book_Day_Metrics.csv" := "x," +:+ quoted "y,z" +:+ Csv.lineterminator ]});
    [vm_compute; reflexivity | reflexivity | vm_compute; reflexivity].
Defined.

(** ** An archive without the relationship manifest *)

Lemma foldl_add_sheet_no_relations (sheets : gmap string string) (l : list Element) :
  foldl (add_sheet ∅) sheets l = sheets.
Proof.
  revert sheets. induction l as [|sheet l IH]; intros sheets; simpl; [done|].
  rewrite IH. unfold add_sheet. rewrite lookup_empty. simpl.
  by destruct (negb (truthy _) || negb (truthy _)).
Qed.

(** C10. In an archive with no relationship manifest, whose workbook part
    and shared strings load, the relationship mapping is empty, every sheet
    element leaves the index as it was, so the index is empty, and a
    conversion that requests a sheet fails at the first one with the
    sheet-not-found error, having written nothing. *)
Theorem C10_no_relationship_manifest (a : archive) (root : Element) (shared : list string)
    (input_path output_dir : Path) (name : string) (rest : list string) (fs : files) :
  a !! "xl/_rels/workbook.xml.rels" = None →
  a !! "xl/workbook.xml" = Some (WellFormed root) →
  load_shared_strings a = Ok shared →
  workbook_relationships a = Ok ∅
  ∧ (∀ sheets sheet, add_sheet ∅ sheets sheet = sheets)
  ∧ workbook_sheets a = Ok ∅
  ∧ convert_xlsx_to_csv a input_path (name :: rest) output_dir fs
    = (fs, Raise (ValueError ("Sheet '" +:+ name +:+ "' not found in "
                               +:+ path_str input_path))).
Proof.
  intros Hrels Hwb Hshared.
  assert (workbook_relationships a = Ok ∅) as Hr.
  { unfold workbook_relationships, archive_read. by rewrite Hrels. }
  assert (workbook_sheets a = Ok ∅) as Hs.
  { unfold workbook_sheets, archive_read. rewrite Hwb. simpl. rewrite Hr. simpl.
    by rewrite foldl_add_sheet_no_relations. }
  split; [done|]. split; [|split; [done|]].
  - intros sheets sheet. apply (foldl_add_sheet_no_relations sheets [sheet]).
  - unfold convert_xlsx_to_csv. rewrite Hshared, Hs. simpl.
    unfold convert_sheet. by rewrite lookup_empty.
Qed.

Lemma C10_no_relationship_manifest_witness :
  archive_without_manifest !! "xl/_rels/workbook.xml.rels" = None
  ∧ archive_without_manifest !! "xl/workbook.xml" = Some (WellFormed demo_workbook)
  ∧ load_shared_strings archive_without_manifest = Ok []
  ∧ workbook_sheets archive_without_manifest = Ok ∅
  ∧ convert_xlsx_to_csv archive_without_manifest demo_input ("Day Metrics" :: [])
      demo_output_dir ∅
    = (∅, Raise (ValueError "Sheet 'Day Metrics' not found in /build/Book.xlsx")).
Proof.
  split; [reflexivity|]. split; [reflexivity|]. split; [reflexivity|].
  destruct (C10_no_relationship_manifest archive_without_manifest demo_workbook []
              demo_input demo_output_dir "Day Metrics" [] ∅)
    as (_ & _ & Hs & Hc); [reflexivity | reflexivity | reflexivity |].
  split; [exact Hs | exact Hc].
Defined.

(** ** The CSV encoding *)

Lemma str_app_cons (c : ascii) (s t : string) : String c s +:+ t = String c (s +:+ t).
Proof. done. Qed.

Lemma str_app_nil_r (s : string) : s +:+ EmptyString = s.
Proof. induction s as [|c s IH]; [done|]. by rewrite str_app_cons, IH. Qed.

Lemma str_app_assoc (s t u : string) : (s +:+ t) +:+ u = s +:+ (t +:+ u).
Proof. induction s as [|c s IH]; [done|]. by rewrite !str_app_cons, IH. Qed.

Lemma str_app_length (s t : string) :
  String.length (s +:+ t) = (String.length s + String.length t)%nat.
Proof. induction s as [|c s IH]; [done|]. rewrite str_app_cons. simpl. by rewrite IH. Qed.

Lemma double_quotes_plain (field : string) :
  needs_quoting field = false → double_quotes field = field.
Proof.
  induction field as [|c s IH]; [done|]. simpl.
  intros [Hc Hs]%orb_false_iff. rewrite IH by done.
  destruct (decide (c = DQUOTE)) as [->|?]; [|done]. by vm_compute in Hc.
Qed.

Lemma join_append_data_spec (field : string) (q : bool) :
  Csv.join_append_data field q = (double_quotes field, q || needs_quoting field).
Proof.
  revert q. induction field as [|c s IH]; intros q; simpl.
  - by rewrite orb_false_r.
  - rewrite IH. unfold Csv.quotechar. rewrite orb_assoc.
    by destruct (decide (c = DQUOTE)) as [->|?].
Qed.

Lemma join_append_unquoted (w : Csv.writer) (field : string) :
  Csv.join_append w field false
  = Csv.Writer (Csv.rec w
                +:+ (if (0 <? Csv.num_fields w)%nat then str COMMA else EmptyString)
                +:+ encode_field field)
               (S (Csv.num_fields w)).
Proof.
  unfold Csv.join_append. rewrite join_append_data_spec. simpl.
  unfold encode_field. destruct (needs_quoting field) eqn:E.
  - done.
  - by rewrite double_quotes_plain.
Qed.

Lemma foldl_join_append_more (row : list string) (r : string) (n : nat) :
  foldl (λ w field, Csv.join_append w field false) (Csv.Writer r (S n)) row
  = Csv.Writer (r +:+ more_fields row) (S n + length row).
Proof.
  revert r n. induction row as [|f row IH]; intros r n; simpl.
  - rewrite str_app_nil_r. f_equal. lia.
  - rewrite join_append_unquoted. simpl. rewrite IH. f_equal.
    + by rewrite !str_app_assoc.
    + lia.
Qed.

Lemma join_more_fields (f : string) (row : list string) :
  join (str COMMA) (encode_field <$> f :: row) = encode_field f +:+ more_fields row.
Proof.
  revert f. induction row as [|g row IH]; intros f.
  - simpl. by rewrite str_app_nil_r.
  - change (join (str COMMA) (encode_field <$> f :: g :: row))
      with (encode_field f +:+ str COMMA +:+ join (str COMMA) (encode_field <$> g :: row)).
    rewrite IH. done.
Qed.

Lemma foldl_join_append_row (row : list string) :
  foldl (λ w field, Csv.join_append w field false) (Csv.Writer EmptyString O) row
  = Csv.Writer (join (str COMMA) (encode_field <$> row)) (length row).
Proof.
  destruct row as [|f row]; [done|]. rewrite join_more_fields. cbn [foldl].
  rewrite join_append_unquoted. cbn [Csv.rec Csv.num_fields].
  by rewrite foldl_join_append_more.
Qed.

Lemma encode_field_empty (field : string) :
  String.length (encode_field field) = O → field = EmptyString.
Proof.
  unfold encode_field. destruct (needs_quoting field); [done|].
  by destruct field.
Qed.

(** The record of a row is empty only for a row of one empty field or of no
    field at all. *)
Lemma join_fields_empty (row : list string) :
  String.length (join (str COMMA) (encode_field <$> row)) = O →
  row = [] ∨ row = [EmptyString].
Proof.
  destruct row as [|f row]; [by left|]. rewrite join_more_fields.
  rewrite str_app_length. intros H. right.
  destruct row as [|g row].
  - f_equal. apply encode_field_empty. simpl in H. lia.
  - exfalso. cbn [more_fields] in H. rewrite str_app_length in H. simpl in H. lia.
Qed.

Lemma writerow_encode_record (row : list string) : Csv.writerow row = encode_record row.
Proof.
  unfold Csv.writerow, encode_record. rewrite foldl_join_append_row. simpl.
  destruct (decide (row = [EmptyString])) as [->|Hne]; [done|].
  destruct row as [|f row]; [done|]. simpl length.
  destruct (String.length _ =? 0)%nat eqn:E; [|done].
  apply Nat.eqb_eq, join_fields_empty in E as [?|?]; done.
Qed.

Lemma foldl_writerow (rows : list (list string)) (written : string) :
  foldl (λ written row, written +:+ Csv.writerow row) written rows
  = written +:+ concat_str (encode_record <$> rows).
Proof.
  revert written. induction rows as [|row rows IH]; intros written; simpl.
  - by rewrite str_app_nil_r.
  - by rewrite IH, writerow_encode_record, str_app_assoc.
Qed.

(** C6, as amended. The file [write_csv] leaves holds one record for each
    row, in order; a record is the fields of its row, as many as the row
    has and in its order, with commas between them, and ends with CR LF,
    the last record too. A field is written between quotes, its quote
    characters doubled, exactly when it holds a comma, a quote character, a
    carriage return or a line feed, and as it is otherwise; only a row of
    one empty field is written as a quoted empty field. *)
Theorem C6_csv_encoding :
  (∀ rows output_path fs,
      write_csv rows output_path fs !! path_str output_path
      = Some (concat_str (encode_record <$> rows)))
  ∧ (∀ row, Csv.writerow row = encode_record row)
  ∧ (∀ row, row ≠ [EmptyString] →
      Csv.writerow row = join (str COMMA) (encode_field <$> row) +:+ str CR +:+ str LF)
  ∧ Csv.writerow [EmptyString] = quoted EmptyString +:+ str CR +:+ str LF
  ∧ (∀ field, encode_field field
              = if needs_quoting field then quoted (double_quotes field) else field)
  ∧ (∀ field, needs_quoting field = true
              ↔ ∃ c, mem c field = true ∧ (c = COMMA ∨ c = DQUOTE ∨ c = CR ∨ c = LF))
  ∧ Csv.writerow ["x"; "y,z"] = "x," +:+ quoted "y,z" +:+ str CR +:+ str LF
  ∧ encode_field ("He said " +:+ quoted "hi")
    = quoted ("He said " +:+ quoted (quoted "hi")).
Proof.
  split.
  { intros rows output_path fs. unfold write_csv.
    by rewrite lookup_insert_eq, foldl_writerow. }
  split; [apply writerow_encode_record|]. split.
  { intros row Hne. rewrite writerow_encode_record. unfold encode_record.
    by rewrite decide_False. }
  split; [done|]. split; [done|]. split; [|split; reflexivity].
  intros field. induction field as [|c s IH]; simpl.
  - split; [done|]. by intros (c & ? & _).
  - rewrite orb_true_iff, IH. split.
    + intros [Hc|(d & Hd & Hspecial)].
      * exists c. rewrite decide_True by done. split; [done|].
        unfold Csv.special in Hc. simpl in Hc.
        repeat case_decide; repeat case_bool_decide; simplify_eq; auto.
      * exists d. split; [|done]. by destruct (decide (d = c)).
    + intros (d & Hd & Hspecial). destruct (decide (d = c)) as [->|Hne].
      * left. by destruct Hspecial as [ -> | [ -> | [ -> | -> ]]].
      * right. by exists d.
Qed.

(** A row of one empty field: the field holds no special character and is
    written between quotes all the same. *)
Lemma C6_counterexample :
  needs_quoting EmptyString = false
  ∧ Csv.writerow [EmptyString] = quoted EmptyString +:+ str CR +:+ str LF
  ∧ quoted EmptyString ≠ EmptyString.
Proof. repeat split; try reflexivity. discriminate. Qed.

Lemma C6_csv_encoding_witness :
  ["x"; "y,z"] ≠ [EmptyString]
  ∧ Csv.writerow ["x"; "y,z"]
    = join (str COMMA) (encode_field <$> ["x"; "y,z"]) +:+ str CR +:+ str LF.
Proof.
  split; [discriminate|].
  destruct C6_csv_encoding as (_ & _ & H & _). apply H. discriminate.
Defined.

(** * Further properties of the code *)

(** ** Column references *)

Lemma upper_app (s t : string) : upper (s +:+ t) = upper s +:+ upper t.
Proof.
  induction s as [|c s IH]; [done|]. rewrite str_app_cons. simpl.
  by rewrite IH, str_app_assoc.
Qed.

Lemma upper_char_idemp (c : ascii) : upper (upper_char c) = upper_char c.
Proof. destruct c as [[] [] [] [] [] [] [] []]; reflexivity. Qed.

Lemma upper_idemp (s : string) : upper (upper s) = upper s.
Proof.
  induction s as [|c s IH]; [done|]. simpl.
  by rewrite upper_app, upper_char_idemp, IH.
Qed.

Lemma upper_char_letter (c : ascii) :
  is_ascii_letter c = true →
  ∃ d, upper_char c = str d ∧ is_upper_AZ d = true.
Proof.
  destruct c as [[] [] [] [] [] [] [] []]; intros H; try discriminate H;
    eexists; split; reflexivity.
Qed.

Lemma upper_char_capital (c : ascii) : is_upper_AZ c = true → upper_char c = str c.
Proof. destruct c as [[] [] [] [] [] [] [] []]; intros H; try discriminate H; reflexivity. Qed.

Lemma upper_char_digit (c : ascii) : is_digit c = true → upper_char c = str c.
Proof. destruct c as [[] [] [] [] [] [] [] []]; intros H; try discriminate H; reflexivity. Qed.

Lemma digit_not_capital (c : ascii) : is_digit c = true → is_upper_AZ c = false.
Proof. destruct c as [[] [] [] [] [] [] [] []]; intros H; try discriminate H; reflexivity. Qed.

Lemma upper_capitals (s : string) : all_chars is_upper_AZ s = true → upper s = s.
Proof.
  induction s as [|c s IH]; [done|]. simpl. intros [Hc Hs]%andb_true_iff.
  by rewrite upper_char_capital, IH.
Qed.

Lemma leading_AZ_capitals (s : string) : all_chars is_upper_AZ s = true → leading_AZ s = s.
Proof.
  induction s as [|c s IH]; [done|]. simpl. intros [Hc Hs]%andb_true_iff.
  by rewrite Hc, IH.
Qed.

Lemma leading_AZ_all_capitals (s : string) : all_chars is_upper_AZ (leading_AZ s) = true.
Proof.
  induction s as [|c s IH]; [done|]. simpl.
  destruct (is_upper_AZ c) eqn:Hc; [|done]. simpl. by rewrite Hc.
Qed.

(** The leading letters of a reference, in capitals, are all that
    [excel_column_index] reads of it. *)
Lemma leading_AZ_upper_letters (letters rest : string) :
  all_chars is_ascii_letter letters = true →
  starts_with_digit_or_empty rest →
  leading_AZ (upper (letters +:+ rest)) = upper letters
  ∧ all_chars is_upper_AZ (upper letters) = true.
Proof.
  intros Hl Hr. induction letters as [|c s IH].
  - split; [|done]. change (EmptyString +:+ rest) with rest.
    destruct rest as [|d rest]; [done|].
    simpl in Hr. cbn [upper]. rewrite (upper_char_digit _ Hr). unfold str.
    rewrite str_app_cons. simpl.
    by rewrite (digit_not_capital _ Hr).
  - simpl in Hl. apply andb_true_iff in Hl as [Hc Hs].
    destruct (IH Hs) as [IH1 IH2].
    destruct (upper_char_letter c Hc) as (d & Hd & Hcap).
    rewrite str_app_cons. simpl. rewrite Hd. unfold str. rewrite !str_app_cons.
    change (EmptyString +:+ upper (s +:+ rest)) with (upper (s +:+ rest)).
    change (EmptyString +:+ upper s) with (upper s).
    simpl. rewrite Hcap. split; [by rewrite IH1|by rewrite IH2].
Qed.

Lemma column_loop_lower_bound (index : Z) (letters : string) :
  0 ≤ index → all_chars is_upper_AZ letters = true →
  index ≤ column_loop index letters
  ∧ (letters ≠ EmptyString → 1 ≤ column_loop index letters).
Proof.
  revert index. induction letters as [|c s IH]; intros index Hi Hl; simpl.
  - split; [lia|done].
  - simpl in Hl. apply andb_true_iff in Hl as [Hc Hs].
    assert (1 ≤ ord c - ord "A"%char + 1 ≤ 26) as Hd.
    { unfold is_upper_AZ, in_range in Hc. change (ord "A"%char) with 65. lia. }
    destruct (IH (index * 26 + (ord c - ord "A"%char + 1)) ltac:(lia) Hs) as [IH1 _].
    split; [lia|]. intros _. lia.
Qed.

(** X1. The column index is never negative; it is 0 for a reference with no
    leading letter; neither the case of the letters nor what follows them
    matters. *)
Theorem X1_column_index_reads_leading_letters :
  (∀ reference, 0 ≤ excel_column_index reference)
  ∧ (∀ reference, leading_AZ (upper reference) = EmptyString →
       excel_column_index reference = 0)
  ∧ (∀ reference, excel_column_index (upper reference) = excel_column_index reference)
  ∧ (∀ letters rest,
       all_chars is_ascii_letter letters = true →
       starts_with_digit_or_empty rest →
       excel_column_index (letters +:+ rest) = excel_column_index (upper letters)).
Proof.
  split; [|split; [|split]].
  - intros reference. unfold excel_column_index, re_match_AZ.
    pose proof (leading_AZ_all_capitals (upper reference)) as Hcap.
    destruct (leading_AZ (upper reference)) as [|c s] eqn:E; [done|].
    destruct (column_loop_lower_bound 0 (String c s) ltac:(done) Hcap) as [_ H].
    specialize (H ltac:(done)). lia.
  - intros reference H. unfold excel_column_index, re_match_AZ. by rewrite H.
  - intros reference. unfold excel_column_index. by rewrite upper_idemp.
  - intros letters rest Hl Hr.
    destruct (leading_AZ_upper_letters letters rest Hl Hr) as [H1 H2].
    unfold excel_column_index, re_match_AZ.
    by rewrite H1, upper_idemp, (leading_AZ_capitals _ H2).
Qed.

Lemma X1_column_index_reads_leading_letters_witness :
  all_chars is_ascii_letter "aB" = true
  ∧ starts_with_digit_or_empty "12"
  ∧ excel_column_index ("aB" +:+ "12") = excel_column_index (upper "aB")
  ∧ leading_AZ (upper "7") = EmptyString
  ∧ excel_column_index "7" = 0.
Proof.
  destruct X1_column_index_reads_leading_letters as (_ & H0 & _ & H).
  split; [reflexivity|]. split; [reflexivity|].
  split; [apply H; reflexivity|]. split; [reflexivity|]. apply H0. reflexivity.
Defined.

Lemma column_loop_foldl (index : Z) (letters : string) :
  column_loop index letters
  = foldl (λ index char, index * 26 + (ord char - ord "A"%char + 1)) index
          (list_ascii_of_string letters).
Proof. revert index. induction letters as [|c s IH]; intros index; simpl; [done|apply IH]. Qed.

Lemma all_chars_Forall (p : ascii → bool) (s : string) :
  all_chars p s = true ↔ Forall (λ c, p c = true) (list_ascii_of_string s).
Proof.
  induction s as [|c s IH]; simpl.
  - split; [constructor|done].
  - rewrite andb_true_iff, IH, Forall_cons. done.
Qed.

Lemma ord_inj (c d : ascii) : ord c = ord d → c = d.
Proof.
  unfold ord. intros H%(inj Z.of_N).
  by rewrite <- (ascii_N_embedding c), <- (ascii_N_embedding d), H.
Qed.

(** Letters as the digits 1 to 26: two runs of capitals with the same value
    are the same run. *)
Lemma letters_value_inj (l1 l2 : list ascii) :
  Forall (λ c, is_upper_AZ c = true) l1 → Forall (λ c, is_upper_AZ c = true) l2 →
  foldl (λ index char, index * 26 + (ord char - ord "A"%char + 1)) 0 l1
  = foldl (λ index char, index * 26 + (ord char - ord "A"%char + 1)) 0 l2 →
  l1 = l2.
Proof.
  set (step := λ (index : Z) (char : ascii), index * 26 + (ord char - ord "A"%char + 1)).
  assert (∀ l, Forall (λ c, is_upper_AZ c = true) l → 0 ≤ foldl step 0 l) as Hpos.
  { induction l as [|x l IH] using rev_ind; intros Hl; [done|].
    apply Forall_app in Hl as [Hl [Hx _]%Forall_cons]. rewrite foldl_app. simpl.
    specialize (IH Hl). unfold step, is_upper_AZ, in_range in *. cbn beta in *.
    change (ord "A"%char) with 65 in *. lia. }
  revert l2. induction l1 as [|x l1 IH] using rev_ind; intros l2 H1 H2 Heq.
  - destruct l2 as [|y l2 _] using rev_ind; [done|].
    apply Forall_app in H2 as [H2 [Hy _]%Forall_cons].
    rewrite foldl_app in Heq. simpl in Heq. specialize (Hpos _ H2).
    unfold step, is_upper_AZ, in_range in *. cbn beta in *.
      change (ord "A"%char) with 65 in *. lia.
  - apply Forall_app in H1 as [H1 [Hx _]%Forall_cons].
    destruct l2 as [|y l2 _] using rev_ind.
    + rewrite foldl_app in Heq. simpl in Heq. specialize (Hpos _ H1).
      unfold step, is_upper_AZ, in_range in *. cbn beta in *.
      change (ord "A"%char) with 65 in *. lia.
    + apply Forall_app in H2 as [H2 [Hy _]%Forall_cons].
      rewrite !foldl_app in Heq. simpl in Heq.
      pose proof (Hpos _ H1). pose proof (Hpos _ H2).
      assert (foldl step 0 l1 = foldl step 0 l2 ∧ ord x = ord y) as [Hv Hd].
      { unfold step, is_upper_AZ, in_range in *. cbn beta in *.
        change (ord "A"%char) with 65 in *. lia. }
      f_equal; [by apply IH|]. f_equal. by apply ord_inj.
Qed.

Lemma excel_column_index_capitals (letters : string) :
  all_chars is_upper_AZ letters = true → letters ≠ EmptyString →
  excel_column_index letters = column_loop 0 letters - 1.
Proof.
  intros Hl Hn. unfold excel_column_index, re_match_AZ.
  rewrite (upper_capitals _ Hl), (leading_AZ_capitals _ Hl).
  by destruct letters.
Qed.

Lemma column_loop_app (index : Z) (s t : string) :
  column_loop index (s +:+ t) = column_loop (column_loop index s) t.
Proof.
  revert index. induction s as [|c s IH]; intros index; [done|].
  rewrite str_app_cons. simpl. apply IH.
Qed.

Lemma all_chars_app (p : ascii → bool) (s t : string) :
  all_chars p (s +:+ t) = all_chars p s && all_chars p t.
Proof.
  induction s as [|c s IH]; [done|]. rewrite str_app_cons. simpl.
  by rewrite IH, andb_assoc.
Qed.

(** X2. Column letters are read as a number in base 26 with the digits A = 1
    to Z = 26: appending a letter multiplies what stood before by 26, and
    two different runs of capital letters never give the same column. *)
Theorem X2_column_index_of_letters (a b : string) (c : ascii) :
  all_chars is_upper_AZ a = true → a ≠ EmptyString →
  all_chars is_upper_AZ b = true → b ≠ EmptyString →
  is_upper_AZ c = true →
  excel_column_index (a +:+ str c) = 26 * (excel_column_index a + 1) + (ord c - ord "A"%char)
  ∧ (excel_column_index a = excel_column_index b → a = b).
Proof.
  intros Ha Hna Hb Hnb Hc. split.
  - rewrite excel_column_index_capitals.
    + rewrite (excel_column_index_capitals a) by done.
      rewrite column_loop_app. simpl. lia.
    + rewrite all_chars_app, Ha. simpl. by rewrite Hc.
    + by destruct a.
  - rewrite !excel_column_index_capitals by done. rewrite !column_loop_foldl.
    intros Heq.
    rewrite <- (string_of_list_ascii_of_string a), <- (string_of_list_ascii_of_string b).
    f_equal. apply letters_value_inj; [by apply all_chars_Forall..|lia].
Qed.

Lemma X2_column_index_of_letters_witness :
  excel_column_index ("A" +:+ str "B"%char)
  = 26 * (excel_column_index "A" + 1) + (ord "B"%char - ord "A"%char)
  ∧ (excel_column_index "A" = excel_column_index "Z" → "A" = "Z").
Proof.
  apply (X2_column_index_of_letters "A" "Z" "B"%char); done.
Defined.

(** ** Normalized text *)

Lemma rstrip_clean_id (p : ascii → bool) (s : string) :
  ends_clean p s → rstrip_with p s = s.
Proof.
  induction s as [|c s IH]; [done|]. intros H. rewrite rstrip_cons.
  destruct s as [|d s].
  - simpl in *. by rewrite H.
  - rewrite IH by exact H. done.
Qed.

Lemma strip_clean_id (p : ascii → bool) (s : string) :
  starts_clean p s → ends_clean p s → strip_with p s = s.
Proof.
  intros H1 H2. unfold strip_with. rewrite lstrip_clean_id by done.
  by apply rstrip_clean_id.
Qed.

(** X3. The strings [normalize] leaves as they are, are exactly those with
    no carriage return or line feed and no white space at either end, and
    every string [normalize] returns is one of them: normalizing twice is
    normalizing once. White space inside a string is kept. *)
Theorem X3_normalize_fixed_points (s : string) :
  (normalize (Some s) = s
   ↔ all_chars (λ c, negb (is_line_break c)) s = true
     ∧ starts_clean is_space s ∧ ends_clean is_space s)
  ∧ normalize (Some (normalize (Some s))) = normalize (Some s).
Proof.
  split; [|apply normalize_idemp]. split.
  - intros H. rewrite <- H. split; [apply normalize_no_line_break|].
    rewrite normalize_Some. split; [apply strip_starts_clean|apply strip_ends_clean].
  - intros (Hl & Hs & He). rewrite normalize_Some.
    rewrite (map_chars_id_on _ (λ c, negb (is_line_break c))); [|..|done].
    + by apply strip_clean_id.
    + intros c Hc. unfold space_for_line_break, is_line_break in *.
      destruct (decide (c = CR ∨ c = LF)); [|done].
      by rewrite bool_decide_eq_true_2 in Hc.
Qed.

(** ** Shared strings *)

Section StripMap.
Variables (p : ascii → bool) (f : ascii → ascii).
Hypothesis p_f : ∀ c, p (f c) = p c.

Lemma lstrip_map_chars (s : string) :
  lstrip_with p (map_chars f s) = map_chars f (lstrip_with p s).
Proof.
  induction s as [|c s IH]; [done|]. simpl. rewrite p_f.
  by destruct (p c).
Qed.

Lemma rstrip_map_chars (s : string) :
  rstrip_with p (map_chars f s) = map_chars f (rstrip_with p s).
Proof.
  induction s as [|c s IH]; [done|].
  cbn [map_chars]. rewrite !rstrip_cons, IH, p_f.
  destruct (rstrip_with p s); simpl; [by destruct (p c)|done].
Qed.

Lemma strip_map_chars (s : string) :
  strip_with p (map_chars f s) = map_chars f (strip_with p s).
Proof. unfold strip_with. by rewrite lstrip_map_chars, rstrip_map_chars. Qed.
End StripMap.

Lemma is_space_space_for_line_break (c : ascii) :
  is_space (space_for_line_break c) = is_space c.
Proof.
  unfold space_for_line_break.
  destruct (decide (c = CR ∨ c = LF)) as [[->| ->]|?]; done.
Qed.

(** Stripping before normalizing changes nothing. *)
Lemma normalize_strip (t : string) : normalize (Some (strip t)) = normalize (Some t).
Proof.
  rewrite !normalize_Some. unfold strip.
  rewrite <- (strip_map_chars _ _ is_space_space_for_line_break).
  apply strip_idemp.
Qed.

Lemma join_singleton (sep s : string) : join sep [s] = s.
Proof. done. Qed.

(** X4. A string item with one text run gives the normalized text of the
    run, whether the run asks for its white space to be preserved or not:
    the attribute only has an effect between the runs of an item. *)
Theorem X4_shared_entry_single_run (entry node : Element) :
  findall_descendants (m "t") entry = [node] →
  shared_entry entry = normalize (text node).
Proof.
  intros H. unfold shared_entry. rewrite H. cbn [fmap list_fmap].
  rewrite join_singleton. unfold fragment, or_empty.
  destruct (text node) as [t|]; simpl.
  - destruct (decide (attrib node !! XML_SPACE = Some "preserve")); [done|].
    apply normalize_strip.
  - by destruct (decide (attrib node !! XML_SPACE = Some "preserve")).
Qed.

Lemma X4_shared_entry_single_run_witness :
  findall_descendants (m "t") preserved_item
  = [Elem (m "t") {[ XML_SPACE := "preserve" ]} (Some "  kept  ") []]
  ∧ shared_entry preserved_item = "kept".
Proof.
  split; [reflexivity|].
  rewrite (X4_shared_entry_single_run preserved_item
             (Elem (m "t") {[ XML_SPACE := "preserve" ]} (Some "  kept  ") []));
    reflexivity.
Defined.

Lemma shared_text_empty_table (vt : string) : shared_text [] vt = Ok vt.
Proof.
  destruct (int vt) as [i|e] eqn:Hint.
  - destruct (decide (0 ≤ i)).
    + by apply (shared_text_beyond [] vt i).
    + unfold shared_text. rewrite Hint. unfold mbind, result_bind. simpl.
      unfold getitem. simpl. destruct (i <? 0) eqn:E; [|lia].
      by destruct ((0 <=? i + Z.of_nat 0) && (i + Z.of_nat 0 <? Z.of_nat 0)).
  - by apply (shared_text_not_numeric [] vt e).
Qed.

(** X5. An archive without the shared-string part has an empty table, and
    against the empty table every shared-string cell is the normalized text
    of its value node, or the empty string when it has none, whatever
    number the text holds. *)
Theorem X5_no_shared_strings (a : archive) (cells : list string) (cell : Element) :
  a !! "xl/sharedStrings.xml" = None →
  attrib cell !! "t" = Some "s" →
  load_shared_strings a = Ok []
  ∧ process_cell [] cells cell
    = Ok (pad_to cells (cell_index cells cell) ++ [normalize (value_text cell)]).
Proof.
  intros Ha Ht. split.
  - unfold load_shared_strings, archive_read. by rewrite Ha.
  - unfold process_cell, cell_text. rewrite Ht, decide_True by done.
    destruct (value_text cell) as [vt|]; [|done].
    by rewrite shared_text_empty_table.
Qed.

Lemma X5_no_shared_strings_witness :
  archive_without_manifest !! "xl/sharedStrings.xml" = None
  ∧ attrib (shared_cell "-1") !! "t" = Some "s"
  ∧ load_shared_strings archive_without_manifest = Ok []
  ∧ process_cell [] [] (shared_cell "-1") = Ok ["-1"].
Proof.
  split; [reflexivity|]. split; [reflexivity|].
  destruct (X5_no_shared_strings archive_without_manifest [] (shared_cell "-1"))
    as [H1 H2]; [reflexivity..|].
  split; [exact H1|]. rewrite H2. reflexivity.
Defined.

(** ** The workbook index *)

Section FoldInsert.
Context {A : Type}.
Variables (entry : A → option (string * string)).
Variable step : gmap string string → A → gmap string string.
Hypothesis step_entry :
  ∀ mapping x, step mapping x
               = match entry x with
                 | Some (k, v) => <[k:=v]> mapping
                 | None => mapping
                 end.

(** A loop that inserts the entries of a list one after the other binds a
    key to what its last entry gave it. *)
Lemma foldl_insert_last_binding (l : list A) (mapping : gmap string string) (k : string) :
  foldl step mapping l !! k
  = match last_binding k (omap entry l) with
    | Some v => Some v
    | None => mapping !! k
    end.
Proof.
  revert mapping. induction l as [|x l IH]; intros mapping; [done|].
  cbn [foldl omap list_omap]. rewrite IH, step_entry.
  destruct (entry x) as [[k' v]|]; [|done].
  cbn [last_binding]. destruct (last_binding k (omap entry l)); [done|].
  destruct (decide (k = k')) as [->|Hne].
  - by rewrite lookup_insert_eq.
  - by rewrite lookup_insert_ne.
Qed.
End FoldInsert.

Lemma last_binding_elem (k v : string) (l : list (string * string)) :
  last_binding k l = Some v → (k, v) ∈ l.
Proof.
  induction l as [|[k' v'] l IH]; [done|]. simpl.
  destruct (last_binding k l) as [w|].
  - intros ?; simplify_eq. right. by apply IH.
  - destruct (decide (k = k')) as [->|?]; [|done]. intros ?; simplify_eq. left.
Qed.

Lemma add_relationship_entry (mapping : gmap string string) (rel : Element) :
  add_relationship mapping rel
  = match relationship_entry rel with
    | Some (k, v) => <[k:=v]> mapping
    | None => mapping
    end.
Proof.
  unfold add_relationship, relationship_entry.
  destruct (attrib rel !! "Id") as [[|a i]|]; [done| |done].
  by destruct (attrib rel !! "Target") as [[|b t]|].
Qed.

Lemma add_sheet_entry (relations sheets : gmap string string) (sheet : Element) :
  add_sheet relations sheets sheet
  = match sheet_entry relations sheet with
    | Some (k, v) => <[k:=v]> sheets
    | None => sheets
    end.
Proof.
  unfold add_sheet, sheet_entry.
  destruct (attrib sheet !! "name") as [[|a n]|]; [done| |done].
  destruct (attrib sheet !! qname NS_REL "id") as [[|b i]|]; [done| |done].
  simpl. by destruct (relations !! String b i) as [[|c t]|].
Qed.

(** X6. When the relationship manifest is there and well formed, an id is
    bound to the Target of the last Relationship element that carries it,
    among the elements with an Id and a Target that are not empty; an id
    that no such element carries is not bound. *)
Theorem X6_relationships_last_wins (a : archive) (root : Element) :
  a !! "xl/_rels/workbook.xml.rels" = Some (WellFormed root) →
  ∃ mapping,
    workbook_relationships a = Ok mapping
    ∧ ∀ rel_id,
        mapping !! rel_id
        = last_binding rel_id
            (omap relationship_entry (findall1 (qname NS_PKG_REL "Relationship") root)).
Proof.
  intros Ha. eexists. split.
  - unfold workbook_relationships, archive_read. rewrite Ha. reflexivity.
  - intros rel_id.
    rewrite (foldl_insert_last_binding relationship_entry add_relationship
               add_relationship_entry).
    rewrite lookup_empty. by destruct (last_binding _ _).
Qed.

Lemma X6_relationships_last_wins_witness :
  doubled_archive !! "xl/_rels/workbook.xml.rels" = Some (WellFormed doubled_relationships)
  ∧ ∃ mapping,
      workbook_relationships doubled_archive = Ok mapping
      ∧ mapping !! "rId1" = Some "/xl/worksheets/new.xml"
      ∧ mapping !! "rId2" = None.
Proof.
  split; [reflexivity|].
  destruct (X6_relationships_last_wins doubled_archive doubled_relationships)
    as (mapping & Hm & Hl); [reflexivity|].
  exists mapping. split; [exact Hm|]. rewrite !Hl. split; reflexivity.
Defined.

Lemma startswith_cons_ne (c d : ascii) (s : string) :
  c ≠ d → startswith (String c s) (str d) = false.
Proof. intros H. simpl. by rewrite decide_False by congruence. Qed.

Lemma lstrip_no_slash (s : string) : startswith (lstrip_chars "/" s) "/" = false.
Proof.
  unfold lstrip_chars.
  pose proof (lstrip_starts_clean (λ c, mem c "/") s) as H.
  destruct (lstrip_with _ s) as [|c r]; [done|]. simpl in *.
  destruct (decide ("/"%char = c)) as [<-|?]; [done|]. by destruct r.
Qed.

Lemma sheet_path_no_slash (target : string) :
  startswith (sheet_path_of_target target) "/" = false.
Proof.
  unfold sheet_path_of_target.
  destruct (startswith target "/") eqn:E1; [apply lstrip_no_slash|].
  by destruct (startswith target "xl/").
Qed.

(** X7. The three ways of writing the target of a sheet give the same path:
    the name alone, the name under xl/, and the name under /xl/ all become
    the name under xl/. No path of the index starts with a slash. *)
Theorem X7_target_forms_agree (name : string) :
  startswith name "/" = false →
  startswith name "xl/" = false →
  sheet_path_of_target name = "xl/" +:+ name
  ∧ sheet_path_of_target ("xl/" +:+ name) = "xl/" +:+ name
  ∧ sheet_path_of_target ("/xl/" +:+ name) = "xl/" +:+ name
  ∧ (∀ target, startswith (sheet_path_of_target target) "/" = false).
Proof.
  intros H1 H2. split; [|split; [|split]].
  - unfold sheet_path_of_target. by rewrite H1, H2.
  - unfold sheet_path_of_target.
    replace (startswith ("xl/" +:+ name) "/") with false by reflexivity.
    by replace (startswith ("xl/" +:+ name) "xl/") with true by (by destruct name).
  - unfold sheet_path_of_target.
    by replace (startswith ("/xl/" +:+ name) "/") with true by reflexivity.
  - apply sheet_path_no_slash.
Qed.

Lemma X7_target_forms_agree_witness :
  startswith "worksheets/sheet1.xml" "/" = false
  ∧ startswith "worksheets/sheet1.xml" "xl/" = false
  ∧ sheet_path_of_target "worksheets/sheet1.xml" = "xl/" +:+ "worksheets/sheet1.xml"
  ∧ sheet_path_of_target ("/xl/" +:+ "worksheets/sheet1.xml")
    = "xl/" +:+ "worksheets/sheet1.xml".
Proof.
  split; [reflexivity|]. split; [reflexivity|].
  destruct (X7_target_forms_agree "worksheets/sheet1.xml") as (Ha & _ & Hc & _);
    [reflexivity..|].
  split; [exact Ha | exact Hc].
Defined.

Lemma sheet_entry_shape (relations : gmap string string) (sheet : Element)
    (name path : string) :
  sheet_entry relations sheet = Some (name, path) →
  name ≠ EmptyString ∧ startswith path "/" = false.
Proof.
  unfold sheet_entry.
  destruct (attrib sheet !! "name") as [[|a n]|]; [done| |done].
  destruct (attrib sheet !! qname NS_REL "id") as [[|b i]|]; [done| |done].
  destruct (relations !! String b i) as [[|c t]|]; [done| |done].
  intros ?; simplify_eq. split; [done|].
  apply sheet_path_no_slash.
Qed.

(** X8. When the workbook part is there and well formed and the
    relationships load, a sheet name is bound to the path of the last sheet
    element that carries it, among the sheet elements with a name, an id
    and a target for the id, none of them empty; a sheet element that
    lacks one of these leaves what an earlier one bound. No name of the
    index is empty and no path of the index starts with a slash. *)
Theorem X8_sheet_index_last_wins (a : archive) (root : Element)
    (relations : gmap string string) :
  a !! "xl/workbook.xml" = Some (WellFormed root) →
  workbook_relationships a = Ok relations →
  ∃ sheets,
    workbook_sheets a = Ok sheets
    ∧ (∀ name,
         sheets !! name
         = last_binding name
             (omap (sheet_entry relations) (findall2 (m "sheets") (m "sheet") root)))
    ∧ (∀ name path, sheets !! name = Some path →
         name ≠ EmptyString ∧ startswith path "/" = false).
Proof.
  intros Ha Hr. eexists. split.
  - unfold workbook_sheets, archive_read. rewrite Ha. simpl. rewrite Hr. reflexivity.
  - assert (∀ name,
              foldl (add_sheet relations) ∅ (findall2 (m "sheets") (m "sheet") root) !! name
              = last_binding name
                  (omap (sheet_entry relations) (findall2 (m "sheets") (m "sheet") root)))
      as Hlookup.
    { intros name.
      rewrite (foldl_insert_last_binding (sheet_entry relations) (add_sheet relations)
                 (add_sheet_entry relations)).
      rewrite lookup_empty. by destruct (last_binding _ _). }
    split; [exact Hlookup|].
    intros name path H. rewrite Hlookup in H.
    apply last_binding_elem, list_elem_of_omap in H as (sheet & _ & H).
    by eapply sheet_entry_shape.
Qed.

Lemma X8_sheet_index_last_wins_witness :
  doubled_archive !! "xl/workbook.xml" = Some (WellFormed doubled_workbook)
  ∧ workbook_relationships doubled_archive
    = Ok {[ "rId1" := "/xl/worksheets/new.xml" ]}
  ∧ ∃ sheets,
      workbook_sheets doubled_archive = Ok sheets
      ∧ sheets !! "Data" = Some "xl/worksheets/new.xml".
Proof.
  split; [reflexivity|]. split; [vm_compute; reflexivity|].
  destruct (X8_sheet_index_last_wins doubled_archive doubled_workbook
              {[ "rId1" := "/xl/worksheets/new.xml" ]})
    as (sheets & Hs & Hl & _); [reflexivity | vm_compute; reflexivity |].
  exists sheets. split; [exact Hs|]. rewrite Hl. reflexivity.
Defined.

(** ** What a worksheet part yields *)

(** The table of a well-formed part, and what reading raises otherwise. *)
Lemma load_sheet_rows_cases (a : archive) (sheet_path : string) (shared : list string) :
  load_sheet_rows a sheet_path shared
  = match a !! sheet_path with
    | None => Raise (no_item sheet_path)
    | Some NotWellFormed => Raise ParseError
    | Some (WellFormed root) =>
        Ok (row_values shared <$> findall2 (m "sheetData") (m "row") root)
    end.
Proof.
  unfold load_sheet_rows, archive_read.
  destruct (a !! sheet_path) as [[root|]|]; [|done..]. simpl.
  apply sheet_rows_values.
Qed.

(** A boolean cell is TRUE when the text of its value node is exactly
    the digit 1 and FALSE otherwise: the text is compared as it is written,
    so a 1 with a space before it gives FALSE. *)
Theorem boolean_cell_exact (shared cells : list string) (cell : Element) :
  attrib cell !! "t" = Some "b" →
  process_cell shared cells cell
  = Ok (pad_to cells (cell_index cells cell)
        ++ [if decide (value_text cell = Some "1") then "TRUE" else "FALSE"]).
Proof.
  intros Ht. unfold process_cell, cell_text. rewrite Ht.
  rewrite decide_False by done. rewrite decide_True by done. simpl.
  by destruct (decide (value_text cell = Some "1")).
Qed.

Lemma boolean_cell_exact_example :
  attrib (typed_cell "A1" "b" " 1") !! "t" = Some "b"
  ∧ process_cell [] [] (typed_cell "A1" "b" " 1") = Ok ["FALSE"]
  ∧ process_cell [] [] (typed_cell "A1" "b" "1") = Ok ["TRUE"].
Proof.
  split; [reflexivity|]. split.
  - rewrite (boolean_cell_exact [] [] (typed_cell "A1" "b" " 1")); reflexivity.
  - rewrite (boolean_cell_exact [] [] (typed_cell "A1" "b" "1")); reflexivity.
Defined.

(** ** String items and the cells that name them *)

(** X10. When the shared-string part is there and well formed, the table
    has one entry for each string item, in document order, and a
    shared-string cell whose value text reads as the number of an item
    (counting from 0) is exactly the entry of that item. *)
Theorem X10_shared_index_resolves (a : archive) (root entry : Element)
    (cells : list string) (cell : Element) (vt : string) (i : nat) :
  a !! "xl/sharedStrings.xml" = Some (WellFormed root) →
  findall1 (m "si") root !! i = Some entry →
  attrib cell !! "t" = Some "s" →
  value_text cell = Some vt →
  int vt = Ok (Z.of_nat i) →
  ∃ shared,
    load_shared_strings a = Ok shared
    ∧ length shared = length (findall1 (m "si") root)
    ∧ shared !! i = Some (shared_entry entry)
    ∧ process_cell shared cells cell
      = Ok (pad_to cells (cell_index cells cell) ++ [shared_entry entry]).
Proof.
  intros Ha Hentry Ht Hv Hint.
  exists (shared_entry <$> findall1 (m "si") root).
  assert ((shared_entry <$> findall1 (m "si") root) !! i = Some (shared_entry entry)) as Hl.
  { by rewrite list_lookup_fmap, Hentry. }
  split; [|split; [|split]].
  - unfold load_shared_strings, archive_read. by rewrite Ha.
  - by rewrite length_fmap.
  - exact Hl.
  - unfold process_cell, cell_text. rewrite Ht, Hv, decide_True by done.
    rewrite (shared_text_entry _ vt (Z.of_nat i) (shared_entry entry));
      [|done|lia|by rewrite Nat2Z.id].
    simpl. do 3 f_equal. unfold shared_entry. apply normalize_idemp.
Qed.

Lemma X10_shared_index_resolves_witness :
  mixed_archive !! "xl/sharedStrings.xml" = Some (WellFormed mixed_shared_strings)
  ∧ attrib (shared_cell "1") !! "t" = Some "s"
  ∧ value_text (shared_cell "1") = Some "1"
  ∧ int "1" = Ok (Z.of_nat 1)
  ∧ ∃ shared,
      load_shared_strings mixed_archive = Ok shared
      ∧ process_cell shared [] (shared_cell "1") = Ok ["Hello World"].
Proof.
  split; [reflexivity|]. split; [reflexivity|]. split; [reflexivity|].
  split; [reflexivity|].
  destruct (X10_shared_index_resolves mixed_archive mixed_shared_strings
              (Elem (m "si") ∅ None
                 [Elem (m "r") ∅ None
                    [Elem (m "t") {[ XML_SPACE := "preserve" ]} (Some "Hello ") []];
                  Elem (m "r") ∅ None [Elem (m "t") ∅ (Some " World ") []]])
              [] (shared_cell "1") "1" 1)
    as (shared & Hs & _ & _ & Hp); [reflexivity..|].
  exists shared. split; [exact Hs|]. rewrite Hp. reflexivity.
Defined.

(** X11. A cell that is not of the shared-string, boolean or inline-string
    type and has a value node with text yields the normalized text of that
    node, whatever inline runs it has; a text with no line break and no
    white space at its ends is kept character for character. *)
Theorem X11_untyped_cell (shared cells : list string) (cell : Element) (vt : string) :
  attrib cell !! "t" ≠ Some "s" → attrib cell !! "t" ≠ Some "b" →
  attrib cell !! "t" ≠ Some "inlineStr" →
  value_text cell = Some vt →
  process_cell shared cells cell
  = Ok (pad_to cells (cell_index cells cell) ++ [normalize (Some vt)])
  ∧ (all_chars (λ c, negb (is_line_break c)) vt = true →
     starts_clean is_space vt → ends_clean is_space vt →
     process_cell shared cells cell = Ok (pad_to cells (cell_index cells cell) ++ [vt])).
Proof.
  intros H1 H2 H3 Hv.
  assert (process_cell shared cells cell
          = Ok (pad_to cells (cell_index cells cell) ++ [normalize (Some vt)])) as Hp.
  { unfold process_cell, cell_text. rewrite !decide_False by done. by rewrite Hv. }
  split; [exact Hp|]. intros Hl Hs He. rewrite Hp. do 3 f_equal.
  rewrite normalize_Some.
  rewrite (map_chars_id_on _ (λ c, negb (is_line_break c))); [|..|done].
  - by apply strip_clean_id.
  - intros c Hc. unfold space_for_line_break, is_line_break in *.
    destruct (decide (c = CR ∨ c = LF)); [|done].
    by rewrite bool_decide_eq_true_2 in Hc.
Qed.

Lemma X11_untyped_cell_witness :
  value_text value_and_inline_cell = Some "3.50"
  ∧ process_cell [] [] value_and_inline_cell = Ok ["3.50"].
Proof.
  split; [reflexivity|].
  destruct (X11_untyped_cell [] [] value_and_inline_cell "3.50") as [_ H];
    [discriminate..|reflexivity|].
  rewrite H; reflexivity.
Defined.

(** ** The width of a row *)

Lemma place_cell_width (shared cells : list string) (cell : Element) :
  Z.of_nat (length (place_cell shared cells cell))
  = width_after (Z.of_nat (length cells)) cell.
Proof. rewrite place_cell_length, cell_index_column_of. done. Qed.

Lemma foldl_place_cell_length (shared : list string) (cs : list Element)
    (cells : list string) :
  Z.of_nat (length (foldl (place_cell shared) cells cs))
  = foldl width_after (Z.of_nat (length cells)) cs.
Proof.
  revert cells. induction cs as [|c cs IH]; intros cells; [done|].
  simpl. by rewrite IH, place_cell_width.
Qed.

Lemma foldl_width_after_bounds (cs : list Element) (width : Z) :
  width + Z.of_nat (length cs) ≤ foldl width_after width cs
  ∧ ∀ cell, cell ∈ cs → ¬ no_reference cell →
      excel_column_index (default EmptyString (attrib cell !! "r"))
      < foldl width_after width cs.
Proof.
  revert width. induction cs as [|c cs IH]; intros width.
  - split; [simpl; lia|]. intros cell Hc. by apply elem_of_nil in Hc.
  - destruct (IH (width_after width c)) as [IH1 IH2].
    assert (width + 1 ≤ width_after width c) as Hw by (unfold width_after; lia).
    split; [simpl length; simpl foldl; lia|].
    intros cell [->|Hc]%elem_of_cons Href; [|by apply IH2].
    simpl. assert (column_of width c < width_after width c) as Hcol
      by (unfold width_after; lia).
    unfold column_of in Hcol. unfold no_reference in Href.
    rewrite decide_False in Hcol by done. lia.
Qed.

(** X12. The length of a row follows from the cell elements alone: each
    cell brings the row to one more than the larger of its length and the
    column the cell names. So a row is at least as long as it has cell
    elements, and long enough to hold the column of every explicit
    reference in it. *)
Theorem X12_row_width (shared : list string) (row : Element) :
  ∃ cells,
    row_cells shared row = Ok cells
    ∧ Z.of_nat (length cells) = foldl width_after 0 (findall1 (m "c") row)
    ∧ (length (findall1 (m "c") row) ≤ length cells)%nat
    ∧ (∀ cell ref, cell ∈ findall1 (m "c") row →
         attrib cell !! "r" = Some ref → ref ≠ EmptyString →
         excel_column_index ref < Z.of_nat (length cells)).
Proof.
  exists (row_values shared row). split; [apply row_cells_values|].
  assert (Z.of_nat (length (row_values shared row))
          = foldl width_after 0 (findall1 (m "c") row)) as Hw.
  { unfold row_values. by rewrite foldl_place_cell_length. }
  destruct (foldl_width_after_bounds (findall1 (m "c") row) 0) as [H1 H2].
  split; [exact Hw|]. split; [lia|].
  intros cell ref Hc Hr Hn. rewrite Hw.
  specialize (H2 cell Hc). unfold no_reference in H2. rewrite Hr in H2. simpl in H2.
  by apply H2.
Qed.

Lemma X12_row_width_witness :
  value_cell "D1" "x" ∈ findall1 (m "c") (row_of [value_cell "D1" "x"; value_cell "A1" "y"])
  ∧ attrib (value_cell "D1" "x") !! "r" = Some "D1"
  ∧ ∃ cells,
      row_cells [] (row_of [value_cell "D1" "x"; value_cell "A1" "y"]) = Ok cells
      ∧ excel_column_index "D1" < Z.of_nat (length cells).
Proof.
  assert (value_cell "D1" "x"
          ∈ findall1 (m "c") (row_of [value_cell "D1" "x"; value_cell "A1" "y"])) as Hin.
  { change (findall1 (m "c") (row_of [value_cell "D1" "x"; value_cell "A1" "y"]))
      with [value_cell "D1" "x"; value_cell "A1" "y"]. left. }
  split; [exact Hin|]. split; [reflexivity|].
  destruct (X12_row_width [] (row_of [value_cell "D1" "x"; value_cell "A1" "y"]))
    as (cells & Hc & _ & _ & H).
  exists cells. split; [exact Hc|].
  apply (H (value_cell "D1" "x") "D1" Hin); [reflexivity|discriminate].
Defined.

Lemma foldl_place_cell_dense (shared : list string) (cs : list Element)
    (cells : list string) :
  Forall no_reference cs →
  foldl (place_cell shared) cells cs = cells ++ (cell_value shared <$> cs).
Proof.
  revert cells. induction cs as [|c cs IH]; intros cells Hcs; simpl.
  - by rewrite app_nil_r.
  - apply Forall_cons in Hcs as [Hc Hcs]. rewrite IH by done.
    unfold place_cell, cell_index. unfold no_reference in Hc. rewrite Hc.
    rewrite decide_True by done. rewrite pad_to_replicate.
    replace (Z.to_nat _) with O by lia. simpl. by rewrite app_nil_r, <- app_assoc.
Qed.

(** X13. A row whose cell elements carry no column reference has exactly
    one cell for each of them, in document order, with no padding. *)
Theorem X13_row_without_references (shared : list string) (row : Element) :
  Forall no_reference (findall1 (m "c") row) →
  row_cells shared row = Ok (cell_value shared <$> findall1 (m "c") row).
Proof.
  intros H. rewrite row_cells_values. unfold row_values.
  by rewrite foldl_place_cell_dense.
Qed.

Lemma X13_row_without_references_witness :
  Forall no_reference (findall1 (m "c") (row_of [bare_cell "x"; bare_cell " y "]))
  ∧ row_cells [] (row_of [bare_cell "x"; bare_cell " y "]) = Ok ["x"; "y"].
Proof.
  assert (Forall no_reference
            (findall1 (m "c") (row_of [bare_cell "x"; bare_cell " y "]))) as H.
  { repeat constructor. }
  split; [exact H|].
  rewrite (X13_row_without_references [] _ H). reflexivity.
Defined.

(** ** Reading the CSV back *)

Lemma special_false (c : ascii) :
  Csv.special c = false → c ≠ COMMA ∧ c ≠ DQUOTE ∧ c ≠ CR ∧ c ≠ LF.
Proof.
  intros H. repeat split; intros ->; by vm_compute in H.
Qed.

Lemma read_plain_field (f acc : string) (fields : list string) (d : ascii) (tail : string) :
  needs_quoting f = false → d = COMMA ∨ d = CR →
  read_csv (InPlain acc) fields (f +:+ String d tail)
  = read_csv (after_field d) (fields ++ [acc +:+ f]) tail.
Proof.
  revert acc. induction f as [|c f IH]; intros acc Hf Hd.
  - rewrite str_app_nil_r. change (EmptyString +:+ String d tail) with (String d tail).
    by destruct Hd as [-> | ->].
  - simpl in Hf. apply orb_false_iff in Hf as [Hc Hf].
    destruct (special_false c Hc) as (H1 & H2 & H3 & H4).
    rewrite str_app_cons. cbn [read_csv]. rewrite !decide_False by done.
    rewrite IH by done. do 3 f_equal.
    by rewrite str_app_assoc.
Qed.

Lemma read_quoted_field (f acc : string) (fields : list string) (d : ascii) (tail : string) :
  d = COMMA ∨ d = CR →
  read_csv (InQuoted acc) fields (double_quotes f +:+ String DQUOTE (String d tail))
  = read_csv (after_field d) (fields ++ [acc +:+ f]) tail.
Proof.
  intros Hd. revert acc. induction f as [|c f IH]; intros acc.
  - rewrite str_app_nil_r. cbn [double_quotes].
    change (EmptyString +:+ ?s) with s. cbn [read_csv].
    rewrite decide_True by done. by destruct Hd as [-> | ->].
  - cbn [double_quotes]. destruct (decide (c = DQUOTE)) as [->|Hc].
    + rewrite !str_app_cons. cbn [read_csv]. rewrite !decide_True by done.
      rewrite IH. do 3 f_equal. by rewrite str_app_assoc.
    + rewrite str_app_cons. cbn [read_csv]. rewrite decide_False by done.
      rewrite IH. do 3 f_equal. by rewrite str_app_assoc.
Qed.

(** A field as the writer writes it, read from the start of a field. *)
Lemma read_encoded_field (st : reader_state) (f : string) (fields : list string)
    (d : ascii) (tail : string) :
  d = COMMA ∨ d = CR →
  st = FieldStart ∨ (st = RecordStart ∧ (needs_quoting f = true ∨ f ≠ EmptyString ∨ d = COMMA)) →
  read_csv st fields (encode_field f +:+ String d tail)
  = read_csv (after_field d) (fields ++ [f]) tail.
Proof.
  intros Hd Hst. unfold encode_field. destruct (needs_quoting f) eqn:Hq.
  - unfold quoted. rewrite str_app_cons, str_app_assoc.
    change (str DQUOTE +:+ String d tail) with (String DQUOTE (String d tail)).
    assert (read_csv st fields
              (String DQUOTE (double_quotes f +:+ String DQUOTE (String d tail)))
            = read_csv (InQuoted EmptyString) fields
                (double_quotes f +:+ String DQUOTE (String d tail))) as ->.
    { by destruct Hst as [-> | [-> _]]. }
    by rewrite read_quoted_field.
  - destruct f as [|c f].
    + change (EmptyString +:+ String d tail) with (String d tail).
      destruct Hst as [-> | [-> [?|[?|Hc]]]]; try done.
      * by destruct Hd as [-> | ->].
      * by rewrite Hc.
    + simpl in Hq. apply orb_false_iff in Hq as [Hc Hf].
      destruct (special_false c Hc) as (H1 & H2 & H3 & H4).
      rewrite str_app_cons.
      assert (read_csv st fields (String c (f +:+ String d tail))
              = read_csv (InPlain (str c)) fields (f +:+ String d tail)) as ->.
      { destruct Hst as [-> | [-> _]]; cbn [read_csv]; by rewrite !decide_False by done. }
      by rewrite read_plain_field.
Qed.

Lemma more_fields_first (more : list string) (rest : string) :
  ∃ d tail, (d = COMMA ∨ d = CR)
            ∧ more_fields more +:+ String CR (String LF rest) = String d tail
            ∧ (more ≠ [] → d = COMMA).
Proof.
  destruct more as [|g more].
  - exists CR, (String LF rest). split; [by right|]. split; [done|]. done.
  - exists COMMA, (encode_field g +:+ more_fields more +:+ String CR (String LF rest)).
    split; [by left|]. split; [|done].
    cbn [more_fields]. unfold str. by rewrite !str_app_assoc, str_app_cons.
Qed.

(** The fields of a record, read one after the other up to the end of the
    record. *)
Lemma read_fields (more : list string) (st : reader_state) (f : string)
    (fields : list string) (rest : string) :
  st = FieldStart
  ∨ (st = RecordStart ∧ (needs_quoting f = true ∨ f ≠ EmptyString ∨ more ≠ [])) →
  read_csv st fields (encode_field f +:+ more_fields more +:+ String CR (String LF rest))
  = ((fields ++ f :: more) ::.) <$> read_csv RecordStart [] rest.
Proof.
  revert st f fields. induction more as [|g more IH]; intros st f fields Hst.
  - change (more_fields [] +:+ ?s) with s.
    rewrite read_encoded_field; [|by right|].
    + change (after_field CR) with AfterCR. cbn [read_csv].
      by rewrite decide_True by done.
    + destruct Hst as [?|[? [?|[?|?]]]]; [by left| | |done].
      * right. split; [done|]. by left.
      * right. split; [done|]. right. by left.
  - cbn [more_fields]. unfold str at 1. rewrite !str_app_assoc, str_app_cons.
    change (EmptyString +:+ ?s) with s.
    rewrite read_encoded_field; [|by left|].
    + change (after_field COMMA) with FieldStart.
      rewrite IH by (by left). by rewrite <- app_assoc.
    + destruct Hst as [?|[? _]]; [by left|].
      right. split; [done|]. right. by right.
Qed.

Lemma read_record (row : list string) (rest : string) :
  read_csv RecordStart [] (encode_record row +:+ rest)
  = (row ::.) <$> read_csv RecordStart [] rest.
Proof.
  unfold encode_record. destruct (decide (row = [EmptyString])) as [->|Hne].
  - reflexivity.
  - destruct row as [|f more]; [reflexivity|].
    rewrite join_more_fields. unfold str. rewrite !str_app_assoc.
    change (String CR EmptyString +:+ String LF EmptyString +:+ rest)
      with (String CR (String LF rest)).
    rewrite read_fields; [done|]. right. split; [done|].
    destruct (needs_quoting f) eqn:Hq; [by left|]. right.
    destruct f as [|c f]; [|by left]. right. by intros ->.
Qed.

Lemma read_records (rows : list (list string)) :
  read_csv RecordStart [] (concat_str (encode_record <$> rows)) = Some rows.
Proof.
  induction rows as [|row rows IH]; [done|].
  cbn [fmap list_fmap concat_str]. by rewrite read_record, IH.
Qed.

(** X14. A reader of the dialect gets back from the file exactly the table
    that was written: the rows in order, each with its fields as they
    were, an empty row and a row of one empty field told apart. *)
Theorem X14_csv_round_trip (rows : list (list string)) (output_path : Path) (fs : files) :
  ∃ content,
    write_csv rows output_path fs !! path_str output_path = Some content
    ∧ read_csv RecordStart [] content = Some rows.
Proof.
  eexists. split.
  - unfold write_csv. rewrite lookup_insert_eq, foldl_writerow. reflexivity.
  - apply read_records.
Qed.

(** X15. Two tables that differ never give the same file, and two rows that
    differ never give the same record. *)
Theorem X15_csv_injective :
  (∀ rows1 rows2 output_path fs1 fs2,
      write_csv rows1 output_path fs1 !! path_str output_path
      = write_csv rows2 output_path fs2 !! path_str output_path →
      rows1 = rows2)
  ∧ (∀ row1 row2, Csv.writerow row1 = Csv.writerow row2 → row1 = row2).
Proof.
  split.
  - intros rows1 rows2 output_path fs1 fs2 H. unfold write_csv in H.
    rewrite !lookup_insert_eq, !foldl_writerow in H.
    change (EmptyString +:+ ?s) with s in H.
    assert (Some rows1 = Some rows2) as Heq; [|by simplify_eq].
    rewrite <- (read_records rows1), <- (read_records rows2). congruence.
  - intros row1 row2 H. rewrite !writerow_encode_record in H.
    assert (Some [row1] = Some [row2]) as Heq; [|by simplify_eq].
    rewrite <- (read_records [row1]), <- (read_records [row2]).
    cbn [fmap list_fmap concat_str]. by rewrite H.
Qed.

Lemma X15_csv_injective_witness :
  Csv.writerow ["a,b"] = Csv.writerow ["a,b"] ∧ ["a,b"] = ["a,b"].
Proof.
  split; [reflexivity|].
  destruct X15_csv_injective as [_ H]. apply H. reflexivity.
Defined.

(** ** One line for each record *)

Lemma count_char_app (c : ascii) (s t : string) :
  count_char c (s +:+ t) = (count_char c s + count_char c t)%nat.
Proof.
  induction s as [|d s IH]; [done|]. rewrite str_app_cons. simpl. rewrite IH. lia.
Qed.

Lemma count_char_double_quotes (c : ascii) (f : string) :
  c ≠ DQUOTE → count_char c (double_quotes f) = count_char c f.
Proof.
  intros Hc. induction f as [|d f IH]; [done|]. simpl.
  destruct (decide (d = DQUOTE)) as [->|?]; simpl; rewrite IH; [|done].
  by rewrite !decide_False by done.
Qed.

Lemma count_char_encode_field (c : ascii) (f : string) :
  c ≠ DQUOTE → count_char c (encode_field f) = count_char c f.
Proof.
  intros Hc. unfold encode_field. destruct (needs_quoting f); [|done].
  unfold quoted. simpl. rewrite decide_False by done.
  rewrite count_char_app, count_char_double_quotes by done. simpl.
  rewrite decide_False by done. lia.
Qed.

Lemma count_char_no_line_break (c : ascii) (s : string) :
  c = CR ∨ c = LF →
  all_chars (λ c, negb (is_line_break c)) s = true → count_char c s = O.
Proof.
  intros Hc. induction s as [|d s IH]; [done|]. simpl.
  intros [Hd Hs]%andb_true_iff. rewrite IH by done.
  destruct (decide (c = d)) as [<-|?]; [|done].
  unfold is_line_break in Hd. by rewrite bool_decide_eq_true_2 in Hd.
Qed.

Lemma normalized_no_line_break (s : string) :
  normalized s → all_chars (λ c, negb (is_line_break c)) s = true.
Proof. intros [t ->]. apply normalize_no_line_break. Qed.

Lemma count_char_more_fields (c : ascii) (row : list string) :
  c = CR ∨ c = LF → Forall normalized row → count_char c (more_fields row) = O.
Proof.
  intros Hc. induction 1 as [|f row Hf Hrow IH]; [done|].
  cbn [more_fields]. rewrite !count_char_app, IH.
  rewrite count_char_encode_field by (by destruct Hc as [-> | ->]).
  rewrite (count_char_no_line_break c f) by auto using normalized_no_line_break.
  by destruct Hc as [-> | ->].
Qed.

Lemma count_char_encode_record (c : ascii) (row : list string) :
  c = CR ∨ c = LF → Forall normalized row → count_char c (encode_record row) = 1%nat.
Proof.
  intros Hc Hrow. unfold encode_record. rewrite !count_char_app.
  assert (count_char c (str CR) + count_char c (str LF) = 1)%nat as Hend
    by (by destruct Hc as [-> | ->]).
  destruct (decide (row = [EmptyString])) as [->|Hne].
  - destruct Hc as [-> | ->]; reflexivity.
  - destruct row as [|f row]; [by destruct Hc as [-> | ->]|].
    apply Forall_cons in Hrow as [Hf Hrow].
    rewrite join_more_fields, count_char_app, count_char_more_fields by done.
    rewrite count_char_encode_field by (by destruct Hc as [-> | ->]).
    rewrite (count_char_no_line_break c f) by auto using normalized_no_line_break.
    lia.
Qed.

Lemma count_char_records (c : ascii) (rows : list (list string)) :
  c = CR ∨ c = LF → Forall (Forall normalized) rows →
  count_char c (concat_str (encode_record <$> rows)) = length rows.
Proof.
  intros Hc. induction 1 as [|row rows Hrow Hrows IH]; [done|].
  cbn [fmap list_fmap concat_str]. rewrite count_char_app, IH.
  by rewrite count_char_encode_record.
Qed.

(** X16. The file written for the table of a worksheet has one physical
    line for each row: it holds as many carriage returns and as many line
    feeds as the table has rows, whatever line breaks the cells of the
    worksheet held. *)
Theorem X16_one_line_per_row (a : archive) (sheet_path : string) (shared : list string)
    (rows : list (list string)) (output_path : Path) (fs : files) :
  load_sheet_rows a sheet_path shared = Ok rows →
  ∃ content,
    write_csv rows output_path fs !! path_str output_path = Some content
    ∧ count_char LF content = length rows
    ∧ count_char CR content = length rows.
Proof.
  intros Hrows. rewrite load_sheet_rows_cases in Hrows.
  destruct (a !! sheet_path) as [[root|]|]; [|done..]. simplify_eq.
  eexists. split.
  - unfold write_csv. rewrite lookup_insert_eq, foldl_writerow. reflexivity.
  - change (EmptyString +:+ ?s) with s.
    assert (Forall (Forall normalized)
              (row_values shared <$> findall2 (m "sheetData") (m "row") root)) as Hn.
    { apply Forall_fmap, Forall_forall. intros row _. apply row_values_normalized. }
    split; apply count_char_records; auto.
Qed.

Lemma X16_one_line_per_row_witness :
  load_sheet_rows two_line_archive "xl/worksheets/sheet1.xml" [] = Ok [["line1 line2"]]
  ∧ ∃ content,
      write_csv [["line1 line2"]] demo_output_dir ∅ !! path_str demo_output_dir = Some content
      ∧ count_char LF content = length [["line1 line2"]]
      ∧ count_char CR content = length [["line1 line2"]].
Proof.
  split; [vm_compute; reflexivity|].
  apply (X16_one_line_per_row two_line_archive "xl/worksheets/sheet1.xml" []).
  vm_compute. reflexivity.
Defined.

(** ** What a conversion writes *)

Section ConversionFiles.
Variables (a : archive) (shared : list string) (sheet_map : gmap string string).
Variables (input_path output_dir : Path).

Let body := convert_sheet a shared sheet_map input_path output_dir.

Lemma convert_sheet_ok (fs fs' : files) (sheet_name : string) :
  body fs sheet_name = Ok fs' →
  ∃ sheet_path rows,
    sheet_map !! sheet_name = Some sheet_path
    ∧ load_sheet_rows a sheet_path shared = Ok rows
    ∧ fs' = <[path_str (output_path input_path output_dir sheet_name)
              := concat_str (encode_record <$> rows)]> fs.
Proof.
  unfold body, convert_sheet.
  destruct (sheet_map !! sheet_name) as [[|c sheet_path]|]; [done| |done]. simpl.
  destruct (load_sheet_rows _ _ _) as [rows|e] eqn:Hr; [|done]. simpl.
  intros ?; simplify_eq. exists (String c sheet_path), rows.
  split; [done|]. split; [done|].
  unfold write_csv. by rewrite foldl_writerow.
Qed.

(** Whatever the outcome, a path that is the output path of no requested
    sheet holds afterwards what it held before, and no file is removed. *)
Lemma convert_loop_frame (sheets : list string) (fs fs' : files) (r : result unit) :
  convert_loop body sheets fs = (fs', r) →
  (∀ p, sheets_at input_path output_dir p sheets = [] → fs' !! p = fs !! p)
  ∧ (∀ p, is_Some (fs !! p) → is_Some (fs' !! p)).
Proof.
  revert fs. induction sheets as [|s sheets IH]; intros fs H; simpl in H.
  - by simplify_eq.
  - destruct (body fs s) as [fs1|e] eqn:Hb; [|by simplify_eq].
    destruct (convert_sheet_ok _ _ _ Hb) as (sheet_path & rows & _ & _ & ->).
    destruct (IH _ H) as [IH1 IH2]. split.
    + intros p Hp. unfold sheets_at in Hp. rewrite filter_cons in Hp.
      destruct (decide (path_str (output_path input_path output_dir s) = p)); [done|].
      rewrite IH1 by done. by rewrite lookup_insert_ne.
    + intros p Hp. apply IH2.
      destruct (decide (path_str (output_path input_path output_dir s) = p)) as [<-|?].
      * rewrite lookup_insert_eq. by eexists.
      * by rewrite lookup_insert_ne.
Qed.

(** After a conversion that succeeds, a path holds the table of the last
    requested sheet that is written to it. *)
Lemma convert_loop_last (sheets : list string) (fs fs' : files) (p s : string) :
  convert_loop body sheets fs = (fs', Ok ()) →
  last (sheets_at input_path output_dir p sheets) = Some s →
  ∃ sheet_path rows,
    sheet_map !! s = Some sheet_path
    ∧ load_sheet_rows a sheet_path shared = Ok rows
    ∧ fs' !! p = Some (concat_str (encode_record <$> rows)).
Proof.
  revert fs. induction sheets as [|s0 sheets IH]; intros fs H Hlast; [done|].
  simpl in H. destruct (body fs s0) as [fs1|e] eqn:Hb; [|by simplify_eq].
  unfold sheets_at in Hlast. rewrite filter_cons in Hlast.
  destruct (last (sheets_at input_path output_dir p sheets)) as [s1|] eqn:Hrest.
  - apply (IH fs1 H).
    unfold sheets_at in Hrest.
    destruct (decide (path_str (output_path input_path output_dir s0) = p));
      [rewrite last_cons in Hlast|]; by rewrite Hrest in Hlast.
  - apply last_None in Hrest.
    destruct (convert_loop_frame _ _ _ _ H) as [Hframe _].
    rewrite (Hframe p Hrest).
    destruct (decide (path_str (output_path input_path output_dir s0) = p)) as [Hp|?].
    + unfold sheets_at in Hrest. rewrite Hrest in Hlast. simpl in Hlast. simplify_eq.
      destruct (convert_sheet_ok _ _ _ Hb) as (sheet_path & rows & Hs & Hr & ->).
      exists sheet_path, rows. split; [done|]. split; [done|].
      by rewrite lookup_insert_eq.
    + unfold sheets_at in Hrest. by rewrite Hrest in Hlast.
Qed.
End ConversionFiles.

Lemma convert_xlsx_frame (a : archive) (input_path output_dir : Path)
    (sheets : list string) (fs fs' : files) (r : result unit) (p : string) :
  convert_xlsx_to_csv a input_path sheets output_dir fs = (fs', r) →
  ((∀ s, s ∈ sheets → path_str (output_path input_path output_dir s) ≠ p) →
   fs' !! p = fs !! p)
  ∧ (is_Some (fs !! p) → is_Some (fs' !! p)).
Proof.
  unfold convert_xlsx_to_csv.
  destruct (load_shared_strings a) as [shared|e]; [|by intros ?; simplify_eq].
  destruct (workbook_sheets a) as [sheet_map|e]; [|by intros ?; simplify_eq].
  intros H. destruct (convert_loop_frame _ _ _ _ _ _ _ _ _ H) as [H1 H2].
  split; [|apply H2]. intros Hp. apply H1.
  unfold sheets_at.
  destruct (filter _ sheets) as [|s0 l] eqn:E; [done|]. exfalso.
  assert (s0 ∈ filter (λ s, path_str (output_path input_path output_dir s) = p) sheets)
    as [Hs0 Hin]%list_elem_of_filter by (rewrite E; left).
  by apply (Hp s0 Hin).
Qed.

Lemma convert_xlsx_ok_files (a : archive) (input_path output_dir : Path)
    (sheets : list string) (fs fs' : files) (s : string) :
  convert_xlsx_to_csv a input_path sheets output_dir fs = (fs', Ok ()) →
  s ∈ sheets → is_Some (fs' !! path_str (output_path input_path output_dir s)).
Proof.
  unfold convert_xlsx_to_csv.
  destruct (load_shared_strings a) as [shared|e]; [|by intros ?; simplify_eq].
  destruct (workbook_sheets a) as [sheet_map|e]; [|by intros ?; simplify_eq].
  intros H Hs. by eapply (convert_loop_files _ _ _ _ _ _ _ _ H).
Qed.

(** X17. Whether a conversion succeeds or fails, it changes no path but the
    output paths of the requested sheets, and it removes no file. *)
Theorem X17_conversion_touches_outputs_only (a : archive) (input_path output_dir : Path)
    (sheets : list string) (fs fs' : files) (r : result unit) (p : string) :
  convert_xlsx_to_csv a input_path sheets output_dir fs = (fs', r) →
  ((∀ s, s ∈ sheets →
      path_str (path_join output_dir
                  (path_stem input_path +:+ "_" +:+ safe_name s +:+ ".csv")) ≠ p) →
   fs' !! p = fs !! p)
  ∧ (is_Some (fs !! p) → is_Some (fs' !! p)).
Proof. apply convert_xlsx_frame. Qed.

(** X18. After a conversion that succeeds, the output path of a requested
    sheet holds the CSV records of a table of the workbook: that of the
    last requested sheet written to this path. Two sheet names with the
    same safe form share one file, and the later one wins. *)
Theorem X18_conversion_result (a : archive) (input_path output_dir : Path)
    (sheets : list string) (fs fs' : files) (p s : string) :
  convert_xlsx_to_csv a input_path sheets output_dir fs = (fs', Ok ()) →
  last (filter (λ s, path_str (path_join output_dir
                        (path_stem input_path +:+ "_" +:+ safe_name s +:+ ".csv")) = p)
               sheets) = Some s →
  ∃ shared sheet_map sheet_path rows,
    load_shared_strings a = Ok shared
    ∧ workbook_sheets a = Ok sheet_map
    ∧ sheet_map !! s = Some sheet_path
    ∧ load_sheet_rows a sheet_path shared = Ok rows
    ∧ fs' !! p = Some (concat_str (encode_record <$> rows)).
Proof.
  unfold convert_xlsx_to_csv.
  destruct (load_shared_strings a) as [shared|e]; [|by intros ?; simplify_eq].
  destruct (workbook_sheets a) as [sheet_map|e]; [|by intros ?; simplify_eq].
  intros H Hlast.
  destruct (convert_loop_last _ _ _ _ _ _ _ _ _ _ H Hlast) as (sheet_path & rows & ?).
  by exists shared, sheet_map, sheet_path, rows.
Qed.

Lemma X17_conversion_touches_outputs_only_witness :
  convert_xlsx_to_csv demo_archive demo_input ["Day Metrics"; "Events"] demo_output_dir
    {[ "/csv/notes.txt" := "keep" ]}
  = ({[ "/csv/Book_Day_Metrics.csv" := "x," +:+ quoted "y,z" +:+ Csv.lineterminator;
        "/csv/notes.txt" := "keep" ]},
     Raise (sheet_not_found "Events" demo_input))
  ∧ ({[ "/csv/Book_Day_Metrics.csv" := "x," +:+ quoted "y,z" +:+ Csv.lineterminator;
        "/csv/notes.txt" := "keep" ]} : files) !! "/csv/notes.txt"
    = ({[ "/csv/notes.txt" := "keep" ]} : files) !! "/csv/notes.txt".
Proof.
  assert (convert_xlsx_to_csv demo_archive demo_input ["Day Metrics"; "Events"]
            demo_output_dir {[ "/csv/notes.txt" := "keep" ]}
          = ({[ "/csv/Book_Day_Metrics.csv" := "x," +:+ quoted "y,z" +:+ Csv.lineterminator;
                "/csv/notes.txt" := "keep" ]},
             Raise (sheet_not_found "Events" demo_input))) as H
    by (vm_compute; reflexivity).
  split; [exact H|].
  apply (X17_conversion_touches_outputs_only _ _ _ _ _ _ _ "/csv/notes.txt" H).
  intros s Hs. repeat (apply elem_of_cons in Hs as [->|Hs]); [| |by apply elem_of_nil in Hs];
    vm_compute; discriminate.
Defined.

Lemma X18_conversion_result_witness :
  convert_xlsx_to_csv collision_archive demo_input ["a b"; "a_b"] demo_output_dir ∅
  = ({[ "/csv/Book_a_b.csv" := "second" +:+ Csv.lineterminator ]}, Ok ())
  ∧ last (filter (λ s, path_str (path_join demo_output_dir
                         (path_stem demo_input +:+ "_" +:+ safe_name s +:+ ".csv"))
                       = "/csv/Book_a_b.csv")
                 ["a b"; "a_b"]) = Some "a_b"
  ∧ ∃ shared sheet_map sheet_path rows,
      load_shared_strings collision_archive = Ok shared
      ∧ workbook_sheets collision_archive = Ok sheet_map
      ∧ sheet_map !! "a_b" = Some sheet_path
      ∧ load_sheet_rows collision_archive sheet_path shared = Ok rows
      ∧ ({[ "/csv/Book_a_b.csv" := "second" +:+ Csv.lineterminator ]} : files)
          !! "/csv/Book_a_b.csv"
        = Some (concat_str (encode_record <$> rows)).
Proof.
  assert (convert_xlsx_to_csv collision_archive demo_input ["a b"; "a_b"] demo_output_dir ∅
          = ({[ "/csv/Book_a_b.csv" := "second" +:+ Csv.lineterminator ]}, Ok ())) as H
    by (vm_compute; reflexivity).
  assert (last (filter (λ s, path_str (path_join demo_output_dir
                         (path_stem demo_input +:+ "_" +:+ safe_name s +:+ ".csv"))
                       = "/csv/Book_a_b.csv")
                 ["a b"; "a_b"]) = Some "a_b") as Hlast
    by (vm_compute; reflexivity).
  split; [exact H|]. split; [exact Hlast|].
  apply (X18_conversion_result _ _ _ _ _ _ _ _ H Hlast).
Defined.

(** ** Failures before any sheet *)

(** X19. The shared strings and the index are loaded before any sheet is
    looked at, so their failures come with the files untouched, even when
    no sheet is requested: a part that is not well formed gives
    [ParseError], and a missing workbook part gives the [KeyError] of the
    archive, whose message quotes the part's name. With both loaded and no
    sheet requested, the conversion succeeds and writes nothing. *)
Theorem X19_failures_before_any_sheet (a : archive) (input_path output_dir : Path)
    (sheets : list string) (fs : files) :
  (a !! "xl/sharedStrings.xml" = Some NotWellFormed →
   convert_xlsx_to_csv a input_path sheets output_dir fs = (fs, Raise ParseError))
  ∧ (a !! "xl/sharedStrings.xml" ≠ Some NotWellFormed →
     a !! "xl/workbook.xml" = None →
     convert_xlsx_to_csv a input_path sheets output_dir fs
     = (fs, Raise (KeyError "There is no item named 'xl/workbook.xml' in the archive")))
  ∧ (a !! "xl/sharedStrings.xml" ≠ Some NotWellFormed →
     a !! "xl/workbook.xml" = Some NotWellFormed
     ∨ (is_Some (a !! "xl/workbook.xml")
        ∧ a !! "xl/_rels/workbook.xml.rels" = Some NotWellFormed) →
     convert_xlsx_to_csv a input_path sheets output_dir fs = (fs, Raise ParseError))
  ∧ (∀ shared sheet_map,
       load_shared_strings a = Ok shared → workbook_sheets a = Ok sheet_map →
       convert_xlsx_to_csv a input_path [] output_dir fs = (fs, Ok ())).
Proof.
  assert (a !! "xl/sharedStrings.xml" ≠ Some NotWellFormed →
          ∃ shared, load_shared_strings a = Ok shared) as Hshared.
  { intros H. unfold load_shared_strings, archive_read.
    destruct (a !! "xl/sharedStrings.xml") as [[root|]|]; [by eexists|done|by eexists]. }
  split; [|split; [|split]].
  - intros H. unfold convert_xlsx_to_csv, load_shared_strings, archive_read. by rewrite H.
  - intros H1 H2. destruct (Hshared H1) as [shared Hs].
    unfold convert_xlsx_to_csv. rewrite Hs.
    unfold workbook_sheets, archive_read. by rewrite H2.
  - intros H1 H2. destruct (Hshared H1) as [shared Hs].
    unfold convert_xlsx_to_csv. rewrite Hs.
    unfold workbook_sheets, archive_read.
    destruct H2 as [-> | [[[root|] ->] Hrels]]; [done| |done]. simpl.
    unfold workbook_relationships, archive_read. by rewrite Hrels.
  - intros shared sheet_map Hs Hw. unfold convert_xlsx_to_csv. by rewrite Hs, Hw.
Qed.

Lemma X19_failures_before_any_sheet_witness :
  broken_strings_archive !! "xl/sharedStrings.xml" = Some NotWellFormed
  ∧ convert_xlsx_to_csv broken_strings_archive demo_input ["Day Metrics"] demo_output_dir ∅
    = (∅, Raise ParseError)
  ∧ strings_only_archive !! "xl/sharedStrings.xml" ≠ Some NotWellFormed
  ∧ strings_only_archive !! "xl/workbook.xml" = None
  ∧ convert_xlsx_to_csv strings_only_archive demo_input [] demo_output_dir ∅
    = (∅, Raise (KeyError "There is no item named 'xl/workbook.xml' in the archive")).
Proof.
  split; [reflexivity|]. split.
  { destruct (X19_failures_before_any_sheet broken_strings_archive demo_input
                demo_output_dir ["Day Metrics"] ∅) as [H _].
    apply H. reflexivity. }
  assert (strings_only_archive !! "xl/sharedStrings.xml" ≠ Some NotWellFormed) as Hne
    by (vm_compute; discriminate).
  split; [exact Hne|]. split; [reflexivity|].
  destruct (X19_failures_before_any_sheet strings_only_archive demo_input
              demo_output_dir [] ∅) as (_ & H & _).
  apply H; [exact Hne|reflexivity].
Defined.

Lemma lstrip_empty_iff (p : ascii → bool) (s : string) :
  lstrip_with p s = EmptyString ↔ all_chars p s = true.
Proof.
  induction s as [|c s IH]; [done|]. simpl. destruct (p c); [exact IH|]. done.
Qed.

Lemma sheet_path_empty_iff (target : string) :
  sheet_path_of_target target = EmptyString
  ↔ target ≠ EmptyString ∧ all_chars is_slash target = true.
Proof.
  unfold sheet_path_of_target. destruct target as [|c t]; [by split; [|intros [? _]]|].
  destruct (startswith (String c t) "/") eqn:E1.
  - unfold lstrip_chars. rewrite lstrip_empty_iff. by split; [|intros [_ ?]].
  - assert (all_chars is_slash (String c t) = false) as ->.
    { simpl in *. unfold is_slash. simpl.
      destruct (decide ("/"%char = c)) as [<-|?]; [by destruct t|].
      by rewrite decide_False by congruence. }
    destruct (startswith (String c t) "xl/"); by split; [|intros [_ ?]].
Qed.

(** X20. The path of a target is empty exactly when the target is made of
    slashes alone, and a requested sheet whose index entry is the empty
    path is reported like a sheet that is not in the index, with nothing
    written for it. *)
Theorem X20_empty_path_not_found (a : archive) (input_path output_dir : Path)
    (shared : list string) (sheet_map : gmap string string)
    (name : string) (rest : list string) (fs : files) :
  (∀ target, sheet_path_of_target target = EmptyString
             ↔ target ≠ EmptyString ∧ all_chars is_slash target = true)
  ∧ (load_shared_strings a = Ok shared →
     workbook_sheets a = Ok sheet_map →
     sheet_map !! name = Some EmptyString →
     convert_xlsx_to_csv a input_path (name :: rest) output_dir fs
     = (fs, Raise (ValueError ("Sheet '" +:+ name +:+ "' not found in "
                                +:+ path_str input_path)))).
Proof.
  split; [apply sheet_path_empty_iff|].
  intros Hs Hw Hn. unfold convert_xlsx_to_csv. rewrite Hs, Hw. simpl.
  unfold convert_sheet. by rewrite Hn.
Qed.

Lemma X20_empty_path_not_found_witness :
  load_shared_strings slash_archive = Ok []
  ∧ workbook_sheets slash_archive = Ok {[ "Day Metrics" := EmptyString ]}
  ∧ convert_xlsx_to_csv slash_archive demo_input ("Day Metrics" :: []) demo_output_dir ∅
    = (∅, Raise (ValueError "Sheet 'Day Metrics' not found in /build/Book.xlsx")).
Proof.
  split; [reflexivity|]. split; [vm_compute; reflexivity|].
  destruct (X20_empty_path_not_found slash_archive demo_input demo_output_dir []
              {[ "Day Metrics" := EmptyString ]} "Day Metrics" [] ∅) as [_ H].
  apply H; [reflexivity | vm_compute; reflexivity | reflexivity].
Defined.

(** ** Names that are safe already *)

Lemma re_sub_unsafe_all_safe (s : string) :
  all_chars is_safe s = true → re_sub_unsafe "_" O s = s.
Proof.
  induction s as [|c s IH]; [done|]. simpl. intros [Hc Hs]%andb_true_iff.
  by rewrite Hc, IH.
Qed.

Lemma safe_name_of_safe (s : string) :
  all_chars is_safe s = true → s ≠ EmptyString →
  starts_clean is_underscore s → ends_clean is_underscore s →
  safe_name s = s.
Proof.
  intros Hs Hn H1 H2. unfold safe_name. rewrite re_sub_unsafe_all_safe by done.
  unfold strip_chars.
  rewrite (strip_clean_id (λ c, mem c "_") s H1 H2). by destruct s.
Qed.

(** X21. A sheet name made of safe characters only, not empty and with no
    underscore at either end, is its own safe form; so the safe form of a
    safe form is that same form. *)
Theorem X21_safe_names_are_kept (sheet_name : string) :
  (all_chars is_safe sheet_name = true → sheet_name ≠ EmptyString →
   starts_clean is_underscore sheet_name → ends_clean is_underscore sheet_name →
   safe_name sheet_name = sheet_name)
  ∧ safe_name (safe_name sheet_name) = safe_name sheet_name.
Proof.
  split; [apply safe_name_of_safe|].
  rewrite !safe_name_runs.
  destruct (safe_name_by_runs_shape sheet_name) as (H1 & H2 & H3 & H4).
  rewrite <- safe_name_runs at 1. by apply safe_name_of_safe.
Qed.

Lemma X21_safe_names_are_kept_witness :
  all_chars is_safe "Day_Metrics" = true
  ∧ starts_clean is_underscore "Day_Metrics"
  ∧ ends_clean is_underscore "Day_Metrics"
  ∧ safe_name "Day_Metrics" = "Day_Metrics".
Proof.
  split; [reflexivity|]. split; [reflexivity|]. split; [reflexivity|].
  destruct (X21_safe_names_are_kept "Day_Metrics") as [H _].
  apply H; [reflexivity | discriminate | reflexivity | reflexivity].
Defined.

(** ** The entry point *)

Lemma join_snoc (ps : list string) (n : string) :
  join "/" (ps ++ [n]) = concat_str ((λ part, part +:+ "/") <$> ps) +:+ n.
Proof.
  induction ps as [|p ps IH]; [done|].
  change (join "/" ((p :: ps) ++ [n])) with (join "/" (p :: (ps ++ [n]))).
  destruct (ps ++ [n]) as [|q l] eqn:E; [by destruct ps|].
  change (join "/" (p :: q :: l)) with (p +:+ "/" +:+ join "/" (q :: l)).
  rewrite IH. cbn [fmap list_fmap concat_str]. by rewrite !str_app_assoc.
Qed.

Lemma path_str_join (d : Path) (n : string) :
  path_str (path_join d n) = dir_prefix d +:+ n.
Proof.
  unfold path_str, path_join, dir_prefix. simpl.
  rewrite str_app_assoc, <- join_snoc.
  destruct (anchor d); [|done]. by destruct (parts d ++ [n]) eqn:E; [destruct (parts d)|].
Qed.

Lemma dir_prefix_join (d : Path) (n : string) :
  dir_prefix (path_join d n) = dir_prefix d +:+ n +:+ "/".
Proof.
  unfold dir_prefix, path_join. simpl. rewrite fmap_app. simpl.
  assert (∀ l1 l2, concat_str (l1 ++ l2) = concat_str l1 +:+ concat_str l2) as Happ.
  { induction l1 as [|x l1 IH]; intros l2; [done|]. simpl. by rewrite IH, str_app_assoc. }
  rewrite Happ. simpl. by rewrite str_app_nil_r, !str_app_assoc.
Qed.

Lemma path_name_join (d : Path) (n : string) : path_name (path_join d n) = n.
Proof. unfold path_name, path_join. simpl. by rewrite last_snoc. Qed.

Lemma path_str_sub (d : Path) (sub n : string) :
  path_str (path_join (path_join d sub) n) = dir_prefix d +:+ (sub +:+ "/" +:+ n).
Proof. by rewrite path_str_join, dir_prefix_join, !str_app_assoc. Qed.

Lemma workbook_stem (d : Path) :
  path_stem (path_join d WORKBOOK) = "Cavin_Ephemeris_Events_2025_10-11".
Proof. unfold path_stem. rewrite path_name_join. reflexivity. Qed.

(** Two paths under one directory differ when what follows the directory
    differs. *)
Lemma under_prefix_ne (pre s t : string) : s ≠ t → pre +:+ s ≠ pre +:+ t.
Proof. intros Hne Heq. by apply (inj (String.app pre)) in Heq. Qed.

Lemma ephemeris_copy_not_birthday_source (project_root : Path) :
  ephemeris_copy project_root ≠ birthday_source project_root.
Proof.
  unfold ephemeris_copy, birthday_source, main_output_dir.
  rewrite path_str_sub, path_str_join. by apply under_prefix_ne.
Qed.

Lemma copies_not_workbook (project_root : Path) :
  ephemeris_copy project_root ≠ path_str (workbook_path project_root)
  ∧ birthday_copy project_root ≠ path_str (workbook_path project_root).
Proof.
  unfold ephemeris_copy, birthday_copy, workbook_path, main_output_dir.
  rewrite !path_str_sub. split; by apply under_prefix_ne.
Qed.

Lemma copy_sources_cases (project_root : Path) (fs : files) :
  copy_sources (main_output_dir project_root) (csv_sources project_root) fs
  = match fs !! ephemeris_source project_root with
    | None => (fs, Failed (FileNotFoundError (ephemeris_source project_root)))
    | Some c1 =>
        match fs !! birthday_source project_root with
        | None => (<[ephemeris_copy project_root := c1]> fs,
                   Failed (FileNotFoundError (birthday_source project_root)))
        | Some c2 => (<[birthday_copy project_root := c2]>
                        (<[ephemeris_copy project_root := c1]> fs), Done)
        end
    end.
Proof.
  unfold csv_sources. cbn [copy_sources].
  change (path_str (path_join (path_join project_root "build") EPHEMERIS_CSV))
    with (ephemeris_source project_root).
  destruct (fs !! ephemeris_source project_root) as [c1|]; [|done].
  rewrite !path_name_join.
  change (path_str (path_join (main_output_dir project_root) EPHEMERIS_CSV))
    with (ephemeris_copy project_root).
  change (path_str (path_join project_root BIRTHDAY_CSV))
    with (birthday_source project_root).
  change (path_str (path_join (main_output_dir project_root) BIRTHDAY_CSV))
    with (birthday_copy project_root).
  rewrite lookup_insert_ne by apply ephemeris_copy_not_birthday_source.
  by destruct (fs !! birthday_source project_root).
Qed.

Lemma main_cases (unzip : string → option archive) (project_root : Path) (fs : files) :
  main unzip project_root fs
  = match copy_sources (main_output_dir project_root) (csv_sources project_root) fs with
    | (fs, Failed e) => (fs, Failed e)
    | (fs, Done) =>
        match fs !! path_str (workbook_path project_root) with
        | None => (fs, Failed (FileNotFoundError (path_str (workbook_path project_root))))
        | Some bytes =>
            match unzip bytes with
            | None => (fs, Failed BadZipFile)
            | Some a =>
                match convert_xlsx_to_csv a (workbook_path project_root) main_sheets
                        (main_output_dir project_root) fs with
                | (fs, Ok _) => (fs, Done)
                | (fs, Raise e) => (fs, Failed (Propagated e))
                end
            end
        end
    end.
Proof. reflexivity. Qed.

(** X22. [main] checks its three inputs in a fixed order and stops at the
    first that is missing, with [FileNotFoundError] for its path: nothing
    is written when the first CSV source is missing; the copy of the first
    is there when the second is missing; both copies are there when the
    workbook is missing. *)
Theorem X22_main_missing_inputs (unzip : string → option archive) (project_root : Path)
    (fs : files) (c1 c2 : string) :
  (fs !! ephemeris_source project_root = None →
   main unzip project_root fs
   = (fs, Failed (FileNotFoundError (ephemeris_source project_root))))
  ∧ (fs !! ephemeris_source project_root = Some c1 →
     fs !! birthday_source project_root = None →
     main unzip project_root fs
     = (<[ephemeris_copy project_root := c1]> fs,
        Failed (FileNotFoundError (birthday_source project_root))))
  ∧ (fs !! ephemeris_source project_root = Some c1 →
     fs !! birthday_source project_root = Some c2 →
     fs !! path_str (workbook_path project_root) = None →
     main unzip project_root fs
     = (<[birthday_copy project_root := c2]> (<[ephemeris_copy project_root := c1]> fs),
        Failed (FileNotFoundError (path_str (workbook_path project_root))))).
Proof.
  rewrite main_cases, copy_sources_cases. split; [|split].
  - by intros ->.
  - by intros -> ->.
  - intros -> -> Hw. destruct (copies_not_workbook project_root) as [H1 H2].
    by rewrite !lookup_insert_ne, Hw by done.
Qed.

Lemma X22_main_missing_inputs_witness :
  ({[ "/proj/build/ephemeris_2025-10-01T00-00_to_2025-12-01T00-00_UTC_60min.csv" := "e" ]}
     : files) !! ephemeris_source main_root = Some "e"
  ∧ ({[ "/proj/build/ephemeris_2025-10-01T00-00_to_2025-12-01T00-00_UTC_60min.csv" := "e" ]}
       : files) !! birthday_source main_root = None
  ∧ main main_unzip main_root
      {[ "/proj/build/ephemeris_2025-10-01T00-00_to_2025-12-01T00-00_UTC_60min.csv" := "e" ]}
    = (<[ephemeris_copy main_root := "e"]>
         {[ "/proj/build/ephemeris_2025-10-01T00-00_to_2025-12-01T00-00_UTC_60min.csv"
              := "e" ]},
       Failed (FileNotFoundError (birthday_source main_root))).
Proof.
  split; [reflexivity|]. split; [reflexivity|].
  destruct (X22_main_missing_inputs main_unzip main_root
              {[ "/proj/build/ephemeris_2025-10-01T00-00_to_2025-12-01T00-00_UTC_60min.csv"
                   := "e" ]} "e" "b") as (_ & H & _).
  apply H; reflexivity.
Defined.

Lemma main_sheet_file_output (project_root : Path) (sheet_name : string) :
  path_str (output_path (workbook_path project_root) (main_output_dir project_root)
              sheet_name)
  = main_sheet_file project_root sheet_name.
Proof. unfold output_path, workbook_path. rewrite workbook_stem. reflexivity. Qed.

Lemma copies_not_sheet_files (project_root : Path) (sheet_name : string) :
  ephemeris_copy project_root ≠ main_sheet_file project_root sheet_name
  ∧ birthday_copy project_root ≠ main_sheet_file project_root sheet_name
  ∧ ephemeris_copy project_root ≠ birthday_copy project_root.
Proof.
  unfold ephemeris_copy, birthday_copy, main_sheet_file. rewrite !path_str_join.
  repeat split; by apply under_prefix_ne.
Qed.

(** X23. When [main] succeeds, the output directory holds a copy of each
    of the two CSV sources with the contents the source had, and a file
    for each of the sheets Events, Day_Metrics and Settings; every other
    path holds what it held before. *)
Theorem X23_main_success (unzip : string → option archive) (project_root : Path)
    (fs fs' : files) :
  main unzip project_root fs = (fs', Done) →
  (is_Some (fs !! ephemeris_source project_root)
   ∧ fs' !! ephemeris_copy project_root = fs !! ephemeris_source project_root)
  ∧ (is_Some (fs !! birthday_source project_root)
     ∧ fs' !! birthday_copy project_root = fs !! birthday_source project_root)
  ∧ (∀ s, s ∈ main_sheets → is_Some (fs' !! main_sheet_file project_root s))
  ∧ (∀ p, p ≠ ephemeris_copy project_root → p ≠ birthday_copy project_root →
       (∀ s, s ∈ main_sheets → p ≠ main_sheet_file project_root s) →
       fs' !! p = fs !! p).
Proof.
  rewrite main_cases, copy_sources_cases.
  destruct (fs !! ephemeris_source project_root) as [c1|] eqn:H1; [|done].
  destruct (fs !! birthday_source project_root) as [c2|] eqn:H2; [|done].
  destruct (_ !! path_str (workbook_path project_root)) as [bytes|]; [|done].
  destruct (unzip bytes) as [a|]; [|done].
  destruct (convert_xlsx_to_csv _ _ _ _ _) as [fs1 [[]|e]] eqn:Hc; [|done].
  intros ?; simplify_eq.
  assert (∀ p, (∀ s, s ∈ main_sheets → p ≠ main_sheet_file project_root s) →
            fs' !! p
            = (<[birthday_copy project_root := c2]>
                 (<[ephemeris_copy project_root := c1]> fs)) !! p) as Hframe.
  { intros p Hp. apply (convert_xlsx_frame _ _ _ _ _ _ _ p Hc).
    intros s Hs. rewrite main_sheet_file_output. intros Heq. by apply (Hp s Hs). }
  split; [|split; [|split]].
  - split; [done|]. rewrite Hframe.
    + destruct (copies_not_sheet_files project_root EmptyString) as (_ & _ & Hne).
      rewrite lookup_insert_ne by done. by rewrite lookup_insert_eq.
    + intros s _. apply (copies_not_sheet_files project_root s).
  - split; [done|]. rewrite Hframe.
    + by rewrite lookup_insert_eq.
    + intros s _. apply (copies_not_sheet_files project_root s).
  - intros s Hs. rewrite <- main_sheet_file_output.
    by apply (convert_xlsx_ok_files _ _ _ _ _ _ _ Hc).
  - intros p Hp1 Hp2 Hp. rewrite Hframe by done.
    by rewrite !lookup_insert_ne by done.
Qed.

Lemma X23_main_success_witness :
  main main_unzip main_root main_inputs
  = ({[ "/proj/csv/Cavin_Ephemeris_Events_2025_10-11_Events.csv" := "v" +:+ Csv.lineterminator;
        "/proj/csv/Cavin_Ephemeris_Events_2025_10-11_Day_Metrics.csv"
          := "v" +:+ Csv.lineterminator;
        "/proj/csv/Cavin_Ephemeris_Events_2025_10-11_Settings.csv"
          := "v" +:+ Csv.lineterminator;
        "/proj/csv/ephemeris_2025-10-01T00-00_to_2025-12-01T00-00_UTC_60min.csv" := "e";
        "/proj/csv/bdayephemeris.csv" := "b" ]} ∪ main_inputs, Done)
  ∧ ({[ "/proj/csv/Cavin_Ephemeris_Events_2025_10-11_Events.csv" := "v" +:+ Csv.lineterminator;
        "/proj/csv/Cavin_Ephemeris_Events_2025_10-11_Day_Metrics.csv"
          := "v" +:+ Csv.lineterminator;
        "/proj/csv/Cavin_Ephemeris_Events_2025_10-11_Settings.csv"
          := "v" +:+ Csv.lineterminator;
        "/proj/csv/ephemeris_2025-10-01T00-00_to_2025-12-01T00-00_UTC_60min.csv" := "e";
        "/proj/csv/bdayephemeris.csv" := "b" ]} ∪ main_inputs) !! birthday_copy main_root
    = main_inputs !! birthday_source main_root.
Proof.
  assert (main main_unzip main_root main_inputs
  = ({[ "/proj/csv/Cavin_Ephemeris_Events_2025_10-11_Events.csv" := "v" +:+ Csv.lineterminator;
        "/proj/csv/Cavin_Ephemeris_Events_2025_10-11_Day_Metrics.csv"
          := "v" +:+ Csv.lineterminator;
        "/proj/csv/Cavin_Ephemeris_Events_2025_10-11_Settings.csv"
          := "v" +:+ Csv.lineterminator;
        "/proj/csv/ephemeris_2025-10-01T00-00_to_2025-12-01T00-00_UTC_60min.csv" := "e";
        "/proj/csv/bdayephemeris.csv" := "b" ]} ∪ main_inputs, Done)) as H
    by (vm_compute; reflexivity).
  split; [exact H|].
  by destruct (X23_main_success _ _ _ _ H) as (_ & [_ H2] & _).
Defined.
